(** * Node-Backend-Boilerplate: the authentication subsystem

    A shallow embedding of the credential store
    ([InMemoryUserRepository]), the [User] entity, the service template
    ([BaseService]), the authentication engine ([AuthenticationService]),
    the user service ([UserService]), the authorization gate
    ([AuthenticationMiddleware]) and the authentication controller
    ([BaseController], [AuthController]), followed by the properties
    established about them.

    Conventions of the embedding:
    - JavaScript values that leave a component (response bodies, token
      payloads, error objects) are terms of [value]; an object is its
      list of properties in insertion order.
    - A computation that may [throw] (or an [async] function that may
      reject) and that reads and mutates the repository is a function
      [Repo -> Outcome A * Repo].  [try]/[catch] is [try_catch].
    - [process.env], [Date.now()], [uuidv4()] and the bcrypt salt are
      inputs, collected in [Ctx].
    - A JavaScript string is the Rocq string of its UTF-8 encoding;
      [Js.length] counts its UTF-16 code units, as [String.prototype.length]
      does, and [Js.toLowerCase] is the runtime's own lower-casing, a
      parameter of the development.
    - Calls to the injected logger only write to the log sinks; they are
      left out. *)

From Stdlib Require Import ZArith Ascii String List Lia Bool.
From stdpp Require Import gmap strings list fin_maps pretty.

Local Open Scope Z_scope.

(* ===================================================================== *)
(** * JavaScript values *)
(* ===================================================================== *)

(** [VJws alg payload key] is a compact JWS string kept symbolic: the
    header algorithm, the payload object and the key whose MAC the third
    segment carries.  In JavaScript it is a (non-empty) string. *)
#[warnings="-register-all"]
Inductive value : Type :=
| VUndefined
| VNull
| VBool (b : bool)
| VNum (n : Z)
| VStr (s : string)
| VDate (ms : Z)
| VJws (alg : string) (payload : value) (key : string)
| VArr (items : list value)
| VObj (props : list (string * value)).

Module Js.

(** ToBoolean *)
Definition truthy (v : value) : bool :=
  match v with
  | VUndefined | VNull => false
  | VBool b => b
  | VNum n => negb (n =? 0)
  | VStr s => negb (String.eqb s "")
  | VDate _ | VJws _ _ _ | VArr _ | VObj _ => true
  end.

(** [typeof v === 'object'] *)
Definition is_object (v : value) : bool :=
  match v with
  | VNull | VDate _ | VArr _ | VObj _ => true
  | _ => false
  end.

(** [o[k]] on a property list; a missing property reads [undefined]. *)
Fixpoint get (k : string) (props : list (string * value)) : value :=
  match props with
  | [] => VUndefined
  | (k', v) :: rest => if String.eqb k k' then v else get k rest
  end.

(** [delete o[k]] *)
Fixpoint remove (k : string) (props : list (string * value))
  : list (string * value) :=
  match props with
  | [] => []
  | (k', v) :: rest =>
      if String.eqb k k' then remove k rest else (k', v) :: remove k rest
  end.

(** [Object.keys(o)] *)
Definition keys (props : list (string * value)) : list string :=
  map fst props.

(** [v.k] for any value: only objects carry the properties of interest. *)
Definition prop (k : string) (v : value) : value :=
  match v with
  | VObj props => get k props
  | _ => VUndefined
  end.

(** [s.toLowerCase()]: the runtime's lower-casing of every cased letter
    of Unicode.  The development does not tabulate it: it is a
    parameter, and what is proved of the code holds for every such
    function. *)
Class Casing := { toLowerCase : string -> string }.

(** [s.length]: the number of UTF-16 code units of the text that [s]
    encodes.  A code point encoded in one, two or three bytes is one
    unit, one encoded in four bytes is a surrogate pair; continuation
    bytes add nothing. *)
Definition units (c : ascii) : nat :=
  let n := N_of_ascii c in
  if (n <? 128)%N then 1%nat
  else if (n <? 192)%N then 0%nat
  else if (n <? 240)%N then 1%nat
  else 2%nat.

Fixpoint length (s : string) : nat :=
  match s with
  | EmptyString => 0%nat
  | String c rest => (units c + length rest)%nat
  end.

(** [s.trim()] *)
Fixpoint trimStart (s : string) : string :=
  match s with
  | String c rest => if Ascii.is_space c then trimStart rest else s
  | EmptyString => EmptyString
  end.

Definition trim (s : string) : string :=
  String.rev (trimStart (String.rev (trimStart s))).

(** [a || b] on strings that may be absent *)
Definition or_else (o : option string) (d : string) : string :=
  match o with
  | Some s => if String.eqb s "" then d else s
  | None => d
  end.

(** [Math.ceil(a / b)] for [b > 0] *)
Definition ceil_div (a b : Z) : Z := - ((- a) / b).

(** [s.includes(needle)] *)
Fixpoint includes (needle s : string) : bool :=
  String.prefix needle s
  || match s with
     | String _ rest => includes needle rest
     | EmptyString => false
     end.

End Js.

(* ===================================================================== *)
(** * Exceptions and the store-passing computation type *)
(* ===================================================================== *)

(** A thrown [Error]: its [message] and, when set, its [code]. *)
Record Error : Type := mkError { message : string; code : option string }.

Definition new_Error (msg : string) : Error := mkError msg None.

Inductive Outcome (A : Type) : Type :=
| Return (a : A)
| Throw (e : Error).
Arguments Return {A} a.
Arguments Throw {A} e.

Section Computation.
Context {S : Type}.

Definition Comp (A : Type) : Type := S -> Outcome A * S.

Definition ret {A} (a : A) : Comp A := fun s => (Return a, s).
Definition throw {A} (e : Error) : Comp A := fun s => (Throw e, s).
Definition bind {A B} (m : Comp A) (k : A -> Comp B) : Comp B :=
  fun s => match m s with
           | (Return a, s') => k a s'
           | (Throw e, s') => (Throw e, s')
           end.
Definition get_state : Comp S := fun s => (Return s, s).
Definition put_state (s' : S) : Comp unit := fun _ => (Return tt, s').
(** [try { m } catch (error) { h error }]: mutations made before the
    throw stay. *)
Definition try_catch {A} (m : Comp A) (h : Error -> Comp A) : Comp A :=
  fun s => match m s with
           | (Return a, s') => (Return a, s')
           | (Throw e, s') => h e s'
           end.
End Computation.
Arguments Comp S A : clear implicits.

Notation "'let*' x ':=' m 'in' k" := (bind m (fun x => k))
  (at level 10, x name, m at level 100, k at level 200).
Notation "m ';;' k" := (bind m (fun _ => k))
  (at level 100, k at level 200, right associativity).

(* ===================================================================== *)
(** * The packages the services call *)
(* ===================================================================== *)

(** [Joi.string().email()]: the package's address syntax check. *)
Class Joi := { isEmail : string -> bool }.

(** [bcryptjs]: [hash(password, rounds)] draws a salt; [compare] never
    throws on two strings. *)
Class Bcrypt := {
  bcrypt_hash : string -> Z -> string -> string;
  bcrypt_compare : string -> string -> bool
}.

(** The JavaScript runtime: [parseInt] ([None] is [NaN]) and
    [Date.prototype.toISOString]. *)
Class Runtime := {
  parseInt : option string -> option Z;
  toISOString : Z -> string
}.

(** Options of [jwt.sign] as the service passes them. *)
Record SignOptions : Type := mkSignOptions {
  expiresIn : option string;
  algorithm : string
}.

(** [jsonwebtoken]: [sign(payload, secret, options)] on an object
    payload (given by its properties) and
    [verify(token, secret, { algorithms })]; the last argument of both is
    the clock the package reads, in milliseconds. *)
Class JsonWebToken := {
  jwt_sign : list (string * value) -> string -> SignOptions -> Z
             -> Outcome value;
  jwt_verify : value -> string -> list string -> Z -> Outcome value
}.

(** What a call reads from its surroundings. *)
Record Ctx : Type := mkCtx {
  JWT_SECRET : option string;      (* process.env.JWT_SECRET *)
  JWT_EXPIRES_IN : option string;  (* process.env.JWT_EXPIRES_IN *)
  BCRYPT_ROUNDS : option string;   (* process.env.BCRYPT_ROUNDS *)
  now : Z;                         (* Date.now() *)
  uuid : string;                   (* uuidv4() *)
  salt : string                    (* the salt bcrypt draws *)
}.

(* ===================================================================== *)
(** * Entities: BaseEntity and User *)
(* ===================================================================== *)

Record User : Type := mkUser {
  _id : string;
  _createdAt : Z;
  _updatedAt : Z;
  _isActive : bool;
  _email : string;
  _password : string;
  _firstName : string;
  _lastName : string;
  _role : string;
  _isEmailVerified : bool;
  _lastLoginAt : option Z
}.

(** The [data] argument of [new User(data)]. *)
Record UserData : Type := mkUserData {
  d_id : option string;
  d_createdAt : option Z;
  d_updatedAt : option Z;
  d_isActive : option bool;
  d_email : option string;
  d_password : option string;
  d_firstName : option string;
  d_lastName : option string;
  d_role : option string;
  d_isEmailVerified : option bool;
  d_lastLoginAt : option Z
}.

Module Entity.

(** [BaseEntity] constructor followed by [User.initialize]. *)
Definition new_User (c : Ctx) (d : UserData) : User :=
  {| _id := Js.or_else (d_id d) (uuid c);
     _createdAt := from_option id (now c) (d_createdAt d);
     _updatedAt := from_option id (now c) (d_updatedAt d);
     _isActive := from_option id true (d_isActive d);
     _email := Js.or_else (d_email d) "";
     _password := Js.or_else (d_password d) "";
     _firstName := Js.or_else (d_firstName d) "";
     _lastName := Js.or_else (d_lastName d) "";
     _role := Js.or_else (d_role d) "user";
     _isEmailVerified := from_option id false (d_isEmailVerified d);
     _lastLoginAt := d_lastLoginAt d |}.

Definition touch (t : Z) (u : User) : User :=
  {| _id := _id u; _createdAt := _createdAt u; _updatedAt := t;
     _isActive := _isActive u; _email := _email u;
     _password := _password u; _firstName := _firstName u;
     _lastName := _lastName u; _role := _role u;
     _isEmailVerified := _isEmailVerified u;
     _lastLoginAt := _lastLoginAt u |}.

Definition set_email (t : Z) (x : string) (u : User) : User :=
  touch t {| _id := _id u; _createdAt := _createdAt u;
             _updatedAt := _updatedAt u; _isActive := _isActive u;
             _email := x; _password := _password u;
             _firstName := _firstName u; _lastName := _lastName u;
             _role := _role u; _isEmailVerified := _isEmailVerified u;
             _lastLoginAt := _lastLoginAt u |}.

Definition set_password (t : Z) (x : string) (u : User) : User :=
  touch t {| _id := _id u; _createdAt := _createdAt u;
             _updatedAt := _updatedAt u; _isActive := _isActive u;
             _email := _email u; _password := x;
             _firstName := _firstName u; _lastName := _lastName u;
             _role := _role u; _isEmailVerified := _isEmailVerified u;
             _lastLoginAt := _lastLoginAt u |}.

Definition set_firstName (t : Z) (x : string) (u : User) : User :=
  touch t {| _id := _id u; _createdAt := _createdAt u;
             _updatedAt := _updatedAt u; _isActive := _isActive u;
             _email := _email u; _password := _password u;
             _firstName := x; _lastName := _lastName u;
             _role := _role u; _isEmailVerified := _isEmailVerified u;
             _lastLoginAt := _lastLoginAt u |}.

Definition set_lastName (t : Z) (x : string) (u : User) : User :=
  touch t {| _id := _id u; _createdAt := _createdAt u;
             _updatedAt := _updatedAt u; _isActive := _isActive u;
             _email := _email u; _password := _password u;
             _firstName := _firstName u; _lastName := x;
             _role := _role u; _isEmailVerified := _isEmailVerified u;
             _lastLoginAt := _lastLoginAt u |}.

Definition set_role (t : Z) (x : string) (u : User) : User :=
  touch t {| _id := _id u; _createdAt := _createdAt u;
             _updatedAt := _updatedAt u; _isActive := _isActive u;
             _email := _email u; _password := _password u;
             _firstName := _firstName u; _lastName := _lastName u;
             _role := x; _isEmailVerified := _isEmailVerified u;
             _lastLoginAt := _lastLoginAt u |}.

(** [set isActive(value)] of BaseEntity: [Boolean(value)], then
    [touch]. *)
Definition set_isActive (t : Z) (v : value) (u : User) : User :=
  touch t
    {| _id := _id u; _createdAt := _createdAt u; _updatedAt := _updatedAt u;
       _isActive := Js.truthy v; _email := _email u;
       _password := _password u; _firstName := _firstName u;
       _lastName := _lastName u; _role := _role u;
       _isEmailVerified := _isEmailVerified u;
       _lastLoginAt := _lastLoginAt u |}.

(** [this._field = x]: a write to one of the entity's own fields, past
    the accessors; nothing is touched. *)
Definition write_id (x : string) (u : User) : User :=
  {| _id := x; _createdAt := _createdAt u; _updatedAt := _updatedAt u;
     _isActive := _isActive u; _email := _email u;
     _password := _password u; _firstName := _firstName u;
     _lastName := _lastName u; _role := _role u;
     _isEmailVerified := _isEmailVerified u;
     _lastLoginAt := _lastLoginAt u |}.

Definition write_createdAt (x : Z) (u : User) : User :=
  {| _id := _id u; _createdAt := x; _updatedAt := _updatedAt u;
     _isActive := _isActive u; _email := _email u;
     _password := _password u; _firstName := _firstName u;
     _lastName := _lastName u; _role := _role u;
     _isEmailVerified := _isEmailVerified u;
     _lastLoginAt := _lastLoginAt u |}.

Definition write_updatedAt (x : Z) (u : User) : User :=
  {| _id := _id u; _createdAt := _createdAt u; _updatedAt := x;
     _isActive := _isActive u; _email := _email u;
     _password := _password u; _firstName := _firstName u;
     _lastName := _lastName u; _role := _role u;
     _isEmailVerified := _isEmailVerified u;
     _lastLoginAt := _lastLoginAt u |}.

Definition write_isActive (x : bool) (u : User) : User :=
  {| _id := _id u; _createdAt := _createdAt u; _updatedAt := _updatedAt u;
     _isActive := x; _email := _email u; _password := _password u;
     _firstName := _firstName u; _lastName := _lastName u;
     _role := _role u; _isEmailVerified := _isEmailVerified u;
     _lastLoginAt := _lastLoginAt u |}.

Definition write_email (x : string) (u : User) : User :=
  {| _id := _id u; _createdAt := _createdAt u; _updatedAt := _updatedAt u;
     _isActive := _isActive u; _email := x; _password := _password u;
     _firstName := _firstName u; _lastName := _lastName u;
     _role := _role u; _isEmailVerified := _isEmailVerified u;
     _lastLoginAt := _lastLoginAt u |}.

Definition write_password (x : string) (u : User) : User :=
  {| _id := _id u; _createdAt := _createdAt u; _updatedAt := _updatedAt u;
     _isActive := _isActive u; _email := _email u; _password := x;
     _firstName := _firstName u; _lastName := _lastName u;
     _role := _role u; _isEmailVerified := _isEmailVerified u;
     _lastLoginAt := _lastLoginAt u |}.

Definition write_firstName (x : string) (u : User) : User :=
  {| _id := _id u; _createdAt := _createdAt u; _updatedAt := _updatedAt u;
     _isActive := _isActive u; _email := _email u;
     _password := _password u; _firstName := x; _lastName := _lastName u;
     _role := _role u; _isEmailVerified := _isEmailVerified u;
     _lastLoginAt := _lastLoginAt u |}.

Definition write_lastName (x : string) (u : User) : User :=
  {| _id := _id u; _createdAt := _createdAt u; _updatedAt := _updatedAt u;
     _isActive := _isActive u; _email := _email u;
     _password := _password u; _firstName := _firstName u; _lastName := x;
     _role := _role u; _isEmailVerified := _isEmailVerified u;
     _lastLoginAt := _lastLoginAt u |}.

Definition write_role (x : string) (u : User) : User :=
  {| _id := _id u; _createdAt := _createdAt u; _updatedAt := _updatedAt u;
     _isActive := _isActive u; _email := _email u;
     _password := _password u; _firstName := _firstName u;
     _lastName := _lastName u; _role := x;
     _isEmailVerified := _isEmailVerified u;
     _lastLoginAt := _lastLoginAt u |}.

Definition write_isEmailVerified (x : bool) (u : User) : User :=
  {| _id := _id u; _createdAt := _createdAt u; _updatedAt := _updatedAt u;
     _isActive := _isActive u; _email := _email u;
     _password := _password u; _firstName := _firstName u;
     _lastName := _lastName u; _role := _role u; _isEmailVerified := x;
     _lastLoginAt := _lastLoginAt u |}.

Definition write_lastLoginAt (x : option Z) (u : User) : User :=
  {| _id := _id u; _createdAt := _createdAt u; _updatedAt := _updatedAt u;
     _isActive := _isActive u; _email := _email u;
     _password := _password u; _firstName := _firstName u;
     _lastName := _lastName u; _role := _role u;
     _isEmailVerified := _isEmailVerified u; _lastLoginAt := x |}.

Definition updateLastLogin (t : Z) (u : User) : User :=
  touch t {| _id := _id u; _createdAt := _createdAt u;
             _updatedAt := _updatedAt u; _isActive := _isActive u;
             _email := _email u; _password := _password u;
             _firstName := _firstName u; _lastName := _lastName u;
             _role := _role u; _isEmailVerified := _isEmailVerified u;
             _lastLoginAt := Some t |}.

Definition getFullName (u : User) : string :=
  Js.trim (_firstName u +:+ " " +:+ _lastName u).

Definition toPublicJSON (u : User) : value :=
  VObj [ ("email", VStr (_email u));
         ("firstName", VStr (_firstName u));
         ("lastName", VStr (_lastName u));
         ("role", VStr (_role u));
         ("isEmailVerified", VBool (_isEmailVerified u));
         ("lastLoginAt", match _lastLoginAt u with
                         | Some t => VDate t
                         | None => VNull
                         end);
         ("fullName", VStr (getFullName u)) ].

Definition isAdmin (u : User) : bool := String.eqb (_role u) "admin".

Definition isModerator (u : User) : bool :=
  String.eqb (_role u) "moderator" || String.eqb (_role u) "admin".

(** [softDelete] and [restore] of BaseEntity, through the [isActive]
    field, and [verifyEmail] of User. *)
Definition softDelete (t : Z) (u : User) : User :=
  touch t {| _id := _id u; _createdAt := _createdAt u;
             _updatedAt := _updatedAt u; _isActive := false;
             _email := _email u; _password := _password u;
             _firstName := _firstName u; _lastName := _lastName u;
             _role := _role u; _isEmailVerified := _isEmailVerified u;
             _lastLoginAt := _lastLoginAt u |}.

Definition restore (t : Z) (u : User) : User :=
  touch t {| _id := _id u; _createdAt := _createdAt u;
             _updatedAt := _updatedAt u; _isActive := true;
             _email := _email u; _password := _password u;
             _firstName := _firstName u; _lastName := _lastName u;
             _role := _role u; _isEmailVerified := _isEmailVerified u;
             _lastLoginAt := _lastLoginAt u |}.

Definition verifyEmail (t : Z) (u : User) : User :=
  touch t {| _id := _id u; _createdAt := _createdAt u;
             _updatedAt := _updatedAt u; _isActive := _isActive u;
             _email := _email u; _password := _password u;
             _firstName := _firstName u; _lastName := _lastName u;
             _role := _role u; _isEmailVerified := true;
             _lastLoginAt := _lastLoginAt u |}.

Definition roles : list string := ["user"; "admin"; "moderator"].

Section Validation.
Context `{Joi}.

(** The string rules of the Joi schemas; [min] and [max] compare the
    string's [length]. *)
Definition joi_email (s : string) : bool :=
  negb (String.eqb s "") && isEmail s.
Definition joi_min (n : nat) (s : string) : bool :=
  (n <=? Js.length s)%nat.
Definition joi_between (lo hi : nat) (s : string) : bool :=
  (lo <=? Js.length s)%nat && (Js.length s <=? hi)%nat.
Definition joi_role (s : string) : bool :=
  bool_decide (s ∈ roles).

(** [User.validate]: [isEmailVerified] is a boolean by construction. *)
Definition validate (u : User) : bool :=
  joi_email (_email u) && joi_min 8 (_password u)
  && joi_between 2 50 (_firstName u) && joi_between 2 50 (_lastName u)
  && joi_role (_role u).
End Validation.

End Entity.

(* ===================================================================== *)
(** * The credential store: InMemoryUserRepository *)
(* ===================================================================== *)

(** The two [Map]s of the repository.  A stored user object is reached
    only through [_users], under the key it was stored with, so mutating
    the object a lookup returned is re-inserting it under that key. *)
Record Repo : Type := mkRepo {
  _users : gmap string User;
  _emailIndex : gmap string string
}.

(** One key of the [updates] object handed to [update], with its
    value, in the order [Object.keys] lists them.  [update] assigns
    every key other than [id] under which the entity reads something
    else than [undefined].  The first six are the properties the callers
    name: the user service's schema admits [email], [firstName],
    [lastName], [role] and [isEmailVerified]; the controller's password
    flows pass [password].  The others are the remaining accessors of
    the entity ([isActive], which has a setter, and the three that have
    a getter only), the key [id], the entity's own fields, and the keys
    under which the entity reads [undefined].  A value is of the type
    the entity's field holds; a key that names a method of the entity is
    not represented. *)
Inductive Update : Type :=
| UpdEmail (x : string)
| UpdPassword (x : string)
| UpdFirstName (x : string)
| UpdLastName (x : string)
| UpdRole (x : string)
| UpdIsEmailVerified (x : bool)
| UpdIsActive (v : value)
| UpdCreatedAt (v : value)
| UpdUpdatedAt (v : value)
| UpdLastLoginAt (v : value)
| UpdId (v : value)
| Upd_id (x : string)
| Upd_createdAt (x : Z)
| Upd_updatedAt (x : Z)
| Upd_isActive (x : bool)
| Upd_email (x : string)
| Upd_password (x : string)
| Upd_firstName (x : string)
| Upd_lastName (x : string)
| Upd_role (x : string)
| Upd_isEmailVerified (x : bool)
| Upd_lastLoginAt (x : option Z)
| UpdOther (key : string) (v : value).

(** The [filters] argument of [findAll] and [count]. *)
Record Filters : Type := mkFilters {
  f_role : option string;
  f_isEmailVerified : option bool;
  f_isActive : option bool;
  f_search : option string
}.

Module Repository.

Section Store.
Context `{Js.Casing}.

Definition empty : Repo := mkRepo ∅ ∅.

(** [this._users.set(user.id, user)] *)
Definition store (u : User) (r : Repo) : Repo :=
  mkRepo (<[_id u := u]> (_users r)) (_emailIndex r).

(** Mutating, in place, the user object stored under [key]. *)
Definition mutate (key : string) (u : User) (r : Repo) : Repo :=
  mkRepo (<[key := u]> (_users r)) (_emailIndex r).

(** [this._emailIndex.set(key, id)] *)
Definition index (key id : string) (r : Repo) : Repo :=
  mkRepo (_users r) (<[key := id]> (_emailIndex r)).

(** [this._emailIndex.delete(key)] *)
Definition unindex (key : string) (r : Repo) : Repo :=
  mkRepo (_users r) (delete key (_emailIndex r)).

Definition sampleUsers : list UserData :=
  [ {| d_id := None; d_createdAt := None; d_updatedAt := None;
       d_isActive := None;
       d_email := Some "admin@example.com";
       d_password :=
         Some "$2b$12$LQv3c1yqBWVHxkd0LHAkCOYz6TtxMQJqhN8/LewdBPj4J/HS.iK6e";
       d_firstName := Some "Admin"; d_lastName := Some "User";
       d_role := Some "admin"; d_isEmailVerified := Some true;
       d_lastLoginAt := None |};
    {| d_id := None; d_createdAt := None; d_updatedAt := None;
       d_isActive := None;
       d_email := Some "user@example.com";
       d_password :=
         Some "$2b$12$LQv3c1yqBWVHxkd0LHAkCOYz6TtxMQJqhN8/LewdBPj4J/HS.iK6e";
       d_firstName := Some "Regular"; d_lastName := Some "User";
       d_role := Some "user"; d_isEmailVerified := Some true;
       d_lastLoginAt := None |} ].

(** [initializeSampleData]; [cs] supplies the clock and the uuid drawn
    for each sample user. *)
Fixpoint seed (cs : list Ctx) (ds : list UserData) (r : Repo) : Repo :=
  match cs, ds with
  | c :: cs', d :: ds' =>
      let user := Entity.new_User c d in
      seed cs' ds'
        (index (Js.toLowerCase (_email user)) (_id user) (store user r))
  | _, _ => r
  end.

Definition initializeSampleData (c1 c2 : Ctx) : Repo :=
  seed [c1; c2] sampleUsers empty.

(** A lookup result: [None] is [null] or [undefined], both of which the
    callers test with [!user]. *)
Definition findById (id : string) : Comp Repo (option User) :=
  fun r => (Return (_users r !! id), r).

(** [findByEmail], returning with the object the key it is stored
    under (its reference). *)
Definition lookupByEmail (email : string) (r : Repo)
  : option (string * User) :=
  match _emailIndex r !! Js.toLowerCase email with
  | Some userId =>
      if String.eqb userId "" then None
      else match _users r !! userId with
           | Some u => Some (userId, u)
           | None => None
           end
  | None => None
  end.

Definition findByEmail (email : string) : Comp Repo (option User) :=
  fun r => (Return (snd <$> lookupByEmail email r), r).

Section Create.
Context `{Joi}.

(** [create]; its argument is a [User] by type, which is what the
    guard [user instanceof User] asks for. *)
Definition create (user : User) : Comp Repo User :=
  if negb (Entity.validate user) then
    throw (new_Error "Invalid user data")
  else
    let* existingUser := findByEmail (_email user) in
    match existingUser with
    | Some _ => throw (new_Error "User with this email already exists")
    | None =>
        fun r =>
          (Return user,
           index (Js.toLowerCase (_email user)) (_id user) (store user r))
    end.
End Create.

(** The [TypeError] of an assignment to an accessor without a setter,
    in strict mode. *)
Definition getter_only (name : string) : Error :=
  new_Error ("Cannot set property " +:+ name
             +:+ " of #<User> which has only a getter").

(** [if (user[key] !== undefined && key !== 'id') user[key] = updates[key]]
    for one key, inside a class body (strict mode).  The six properties
    with a setter are assigned through it, which touches the entity;
    [isEmailVerified], [createdAt], [updatedAt] and [lastLoginAt] have a
    getter only (and never read [undefined]), so the assignment throws;
    [id] is passed over; an own field is written as it is; a key under
    which the entity reads [undefined] is passed over. *)
Definition assign (t : Z) (k : Update) (u : User) : Outcome User :=
  match k with
  | UpdEmail x => Return (Entity.set_email t x u)
  | UpdPassword x => Return (Entity.set_password t x u)
  | UpdFirstName x => Return (Entity.set_firstName t x u)
  | UpdLastName x => Return (Entity.set_lastName t x u)
  | UpdRole x => Return (Entity.set_role t x u)
  | UpdIsEmailVerified _ => Throw (getter_only "isEmailVerified")
  | UpdIsActive v => Return (Entity.set_isActive t v u)
  | UpdCreatedAt _ => Throw (getter_only "createdAt")
  | UpdUpdatedAt _ => Throw (getter_only "updatedAt")
  | UpdLastLoginAt _ => Throw (getter_only "lastLoginAt")
  | UpdId _ => Return u
  | Upd_id x => Return (Entity.write_id x u)
  | Upd_createdAt x => Return (Entity.write_createdAt x u)
  | Upd_updatedAt x => Return (Entity.write_updatedAt x u)
  | Upd_isActive x => Return (Entity.write_isActive x u)
  | Upd_email x => Return (Entity.write_email x u)
  | Upd_password x => Return (Entity.write_password x u)
  | Upd_firstName x => Return (Entity.write_firstName x u)
  | Upd_lastName x => Return (Entity.write_lastName x u)
  | Upd_role x => Return (Entity.write_role x u)
  | Upd_isEmailVerified x => Return (Entity.write_isEmailVerified x u)
  | Upd_lastLoginAt x => Return (Entity.write_lastLoginAt x u)
  | UpdOther _ _ => Return u
  end.

(** The [forEach] over [Object.keys(updates)], mutating the stored
    object as it goes. *)
Fixpoint assign_all (t : Z) (id : string) (updates : list Update)
  : Comp Repo unit :=
  match updates with
  | [] => ret tt
  | k :: rest =>
      fun r =>
        match _users r !! id with
        | None => (Return tt, r)
        | Some u =>
            match assign t k u with
            | Return u' => assign_all t id rest (mutate id u' r)
            | Throw e => (Throw e, r)
            end
        end
  end.

(** [updates.email]; were a key listed twice, the later value is the
    property's. *)
Fixpoint updates_email (updates : list Update) : option string :=
  match updates with
  | [] => None
  | UpdEmail x :: rest =>
      match updates_email rest with
      | Some y => Some y
      | None => Some x
      end
  | _ :: rest => updates_email rest
  end.

Definition update (t : Z) (id : string) (updates : list Update)
  : Comp Repo (option User) :=
  let* found := findById id in
  match found with
  | None => ret None
  | Some _ =>
      assign_all t id updates ;;
      let* user := findById id in
      match user with
      | None => ret None
      | Some user =>
          (match updates_email updates with
           | Some e =>
               if negb (String.eqb e "") && negb (String.eqb e (_email user))
               then
                 fun r =>
                   (Return tt,
                    index (Js.toLowerCase e) (_id user)
                      (unindex (Js.toLowerCase (_email user)) r))
               else ret tt
           | None => ret tt
           end) ;;
          fun r =>
            let user' := Entity.touch t user in
            (Return (Some user'), mutate id user' r)
      end
  end.

Definition delete (id : string) : Comp Repo bool :=
  let* found := findById id in
  match found with
  | None => ret false
  | Some user =>
      fun r =>
        (Return true,
         mkRepo (base.delete id (_users r))
                (base.delete (Js.toLowerCase (_email user)) (_emailIndex r)))
  end.

(** [exists] *)
Definition exists_ (id : string) : Comp Repo bool :=
  fun r => (Return (bool_decide (is_Some (_users r !! id))), r).

(** The filter stage of [findAll]: a user passes when it passes every
    filter that is set ([role] and [search] count as set when they are
    non-empty strings, the two flags when they are present). *)
Definition matches (f : Filters) (user : User) : bool :=
  match f_role f with
  | Some role =>
      if String.eqb role "" then true else String.eqb (_role user) role
  | None => true
  end
  && match f_isEmailVerified f with
     | Some flag => Bool.eqb (_isEmailVerified user) flag
     | None => true
     end
  && match f_isActive f with
     | Some flag => Bool.eqb (_isActive user) flag
     | None => true
     end
  && match f_search f with
     | Some search =>
         if String.eqb search "" then true
         else
           let searchTerm := Js.toLowerCase search in
           Js.includes searchTerm (Js.toLowerCase (_firstName user))
           || Js.includes searchTerm (Js.toLowerCase (_lastName user))
           || Js.includes searchTerm (Js.toLowerCase (_email user))
     | None => true
     end.

(** The stored users, in the order of their keys; the [Map] lists them
    in insertion order, so only what does not depend on the order is
    read off this list. *)
Definition values (r : Repo) : list User :=
  map snd (map_to_list (_users r)).

(** [count(filters)]: the length of [findAll(filters)], which neither
    sorts nor slices when it is given no options. *)
Definition count (f : Filters) : Comp Repo Z :=
  fun r => (Return (Z.of_nat (length (List.filter (matches f) (values r)))), r).

(** The slice stage of [findAll], for the non-negative whole numbers
    the callers pass as [limit] and [offset]: a missing or zero [limit]
    stands for the whole length, and with neither option the list is
    left as it is. *)
Definition paginate {A : Type} (limit offset : option nat) (users : list A)
  : list A :=
  let limit' := from_option id 0%nat limit in
  let offset' := from_option id 0%nat offset in
  if (limit' =? 0)%nat && (offset' =? 0)%nat then users
  else
    let limit'' := if (limit' =? 0)%nat then length users else limit' in
    take limit'' (drop offset' users).

Definition clear : Comp Repo unit := put_state empty.
End Store.

End Repository.

(* ===================================================================== *)
(** * The service template: BaseService *)
(* ===================================================================== *)

Module BaseService.

Section Template.
Context `{Runtime}.

Definition handleError (t : Z) (error : Error) : value :=
  VObj [ ("message",
          VStr (if String.eqb (message error) ""
                then "An unexpected error occurred"
                else message error));
         ("code", VStr (Js.or_else (code error) "INTERNAL_ERROR"));
         ("timestamp", VStr (toISOString t)) ].

Definition executeOperation {S : Type} (t : Z)
    (operation : Comp S value) : Comp S value :=
  try_catch
    (let* result := operation in
     ret (VObj [("success", VBool true); ("data", result)]))
    (fun error =>
       ret (VObj [("success", VBool false);
                  ("error", handleError t error)])).
End Template.

(** [{ ...data }] *)
Definition spread (data : value) : list (string * value) :=
  match data with
  | VObj props => props
  | VArr items => imap (fun i x => (pretty i, x)) items
  | _ => []
  end.

Definition sensitiveFields : list string :=
  ["password"; "token"; "secret"; "key"].

Definition sanitizeOutput (data : value) : value :=
  if Js.truthy data && Js.is_object data then
    VObj (fold_left
            (fun sanitized field =>
               if Js.truthy (Js.get field sanitized)
               then Js.remove field sanitized
               else sanitized)
            sensitiveFields (spread data))
  else data.

End BaseService.

(* ===================================================================== *)
(** * The authentication engine: AuthenticationService *)
(* ===================================================================== *)

(** The [userData] argument of [register]. *)
Record Registration : Type := mkRegistration {
  r_email : string;
  r_password : string;
  r_firstName : string;
  r_lastName : string;
  r_role : option string
}.

Module AuthenticationService.

Import BaseService.

(** [decoded.userId] as a [Map] key: only a string can name a user. *)
Definition userId_of (decoded : value) : Outcome (option string) :=
  match decoded with
  | VUndefined | VNull =>
      Throw (new_Error "Cannot read properties of undefined (reading 'userId')")
  | _ =>
      match Js.prop "userId" decoded with
      | VStr id => Return (Some id)
      | _ => Return None
      end
  end.

Definition lift {S A : Type} (o : Outcome A) : Comp S A := fun s => (o, s).

Section Engine.
Context `{Js.Casing} `{Joi} `{Bcrypt} `{Runtime} `{JsonWebToken}.

Definition secret_of (c : Ctx) : option string :=
  match JWT_SECRET c with
  | Some s => if String.eqb s "" then None else Some s
  | None => None
  end.

Definition generateToken (c : Ctx) (user : User) : Outcome value :=
  let payload :=
    [ ("userId", VStr (_id user));
      ("email", VStr (_email user));
      ("role", VStr (_role user));
      ("iat", VNum (now c / 1000));
      ("exp", VNum (now c / 1000 + 60 * 60 * 24)) ] in
  match secret_of c with
  | None => Throw (new_Error "JWT_SECRET environment variable is required")
  | Some secret =>
      jwt_sign payload secret
        {| expiresIn := Some (Js.or_else (JWT_EXPIRES_IN c) "24h");
           algorithm := "HS256" |}
        (now c)
  end.

Definition verifyToken (c : Ctx) (token : value) : Outcome value :=
  match secret_of c with
  | None => Throw (new_Error "JWT_SECRET environment variable is required")
  | Some secret => jwt_verify token secret ["HS256"] (now c)
  end.

Definition hashPassword (c : Ctx) (password : string) : string :=
  let rounds := match parseInt (BCRYPT_ROUNDS c) with
                | Some n => if n =? 0 then 12 else n
                | None => 12
                end in
  bcrypt_hash password rounds (salt c).

Definition comparePassword (password hash : string) : bool :=
  bcrypt_compare password hash.

Definition localStrategy (c : Ctx) (email password : string)
  : Comp Repo value :=
  fun r =>
    match Repository.lookupByEmail email r with
    | None => (Throw (new_Error "Invalid credentials"), r)
    | Some (key, user) =>
        if negb (_isActive user) then
          (Throw (new_Error "Invalid credentials"), r)
        else if negb (comparePassword password (_password user)) then
          (Throw (new_Error "Invalid credentials"), r)
        else
          let user := Entity.updateLastLogin (now c) user in
          let r := Repository.mutate key user r in
          match generateToken c user with
          | Throw e => (Throw e, r)
          | Return token =>
              (Return
                 (VObj [ ("user",
                          sanitizeOutput (Entity.toPublicJSON user));
                         ("token", token);
                         ("expiresIn",
                          VStr (Js.or_else (JWT_EXPIRES_IN c) "24h")) ]),
               r)
          end
    end.

Definition jwtStrategy (c : Ctx) (token : value) : Comp Repo value :=
  try_catch
    (let* decoded := lift (verifyToken c token) in
     let* id := lift (userId_of decoded) in
     let* user := match id with
                  | Some id => Repository.findById id
                  | None => ret None
                  end in
     match user with
     | Some user =>
         if _isActive user then
           ret (VObj [ ("user",
                        sanitizeOutput (Entity.toPublicJSON user));
                       ("token", token) ])
         else throw (new_Error "Invalid token")
     | None => throw (new_Error "Invalid token")
     end)
    (fun _ => throw (new_Error "Invalid token")).

(** The schema of [authenticate]. *)
Definition validLogin (email password : string) : bool :=
  Entity.joi_email email && Entity.joi_min 8 password.

Definition authenticate (c : Ctx) (email password : string)
  : Comp Repo value :=
  executeOperation (now c)
    (if negb (validLogin email password) then
       throw (new_Error "Invalid input data")
     else localStrategy c email password).

(** [new User({ ...validation.data, password: hashedPassword })] *)
Definition registrant (c : Ctx) (data : Registration)
    (hashedPassword : string) : User :=
  Entity.new_User c
    {| d_id := None; d_createdAt := None; d_updatedAt := None;
       d_isActive := None;
       d_email := Some (r_email data);
       d_password := Some hashedPassword;
       d_firstName := Some (r_firstName data);
       d_lastName := Some (r_lastName data);
       d_role := r_role data;
       d_isEmailVerified := None;
       d_lastLoginAt := None |}.

(** The schema of [register]; the validated data carry the default
    role. *)
Definition validRegistration (d : Registration) : option Registration :=
  if Entity.joi_email (r_email d) && Entity.joi_min 8 (r_password d)
     && Entity.joi_between 2 50 (r_firstName d)
     && Entity.joi_between 2 50 (r_lastName d)
     && match r_role d with
        | Some x => Entity.joi_role x
        | None => true
        end
  then Some {| r_email := r_email d; r_password := r_password d;
               r_firstName := r_firstName d; r_lastName := r_lastName d;
               r_role := Some (from_option id "user" (r_role d)) |}
  else None.

Definition register (c : Ctx) (userData : Registration)
  : Comp Repo value :=
  executeOperation (now c)
    (match validRegistration userData with
     | None => throw (new_Error "Invalid input data")
     | Some data =>
         let hashedPassword := hashPassword c (r_password data) in
         let user := registrant c data hashedPassword in
         let* savedUser := Repository.create user in
         let* token := lift (generateToken c savedUser) in
         ret (VObj [ ("user",
                      sanitizeOutput (Entity.toPublicJSON savedUser));
                     ("token", token);
                     ("expiresIn",
                      VStr (Js.or_else (JWT_EXPIRES_IN c) "24h")) ])
     end).

Definition refreshToken (c : Ctx) (token : value) : Comp Repo value :=
  executeOperation (now c)
    (let* decoded := lift (verifyToken c token) in
     let* id := lift (userId_of decoded) in
     let* user := match id with
                  | Some id => Repository.findById id
                  | None => ret None
                  end in
     match user with
     | Some user =>
         if _isActive user then
           let* newToken := lift (generateToken c user) in
           ret (VObj [ ("user",
                        sanitizeOutput (Entity.toPublicJSON user));
                       ("token", newToken);
                       ("expiresIn",
                        VStr (Js.or_else (JWT_EXPIRES_IN c) "24h")) ])
         else throw (new_Error "Invalid token")
     | None => throw (new_Error "Invalid token")
     end).
End Engine.

End AuthenticationService.

(* ===================================================================== *)
(** * The user service: UserService *)
(* ===================================================================== *)

Module UserService.

Import BaseService.

Section Service.
Context `{Js.Casing} `{Joi} `{Runtime}.

(** The schema of [updateUser]: every listed key is optional, any
    other key is refused. *)
Definition validUpdate (k : Update) : bool :=
  match k with
  | UpdEmail x => Entity.joi_email x
  | UpdFirstName x | UpdLastName x => Entity.joi_between 2 50 x
  | UpdRole x => Entity.joi_role x
  | UpdIsEmailVerified _ => true
  | _ => false
  end.

Definition updateUser (c : Ctx) (id : string) (updates : list Update)
  : Comp Repo value :=
  executeOperation (now c)
    (if negb (forallb validUpdate updates) then
       throw (new_Error "Invalid input data")
     else
       let* existingUser := Repository.findById id in
       match existingUser with
       | None => throw (new_Error "User not found")
       | Some existingUser =>
           (match Repository.updates_email updates with
            | Some e =>
                if negb (String.eqb e "")
                   && negb (String.eqb e (_email existingUser))
                then
                  let* userWithEmail := Repository.findByEmail e in
                  match userWithEmail with
                  | Some _ => throw (new_Error "Email is already taken")
                  | None => ret tt
                  end
                else ret tt
            | None => ret tt
            end) ;;
           let* updatedUser := Repository.update (now c) id updates in
           match updatedUser with
           | None => throw (new_Error "Failed to update user")
           | Some updatedUser =>
               ret (sanitizeOutput (Entity.toPublicJSON updatedUser))
           end
       end).

Definition getUserById (c : Ctx) (id : string) : Comp Repo value :=
  executeOperation (now c)
    (let* user := Repository.findById id in
     match user with
     | None => throw (new_Error "User not found")
     | Some user => ret (sanitizeOutput (Entity.toPublicJSON user))
     end).

Definition getUserByEmail (c : Ctx) (email : string) : Comp Repo value :=
  executeOperation (now c)
    (let* user := Repository.findByEmail email in
     match user with
     | None => throw (new_Error "User not found")
     | Some user => ret (sanitizeOutput (Entity.toPublicJSON user))
     end).

(** [createUser]: the schema is that of [register]; the entity is built
    from the validated data as they are. *)
Definition createUser (c : Ctx) (userData : Registration)
  : Comp Repo value :=
  executeOperation (now c)
    (match AuthenticationService.validRegistration userData with
     | None => throw (new_Error "Invalid input data")
     | Some data =>
         let* existingUser := Repository.findByEmail (r_email data) in
         match existingUser with
         | Some _ => throw (new_Error "User with this email already exists")
         | None =>
             let user :=
               AuthenticationService.registrant c data (r_password data) in
             if negb (Entity.validate user) then
               throw (new_Error "Invalid user data")
             else
               let* savedUser := Repository.create user in
               ret (sanitizeOutput (Entity.toPublicJSON savedUser))
         end
     end).

Definition deleteUser (c : Ctx) (id : string) : Comp Repo value :=
  executeOperation (now c)
    (let* existingUser := Repository.findById id in
     match existingUser with
     | None => throw (new_Error "User not found")
     | Some existingUser =>
         if Entity.isAdmin existingUser then
           throw (new_Error "Cannot delete admin users")
         else
           let* success := Repository.delete id in
           if negb success then throw (new_Error "Failed to delete user")
           else ret (VBool true)
     end).

Definition softDeleteUser (c : Ctx) (id : string) : Comp Repo value :=
  executeOperation (now c)
    (let* user := Repository.findById id in
     match user with
     | None => throw (new_Error "User not found")
     | Some user =>
         if Entity.isAdmin user then
           throw (new_Error "Cannot deactivate admin users")
         else
           fun r =>
             let user := Entity.softDelete (now c) user in
             (Return (sanitizeOutput (Entity.toPublicJSON user)),
              Repository.mutate id user r)
     end).

Definition restoreUser (c : Ctx) (id : string) : Comp Repo value :=
  executeOperation (now c)
    (let* user := Repository.findById id in
     match user with
     | None => throw (new_Error "User not found")
     | Some user =>
         fun r =>
           let user := Entity.restore (now c) user in
           (Return (sanitizeOutput (Entity.toPublicJSON user)),
            Repository.mutate id user r)
     end).

Definition verifyUserEmail (c : Ctx) (id : string) : Comp Repo value :=
  executeOperation (now c)
    (let* user := Repository.findById id in
     match user with
     | None => throw (new_Error "User not found")
     | Some user =>
         fun r =>
           let user := Entity.verifyEmail (now c) user in
           (Return (sanitizeOutput (Entity.toPublicJSON user)),
            Repository.mutate id user r)
     end).

Definition getUserStatistics (c : Ctx) : Comp Repo value :=
  executeOperation (now c)
    (let* totalUsers := Repository.count (mkFilters None None None None) in
     let* activeUsers :=
       Repository.count (mkFilters None None (Some true) None) in
     let* verifiedUsers :=
       Repository.count (mkFilters None (Some true) None None) in
     let* adminUsers :=
       Repository.count (mkFilters (Some "admin") None None None) in
     ret (VObj [ ("total", VNum totalUsers);
                 ("active", VNum activeUsers);
                 ("verified", VNum verifiedUsers);
                 ("admins", VNum adminUsers);
                 ("inactive", VNum (totalUsers - activeUsers));
                 ("unverified", VNum (totalUsers - verifiedUsers)) ])).

(** The [pagination] object of [getUsers] and [searchUsers], for the
    non-negative whole numbers the callers pass. *)
Definition hasMore (total : nat) (limit offset : option nat) : bool :=
  let limit' := from_option id 0%nat limit in
  let offset' := from_option id 0%nat offset in
  (offset' + (if (limit' =? 0)%nat then total else limit') <? total)%nat.
End Service.

End UserService.

(* ===================================================================== *)
(** * The authorization gate: AuthenticationMiddleware *)
(* ===================================================================== *)

(** What a middleware does with a request: call [next()], or answer with
    [res.status(status).json(body)]. *)
Inductive Verdict : Type :=
| Next
| Respond (status : Z) (body : value).

(** The object a middleware instance was constructed with: AuthRoutes
    passes the authentication service; UserRoutes passes
    [userService._userRepository], an object with neither a
    [verifyToken] method nor a [_userRepository] property. *)
Inductive Collaborator : Type :=
| WithAuthenticationService
| WithUserRepository.

Module AuthenticationMiddleware.

Definition denied (fields : list (string * value)) : value :=
  VObj [("success", VBool false); ("error", VObj fields)].

(** [requireRoles(...roles)]; [user] is [req.user]. *)
Definition requireRoles (roles : list string) (user : option User)
  : Verdict :=
  match user with
  | None =>
      Respond 401
        (denied [ ("message", VStr "Authentication required");
                  ("code", VStr "AUTHENTICATION_REQUIRED") ])
  | Some u =>
      if negb (bool_decide (_role u ∈ roles)) then
        Respond 403
          (denied [ ("message", VStr "Insufficient permissions");
                    ("code", VStr "INSUFFICIENT_PERMISSIONS");
                    ("requiredRoles", VArr (map VStr roles));
                    ("userRole", VStr (_role u)) ])
      else Next
  end.

Definition requireAdmin : option User -> Verdict :=
  requireRoles ["admin"].

Definition requireModerator : option User -> Verdict :=
  requireRoles ["moderator"; "admin"].

(** The closure [authRateLimit({ windowMs, max })] returns, applied to
    a request from [key] ([req.ip]) at time [t]; the [attempts] map is
    the closure's state. *)
Definition authRateLimit (windowMs max : Z) (key : string) (t : Z)
    (attempts : gmap string (list Z)) : Verdict * gmap string (list Z) :=
  let windowStart := t - windowMs in
  let currentAttempts :=
    match attempts !! key with
    | Some stamps => List.filter (fun timestamp => windowStart <? timestamp) stamps
    | None => []
    end in
  if max <=? Z.of_nat (length currentAttempts) then
    (Respond 429
       (denied [ ("message", VStr "Too many authentication attempts");
                 ("code", VStr "RATE_LIMIT_EXCEEDED");
                 ("retryAfter", VNum (Js.ceil_div windowMs 1000)) ]),
     <[key := currentAttempts]> attempts)
  else
    (Next, <[key := currentAttempts ++ [t]]> attempts).

(** The limiter run over a sequence of requests [(key, time)]. *)
Fixpoint serve (windowMs max : Z) (requests : list (string * Z))
    (attempts : gmap string (list Z)) : gmap string (list Z) :=
  match requests with
  | [] => attempts
  | (key, t) :: rest =>
      serve windowMs max rest (snd (authRateLimit windowMs max key t attempts))
  end.

(** The limiter's answers to a sequence of requests, in order. *)
Fixpoint verdicts (windowMs max : Z) (requests : list (string * Z))
    (attempts : gmap string (list Z)) : list Verdict :=
  match requests with
  | [] => []
  | (key, t) :: rest =>
      fst (authRateLimit windowMs max key t attempts)
      :: verdicts windowMs max rest
           (snd (authRateLimit windowMs max key t attempts))
  end.

(** The defaults of the options: 15 minutes, 5 attempts. *)
Definition default_windowMs : Z := 15 * 60 * 1000.
Definition default_max : Z := 5.

(** [requireEmailVerification] *)
Definition requireEmailVerification (user : option User) : Verdict :=
  match user with
  | None =>
      Respond 401
        (denied [ ("message", VStr "Authentication required");
                  ("code", VStr "AUTHENTICATION_REQUIRED") ])
  | Some u =>
      if negb (_isEmailVerified u) then
        Respond 403
          (denied [ ("message", VStr "Email verification required");
                    ("code", VStr "EMAIL_VERIFICATION_REQUIRED") ])
      else Next
  end.

Definition missing_token : Verdict :=
  Respond 401
    (denied [ ("message", VStr "Access token is required");
              ("code", VStr "MISSING_TOKEN") ]).

Definition invalid_token : Verdict :=
  Respond 401
    (denied [ ("message", VStr "Invalid or expired token");
              ("code", VStr "INVALID_TOKEN") ]).

Section Gate.
Context `{JsonWebToken}.

(** [verifyToken(token)] on the collaborator, then [findById] on its
    [_userRepository] with [decoded.userId]; whatever is thrown here is
    thrown inside the middleware's [try]. *)
Definition resolve (who : Collaborator) (c : Ctx) (token : value) (r : Repo)
  : Outcome (option User) :=
  match who with
  | WithUserRepository =>
      Throw (new_Error
               "this._authenticationService.verifyToken is not a function")
  | WithAuthenticationService =>
      match AuthenticationService.verifyToken c token with
      | Throw e => Throw e
      | Return decoded =>
          match AuthenticationService.userId_of decoded with
          | Throw e => Throw e
          | Return (Some id) => Return (_users r !! id)
          | Return None => Return None
          end
      end
  end.

(** [authenticateToken()]; [token] is the second word of the
    Authorization header, [authHeader && authHeader.split(' ')[1]].  The
    second component is what the middleware leaves in [req.user] and
    [req.token]. *)
Definition authenticateToken (who : Collaborator) (c : Ctx) (token : value)
    (r : Repo) : Verdict * option (User * value) :=
  if negb (Js.truthy token) then (missing_token, None)
  else
    match resolve who c token r with
    | Return (Some user) =>
        if negb (_isActive user) then (invalid_token, None)
        else (Next, Some (user, token))
    | Return None => (invalid_token, None)
    | Throw _ => (invalid_token, None)
    end.

(** [optionalAuth()] *)
Definition optionalAuth (who : Collaborator) (c : Ctx) (token : value)
    (r : Repo) : Verdict * option (User * value) :=
  if Js.truthy token then
    match resolve who c token r with
    | Return (Some user) =>
        if _isActive user then (Next, Some (user, token)) else (Next, None)
    | Return None => (Next, None)
    | Throw _ => (Next, None)
    end
  else (Next, None).

(** A route guarded by [authenticateToken()] and then
    [requireRoles(...roles)], as the routers chain them: the second runs
    on what the first left in [req.user], unless the first answered. *)
Definition guarded (who : Collaborator) (roles : list string) (c : Ctx)
    (token : value) (r : Repo) : Verdict :=
  match authenticateToken who c token r with
  | (Next, attached) => requireRoles roles (fst <$> attached)
  | (answer, _) => answer
  end.
End Gate.

End AuthenticationMiddleware.

(* ===================================================================== *)
(** * The controllers: BaseController and AuthController *)
(* ===================================================================== *)

Module BaseController.

Definition sensitiveFields : list string :=
  ["password"; "token"; "secret"; "key"].

(** The controller's own [sanitizeOutput] *)
Definition sanitizeOutput (data : value) : value :=
  if Js.truthy data && Js.is_object data then
    VObj (fold_left
            (fun sanitized field =>
               if Js.truthy (Js.get field sanitized)
               then Js.remove field sanitized
               else sanitized)
            sensitiveFields (BaseService.spread data))
  else data.

(** The status and code [asyncHandler] picks from the error message. *)
Definition classify (msg : string) : Z * string :=
  if Js.includes "not found" msg then (404, "NOT_FOUND")
  else if Js.includes "already exists" msg then (409, "CONFLICT")
  else if Js.includes "Invalid" msg || Js.includes "validation" msg then
    (400, "VALIDATION_ERROR")
  else if Js.includes "Unauthorized" msg || Js.includes "token" msg then
    (401, "UNAUTHORIZED")
  else if Js.includes "Forbidden" msg || Js.includes "permission" msg then
    (403, "FORBIDDEN")
  else (500, "INTERNAL_ERROR").

Section Template.
Context `{Runtime}.

Definition sendSuccess (t : Z) (data : value) (statusCode : Z)
    (msg : string) : Verdict :=
  Respond statusCode
    (VObj [ ("success", VBool true);
            ("message", VStr msg);
            ("data", sanitizeOutput data);
            ("timestamp", VStr (toISOString t)) ]).

Definition sendError (t : Z) (error : Error) (statusCode : Z)
    (cd : string) : Verdict :=
  Respond statusCode
    (VObj [ ("success", VBool false);
            ("error", VObj [ ("message", VStr (message error));
                             ("code", VStr cd);
                             ("timestamp", VStr (toISOString t)) ]) ]).

Definition asyncHandler {S : Type} (t : Z) (asyncFn : Comp S Verdict)
  : Comp S Verdict :=
  try_catch asyncFn
    (fun error =>
       ret (sendError t error (fst (classify (message error)))
              (snd (classify (message error))))).
End Template.

End BaseController.

Module AuthController.

Import BaseController.

(** [new Error(result.error.message)] for a failure result of a
    service. *)
Definition failure_of (result : value) : Error :=
  new_Error match Js.prop "message" (Js.prop "error" result) with
            | VStr msg => msg
            | _ => ""
            end.

Section Controller.
Context `{Js.Casing} `{Joi} `{Bcrypt} `{Runtime} `{JsonWebToken}.

(** What Joi has to say about a body its schema refuses, the messages
    joined with a comma: for the login body and for the registration
    body. *)
Variable login_messages : string -> string -> string.
Variable register_messages : Registration -> string.

(** [login]; the body is [{ email, password }]. *)
Definition login (c : Ctx) (email password : string) : Comp Repo Verdict :=
  asyncHandler (now c)
    (if negb (AuthenticationService.validLogin email password) then
       throw (new_Error ("Validation failed: "
                         +:+ login_messages email password))
     else
       let* result := AuthenticationService.authenticate c email password in
       if negb (Js.truthy (Js.prop "success" result)) then
         throw (failure_of result)
       else
         ret (sendSuccess (now c) (Js.prop "data" result) 200
                "Login successful")).

(** [register] *)
Definition register (c : Ctx) (body : Registration) : Comp Repo Verdict :=
  asyncHandler (now c)
    (match AuthenticationService.validRegistration body with
     | None =>
         throw (new_Error ("Validation failed: " +:+ register_messages body))
     | Some userData =>
         let* result := AuthenticationService.register c userData in
         if negb (Js.truthy (Js.prop "success" result)) then
           throw (failure_of result)
         else
           ret (sendSuccess (now c) (Js.prop "data" result) 201
                  "User registered successfully")
     end).

(** [refreshToken]; [token] is the second word of the Authorization
    header. *)
Definition refreshToken (c : Ctx) (token : value) : Comp Repo Verdict :=
  asyncHandler (now c)
    (if negb (Js.truthy token) then
       throw (new_Error "Refresh token is required")
     else
       let* result := AuthenticationService.refreshToken c token in
       if negb (Js.truthy (Js.prop "success" result)) then
         throw (failure_of result)
       else
         ret (sendSuccess (now c) (Js.prop "data" result) 200
                "Token refreshed successfully")).

(** [changePassword]; [user] is [req.user], the body is
    [{ currentPassword, newPassword }]. *)
Variable password_messages : string -> string -> string.


(** [resetPassword]; the body is [{ token, newPassword }], and a token
    string is a [VStr] or a [VJws]. *)
Variable reset_messages : value -> string -> string.

Definition resetPassword (c : Ctx) (token : value) (newPassword : string)
  : Comp Repo Verdict :=
  asyncHandler (now c)
    (if negb (match token with
              | VStr s => negb (String.eqb s "")
              | VJws _ _ _ => true
              | _ => false
              end && Entity.joi_min 8 newPassword) then
       throw (new_Error ("Validation failed: "
                         +:+ reset_messages token newPassword))
     else
       let* decoded :=
         AuthenticationService.lift
           (AuthenticationService.verifyToken c token) in
       let* id :=
         AuthenticationService.lift
           (AuthenticationService.userId_of decoded) in
       let* user := match id with
                    | Some id => Repository.findById id
                    | None => ret None
                    end in
       match user with
       | None => throw (new_Error "Invalid reset token")
       | Some user =>
           let hashedPassword :=
             AuthenticationService.hashPassword c newPassword in
           let* updatedUser :=
             Repository.update (now c) (_id user)
               [UpdPassword hashedPassword] in
           match updatedUser with
           | None => throw (new_Error "Failed to reset password")
           | Some _ =>
               ret (sendSuccess (now c) VNull 200
                      "Password reset successfully")
           end
       end).
End Controller.

End AuthController.

(* ===================================================================== *)
(** * The jsonwebtoken package *)
(* ===================================================================== *)

(** The behaviour of the package's [sign] and [verify] on the calls the
    service makes: an HMAC algorithm with a string secret (the other
    algorithms of the package want an asymmetric key), an object payload,
    the options [expiresIn] and [algorithm] (sign) and [algorithms]
    (verify).  The MAC is symbolic: a token verifies under the secret it
    was signed with and under no other. *)
Module Jsonwebtoken.

(** The double quote of the package's messages. *)
Definition dq : string := String (ascii_of_nat 34) EmptyString.

Definition quoted (s : string) : string := dq +:+ s +:+ dq.

Definition defined (v : value) : bool :=
  match v with VUndefined => false | _ => true end.

Definition is_number (v : value) : bool :=
  match v with VNum _ => true | _ => false end.

Definition claim_ok (k : string) (props : list (string * value)) : bool :=
  negb (defined (Js.get k props)) || is_number (Js.get k props).

(** [payload[k] = v] on a copy *)
Fixpoint set (k : string) (v : value) (props : list (string * value))
  : list (string * value) :=
  match props with
  | [] => [(k, v)]
  | (k', v') :: rest =>
      if String.eqb k k' then (k, v) :: rest else (k', v') :: set k v rest
  end.

Definition hmac_algorithms : list string := ["HS256"; "HS384"; "HS512"].

Fixpoint dots (s : string) : nat :=
  match s with
  | EmptyString => 0
  | String c rest => ((if Ascii.eqb c "." then 1 else 0) + dots rest)%nat
  end.

Section Package.
(** The [ms] package: a time span such as ["24h"] in milliseconds. *)
Variable ms : string -> option Z.

Definition sign (payload : list (string * value)) (secret : string)
    (options : SignOptions) (clock : Z) : Outcome value :=
  if String.eqb secret "" then
    Throw (new_Error "secretOrPrivateKey must have a value")
  else if negb (bool_decide (algorithm options ∈ hmac_algorithms)) then
    Throw (new_Error ("secretOrPrivateKey must be an asymmetric key when using "
                      +:+ algorithm options))
  else if negb (claim_ok "iat" payload) then
    Throw (new_Error (quoted "iat" +:+ " should be a number of seconds"))
  else if negb (claim_ok "exp" payload) then
    Throw (new_Error (quoted "exp" +:+ " should be a number of seconds"))
  else if negb (claim_ok "nbf" payload) then
    Throw (new_Error (quoted "nbf" +:+ " should be a number of seconds"))
  else if defined (Js.get "exp" payload) && bool_decide (is_Some (expiresIn options)) then
    Throw (new_Error
      ("Bad " +:+ quoted "options.expiresIn"
     +:+ " option the payload already has an " +:+ quoted "exp"
     +:+ " property."))
  else
    let timestamp :=
      match Js.get "iat" payload with
      | VNum n => if n =? 0 then clock / 1000 else n
      | _ => clock / 1000
      end in
    let payload := set "iat" (VNum timestamp) payload in
    match expiresIn options with
    | None => Return (VJws (algorithm options) (VObj payload) secret)
    | Some span =>
        if String.eqb span "" then
          Throw (new_Error
            (quoted "expiresIn"
             +:+ " should be a number of seconds or string representing a timespan"))
        else
          match ms span with
          | Some d =>
              Return (VJws (algorithm options)
                        (VObj (set "exp" (VNum (timestamp + d / 1000)) payload))
                        secret)
          | None =>
              Throw (new_Error
                (quoted "expiresIn"
                 +:+ " should be a number of seconds or string representing a timespan eg: "
                 +:+ quoted "1d" +:+ ", " +:+ quoted "20h" +:+ ", 60"))
          end
    end.

(** In the token position a [VStr] is a string that does not decode
    to a JWS. *)
Definition verify (token : value) (secret : string)
    (algorithms : list string) (clock : Z) : Outcome value :=
  if negb (Js.truthy token) then
    Throw (new_Error "jwt must be provided")
  else
    match token with
    | VStr s =>
        if negb (dots s =? 2)%nat then Throw (new_Error "jwt malformed")
        else Throw (new_Error "invalid token")
    | VJws alg payload key =>
        if String.eqb secret "" then
          Throw (new_Error "secret or public key must be provided")
        else if negb (bool_decide (alg ∈ algorithms)) then
          Throw (new_Error "invalid algorithm")
        else if negb (String.eqb key secret) then
          Throw (new_Error "invalid signature")
        else
          let clockTimestamp := clock / 1000 in
          match Js.prop "nbf" payload, Js.prop "exp" payload with
          | VUndefined, VUndefined => Return payload
          | VUndefined, VNum e =>
              if e <=? clockTimestamp then Throw (new_Error "jwt expired")
              else Return payload
          | VNum n, VUndefined =>
              if clockTimestamp <? n then Throw (new_Error "jwt not active")
              else Return payload
          | VNum n, VNum e =>
              if clockTimestamp <? n then Throw (new_Error "jwt not active")
              else if e <=? clockTimestamp then
                Throw (new_Error "jwt expired")
              else Return payload
          | VUndefined, _ | VNum _, _ =>
              Throw (new_Error "invalid exp value")
          | _, _ => Throw (new_Error "invalid nbf value")
          end
    | _ => Throw (new_Error "jwt must be a string")
    end.

#[export] Instance package : JsonWebToken :=
  {| jwt_sign := sign; jwt_verify := verify |}.
End Package.

(** The spans of the [ms] table used in this development's examples. *)
Definition ms_hours (span : string) : option Z :=
  if String.eqb span "24h" then Some (24 * 60 * 60 * 1000)
  else if String.eqb span "1h" then Some (60 * 60 * 1000)
  else None.

End Jsonwebtoken.

(* ===================================================================== *)
(** * Fixtures for the worked examples *)
(* ===================================================================== *)

(** Stand-ins for the packages in closed examples: an address is a
    string with an at sign, a digest is the salt, a bar and the password
    (salts have no bar), [parseInt] reads decimal digits, and an instant
    prints as its number of milliseconds. *)
Module Fixture.

(** A stand-in for the runtime's lower-casing that agrees with it on
    ASCII and Latin-1 text, which is all the examples use: it folds A to
    Z, and the capital letters from U+00C0 to U+00DE (the multiplication
    sign apart), which UTF-8 encodes in two bytes, the first being
    195. *)
Definition lower_ascii (c : ascii) : ascii :=
  let n := N_of_ascii c in
  if ((65 <=? n) && (n <=? 90))%N then ascii_of_N (n + 32) else c.

Definition lower_latin1 (c : ascii) : ascii :=
  let n := N_of_ascii c in
  if ((128 <=? n) && (n <=? 158) && negb (n =? 151))%N
  then ascii_of_N (n + 32) else c.

Fixpoint fold (s : string) : string :=
  match s with
  | EmptyString => EmptyString
  | String c rest =>
      if (N_of_ascii c =? 195)%N then
        match rest with
        | String d rest' => String c (String (lower_latin1 d) (fold rest'))
        | EmptyString => String c EmptyString
        end
      else String (lower_ascii c) (fold rest)
  end.

#[export] Instance casing : Js.Casing := {| Js.toLowerCase := fold |}.

Fixpoint has_at (s : string) : bool :=
  match s with
  | EmptyString => false
  | String c rest => Ascii.eqb c "@" || has_at rest
  end.

#[export] Instance joi : Joi := {| isEmail := has_at |}.

Fixpoint after_bar (s : string) : string :=
  match s with
  | EmptyString => EmptyString
  | String c rest => if Ascii.eqb c "|" then rest else after_bar rest
  end.

#[export] Instance bcrypt : Bcrypt :=
  {| bcrypt_hash := fun password _ salt => salt +:+ "|" +:+ password;
     bcrypt_compare := fun password hash =>
       String.eqb (after_bar hash) password |}.

Fixpoint digits (acc : Z) (s : string) : option Z :=
  match s with
  | EmptyString => Some acc
  | String c rest =>
      match Ascii.is_nat c with
      | Some d => digits (10 * acc + Z.of_nat d) rest
      | None => None
      end
  end.

#[export] Instance runtime : Runtime :=
  {| parseInt := fun o => match o with
                          | Some s => if String.eqb s "" then None
                                      else digits 0 s
                          | None => None
                          end;
     toISOString := fun t => pretty t |}.

#[export] Instance jsonwebtoken : JsonWebToken :=
  Jsonwebtoken.package Jsonwebtoken.ms_hours.

(** A configured process at instant [t], drawing [id] and [s]. *)
Definition ctx (secret : option string) (t : Z) (id s : string) : Ctx :=
  {| JWT_SECRET := secret; JWT_EXPIRES_IN := None; BCRYPT_ROUNDS := None;
     now := t; uuid := id; salt := s |}.

(** The repository as constructed: the two sample users. *)
Definition seeded : Repo :=
  Repository.initializeSampleData
    (ctx None 1000 "id-admin" "") (ctx None 1000 "id-user" "").



(** The two sample users, as stored. *)
Definition admin : User :=
  Entity.new_User (ctx None 1000 "id-admin" "")
    {| d_id := None; d_createdAt := None; d_updatedAt := None;
       d_isActive := None;
       d_email := Some "admin@example.com";
       d_password :=
         Some "$2b$12$LQv3c1yqBWVHxkd0LHAkCOYz6TtxMQJqhN8/LewdBPj4J/HS.iK6e";
       d_firstName := Some "Admin"; d_lastName := Some "User";
       d_role := Some "admin"; d_isEmailVerified := Some true;
       d_lastLoginAt := None |}.

Definition regular : User :=
  Entity.new_User (ctx None 1000 "id-user" "")
    {| d_id := None; d_createdAt := None; d_updatedAt := None;
       d_isActive := None;
       d_email := Some "user@example.com";
       d_password :=
         Some "$2b$12$LQv3c1yqBWVHxkd0LHAkCOYz6TtxMQJqhN8/LewdBPj4J/HS.iK6e";
       d_firstName := Some "Regular"; d_lastName := Some "User";
       d_role := Some "user"; d_isEmailVerified := Some true;
       d_lastLoginAt := None |}.

(** A moderator, for the gate. *)
Definition moderator : User :=
  Entity.new_User (ctx None 1000 "id-moderator" "")
    {| d_id := None; d_createdAt := None; d_updatedAt := None;
       d_isActive := None;
       d_email := Some "moderator@example.com";
       d_password := Some (bcrypt_hash "moderator123" 12 "salt");
       d_firstName := Some "Some"; d_lastName := Some "Moderator";
       d_role := Some "moderator"; d_isEmailVerified := Some true;
       d_lastLoginAt := None |}.

(** A running process with a secret, and one without. *)
Definition configured : Ctx := ctx (Some "secret") 5000 "id-new" "salt".
Definition unconfigured : Ctx := ctx None 5000 "id-new" "salt".

(** The admin changes address through the user service. *)
Definition renamed : Outcome value * Repo :=
  UserService.updateUser configured "id-admin"
    [UpdEmail "root@example.com"] seeded.

(** The store's own update, asked to give the regular user the admin's
    address in capitals. *)
Definition clashed : Outcome (option User) * Repo :=
  Repository.update 5000 "id-user" [UpdEmail "ADMIN@example.com"] seeded.

Definition newcomer : Registration :=
  {| r_email := "new@example.com"; r_password := "password123";
     r_firstName := "John"; r_lastName := "Doe"; r_role := Some "user" |}.

(** A guest about to be stored. *)
Definition guest : User :=
  Entity.new_User (ctx None 2000 "id-guest" "")
    {| d_id := None; d_createdAt := None; d_updatedAt := None;
       d_isActive := None;
       d_email := Some "Guest@Example.com";
       d_password := Some (bcrypt_hash "guest-password" 12 "salt");
       d_firstName := Some "Gu"; d_lastName := Some "Est";
       d_role := None; d_isEmailVerified := None;
       d_lastLoginAt := None |}.

(** A pupil whose address is written with a capital letter outside
    ASCII, and the store after the pupil was created in it. *)
Definition pupil : User :=
  Entity.new_User (ctx None 3000 "id-pupil" "")
    {| d_id := None; d_createdAt := None; d_updatedAt := None;
       d_isActive := None;
       d_email := Some "ÉCOLE@example.com";
       d_password := Some (bcrypt_hash "pupil-password" 12 "salt");
       d_firstName := Some "Young"; d_lastName := Some "Pupil";
       d_role := None; d_isEmailVerified := None;
       d_lastLoginAt := None |}.

Definition academy : Repo := snd (Repository.create pupil seeded).

(** Five attempts from one address within six seconds, among the
    attempts of another. *)
Definition burst : list (string * Z) :=
  [ ("10.0.0.1", 1000); ("10.0.0.2", 1500); ("10.0.0.1", 2000);
    ("10.0.0.1", 3000); ("10.0.0.2", 3500); ("10.0.0.1", 4000);
    ("10.0.0.1", 5000) ].

End Fixture.

(* ===================================================================== *)
(** * Vocabulary of the properties *)
(* ===================================================================== *)

(** The two shapes of a service result. *)
Definition is_success (v : value) : Prop :=
  exists data, v = VObj [("success", VBool true); ("data", data)].

Definition is_failure (v : value) : Prop :=
  exists e, v = VObj [("success", VBool false); ("error", VObj e)]
            /\ Js.keys e = ["message"; "code"; "timestamp"].

(** A failure result carrying this message and this code. *)
Definition failure_with (msg cd : string) (v : value) : Prop :=
  exists stamp,
    v = VObj [("success", VBool false);
              ("error", VObj [("message", VStr msg); ("code", VStr cd);
                              ("timestamp", VStr stamp)])].


(** The value a run returned ([undefined] when it threw). *)
Definition returned {S : Type} (run : Outcome value * S) : value :=
  match fst run with
  | Return v => v
  | Throw _ => VUndefined
  end.

(** A computation whose exception leaves it, instead of a result. *)
Definition propagates {S A : Type} (run : Outcome A * S) : Prop :=
  exists e, fst run = Throw e.

(** The property names of a response: of the envelope, of its [data] or
    [error], and of the identity projection [data.user]. *)
Definition object_keys (v : value) : list string :=
  match v with
  | VObj props => Js.keys props
  | _ => []
  end.

Definition response_keys (v : value) : list string :=
  object_keys v ++ object_keys (Js.prop "data" v)
  ++ object_keys (Js.prop "error" v)
  ++ object_keys (Js.prop "user" (Js.prop "data" v)).

(** The three ways a credential check turns a caller away. *)
Inductive Rejected `{Js.Casing} `{Bcrypt} (r : Repo) (email password : string)
  : Prop :=
| UnknownEmail :
    Repository.lookupByEmail email r = None -> Rejected r email password
| InactiveAccount key u :
    Repository.lookupByEmail email r = Some (key, u) ->
    _isActive u = false -> Rejected r email password
| WrongPassword key u :
    Repository.lookupByEmail email r = Some (key, u) ->
    bcrypt_compare password (_password u) = false ->
    Rejected r email password.

(** The email index agrees with the stored users: every stored user is
    indexed, under its normalized email, by the key it is stored under. *)
Definition index_consistent `{Js.Casing} (r : Repo) : Prop :=
  forall key u,
    _users r !! key = Some u ->
    key <> "" /\ _emailIndex r !! Js.toLowerCase (_email u) = Some key.

(** The role rule of the specification: membership, plus admin standing
    in for moderator. *)
Definition spec_authorized (roles : list string) (role : string) : Prop :=
  role ∈ roles \/ (role = "admin" /\ "moderator" ∈ roles).

(** The instants of the requests a source made. *)
Definition stamps_of (key : string) (requests : list (string * Z)) : list Z :=
  map snd (List.filter (fun q => String.eqb (fst q) key) requests).

Definition recorded (key : string) (attempts : gmap string (list Z)) : list Z :=
  default [] (attempts !! key).

Definition rate_limited (windowMs : Z) : Verdict :=
  Respond 429
    (AuthenticationMiddleware.denied
       [ ("message", VStr "Too many authentication attempts");
         ("code", VStr "RATE_LIMIT_EXCEEDED");
         ("retryAfter", VNum (Js.ceil_div windowMs 1000)) ]).

(** The sliding window per source address, as a reference that keeps
    everything: [admitted] lists the attempts let through so far, of
    every source, and nothing is ever removed from it.  An attempt from
    [key] at the instant [t] is let through when fewer than [max] of the
    source's admitted attempts lie inside the window that ends at [t];
    otherwise it is refused with the retry-after value.  A refused
    attempt is not listed, as the limiter does not record it. *)
Definition inside_window (windowMs t s : Z) : bool := t - windowMs <? s.

Definition sliding_window_admits (windowMs max : Z) (key : string) (t : Z)
    (admitted : list (string * Z)) : bool :=
  Z.of_nat (length (List.filter (inside_window windowMs t)
                      (stamps_of key admitted))) <? max.

Fixpoint sliding_window (windowMs max : Z) (requests : list (string * Z))
    (admitted : list (string * Z)) : list Verdict :=
  match requests with
  | [] => []
  | (key, t) :: rest =>
      if sliding_window_admits windowMs max key t admitted
      then Next :: sliding_window windowMs max rest (admitted ++ [(key, t)])
      else rate_limited windowMs :: sliding_window windowMs max rest admitted
  end.

(** The clock ([Date.now()]) does not run backwards: the instants are
    in non-decreasing order, from [t] on. *)
Fixpoint clock_runs_forward (t : Z) (instants : list Z) : Prop :=
  match instants with
  | [] => True
  | t' :: rest => t <= t' /\ clock_runs_forward t' rest
  end.

(** The payload [generateToken] assembles. *)
Definition claims_of (c : Ctx) (user : User) : list (string * value) :=
  [ ("userId", VStr (_id user));
    ("email", VStr (_email user));
    ("role", VStr (_role user));
    ("iat", VNum (now c / 1000));
    ("exp", VNum (now c / 1000 + 60 * 60 * 24)) ].

Definition bad_expiresIn : Error :=
  new_Error ("Bad " +:+ Jsonwebtoken.quoted "options.expiresIn"
             +:+ " option the payload already has an "
             +:+ Jsonwebtoken.quoted "exp" +:+ " property.").

Definition secret_required : string :=
  "JWT_SECRET environment variable is required".

(** One step of the sanitizer's loop over the sensitive fields. *)
Definition strip (field : string) (sanitized : list (string * value))
  : list (string * value) :=
  if Js.truthy (Js.get field sanitized) then Js.remove field sanitized
  else sanitized.

(** A response that carries no usable token in its data. *)
Definition carries_no_token (v : Verdict) : Prop :=
  exists status body,
    v = Respond status body
    /\ Js.truthy (Js.prop "token" (Js.prop "data" body)) = false.

(** An error response of the controllers. *)
Definition error_response `{Runtime} (t status : Z) (msg cd : string)
  : Verdict :=
  Respond status
    (VObj [ ("success", VBool false);
            ("error", VObj [ ("message", VStr msg); ("code", VStr cd);
                             ("timestamp", VStr (toISOString t)) ]) ]).

(** Creations and deletions, run in sequence on the store. *)
Inductive StoreOp : Type :=
| DoCreate (user : User)
| DoDelete (id : string).

Fixpoint apply_ops `{Js.Casing} `{Joi} (ops : list StoreOp) (r : Repo)
  : Repo :=
  match ops with
  | [] => r
  | DoCreate user :: rest => apply_ops rest (snd (Repository.create user r))
  | DoDelete id :: rest => apply_ops rest (snd (Repository.delete id r))
  end.

Definition creates_named (op : StoreOp) : Prop :=
  match op with
  | DoCreate user => _id user <> ""
  | DoDelete _ => True
  end.


(** The keys other than the own field [_email], which is written past
    the [email] property. *)
Definition leaves_email_field (k : Update) : bool :=
  match k with
  | Upd_email _ => false
  | _ => true
  end.


(** The entity after the assignments of [updates], in order, up to the
    first that throws. *)
Fixpoint assigned (t : Z) (updates : list Update) (u : User) : User :=
  match updates with
  | [] => u
  | k :: rest =>
      match Repository.assign t k u with
      | Return u' => assigned t rest u'
      | Throw _ => u
      end
  end.

(** The first key of [updates] whose assignment throws, with what it
    throws. *)
Fixpoint first_throw (t : Z) (updates : list Update) (u : User)
  : option Error :=
  match updates with
  | [] => None
  | k :: rest =>
      match Repository.assign t k u with
      | Return u' => first_throw t rest u'
      | Throw e => Some e
      end
  end.

(* ===================================================================== *)
(** * The service template *)
(* ===================================================================== *)

Section TemplateFacts.
Context `{Runtime}.

Lemma handleError_keys t e :
  exists props, BaseService.handleError t e = VObj props
                /\ Js.keys props = ["message"; "code"; "timestamp"].
Proof. eexists; split; reflexivity. Qed.

Lemma handleError_plain t msg :
  msg <> "" ->
  BaseService.handleError t (new_Error msg)
  = VObj [("message", VStr msg); ("code", VStr "INTERNAL_ERROR");
          ("timestamp", VStr (toISOString t))].
Proof.
  intros Hmsg. unfold BaseService.handleError; simpl.
  destruct (String.eqb_spec msg "") as [->|_]; [contradiction|reflexivity].
Qed.

Lemma executeOperation_return {S : Type} t (op : Comp S value) s v s' :
  op s = (Return v, s') ->
  BaseService.executeOperation t op s
  = (Return (VObj [("success", VBool true); ("data", v)]), s').
Proof.
  intros Hop. unfold BaseService.executeOperation, try_catch, bind, ret.
  now rewrite Hop.
Qed.

Lemma executeOperation_throw {S : Type} t (op : Comp S value) s e s' :
  op s = (Throw e, s') ->
  BaseService.executeOperation t op s
  = (Return (VObj [("success", VBool false);
                   ("error", BaseService.handleError t e)]), s').
Proof.
  intros Hop. unfold BaseService.executeOperation, try_catch, bind, ret.
  now rewrite Hop.
Qed.

(** Whatever the operation does, the template hands back a result. *)
Lemma executeOperation_total {S : Type} t (op : Comp S value) s :
  exists v s', BaseService.executeOperation t op s = (Return v, s')
               /\ (is_success v \/ is_failure v).
Proof.
  destruct (op s) as [[v|e] s'] eqn:Hop.
  - exists (VObj [("success", VBool true); ("data", v)]), s'. split.
    + now apply executeOperation_return.
    + left. now exists v.
  - exists (VObj [("success", VBool false);
                  ("error", BaseService.handleError t e)]), s'. split.
    + now apply executeOperation_throw.
    + right. destruct (handleError_keys t e) as (props & -> & Hkeys).
      now exists props.
Qed.

Lemma executeOperation_throw_plain {S : Type} t (op : Comp S value) s msg s' :
  op s = (Throw (new_Error msg), s') -> msg <> "" ->
  exists v, BaseService.executeOperation t op s = (Return v, s')
            /\ failure_with msg "INTERNAL_ERROR" v.
Proof.
  intros Hop Hmsg. eexists; split.
  - eapply executeOperation_throw; exact Hop.
  - rewrite handleError_plain by assumption. now eexists.
Qed.

End TemplateFacts.

Lemma failure_with_is_failure msg cd v : failure_with msg cd v -> is_failure v.
Proof. intros [stamp ->]. eexists; split; reflexivity. Qed.

Lemma failure_not_success v : is_failure v -> ~ is_success v.
Proof. intros (e & -> & _) [d Hd]. discriminate. Qed.

(** The identity projection has no property the sanitizer removes. *)
Lemma sanitizeOutput_toPublicJSON u :
  BaseService.sanitizeOutput (Entity.toPublicJSON u) = Entity.toPublicJSON u.
Proof. reflexivity. Qed.

Lemma toPublicJSON_keys u :
  object_keys (Entity.toPublicJSON u)
  = ["email"; "firstName"; "lastName"; "role"; "isEmailVerified";
     "lastLoginAt"; "fullName"].
Proof. reflexivity. Qed.

(* ===================================================================== *)
(** * The authentication engine *)
(* ===================================================================== *)

Section EngineFacts.
Context `{Js.Casing} `{Joi} `{Bcrypt} `{Runtime} `{JsonWebToken}.

Import AuthenticationService.

Lemma generateToken_no_secret c u :
  secret_of c = None -> generateToken c u = Throw (new_Error secret_required).
Proof. intros Hs. unfold generateToken. now rewrite Hs. Qed.

Lemma verifyToken_no_secret c token :
  secret_of c = None -> verifyToken c token = Throw (new_Error secret_required).
Proof. intros Hs. unfold verifyToken. now rewrite Hs. Qed.

Lemma localStrategy_rejected c email password r :
  Rejected r email password ->
  localStrategy c email password r
  = (Throw (new_Error "Invalid credentials"), r).
Proof.
  intros [Hnone | key u Hsome Hinactive | key u Hsome Hwrong];
    unfold localStrategy.
  - now rewrite Hnone.
  - now rewrite Hsome, Hinactive.
  - rewrite Hsome. unfold comparePassword. rewrite Hwrong.
    now destruct (_isActive u).
Qed.

Lemma authenticate_invalid c email password r :
  validLogin email password = false ->
  authenticate c email password r
  = (Return (VObj [("success", VBool false);
                   ("error", VObj [("message", VStr "Invalid input data");
                                   ("code", VStr "INTERNAL_ERROR");
                                   ("timestamp", VStr (toISOString (now c)))])]),
     r).
Proof.
  intros Hbad. unfold authenticate. rewrite Hbad. simpl.
  erewrite executeOperation_throw by reflexivity.
  now rewrite handleError_plain.
Qed.

Lemma authenticate_rejected c email password r :
  validLogin email password = true ->
  Rejected r email password ->
  authenticate c email password r
  = (Return (VObj [("success", VBool false);
                   ("error", VObj [("message", VStr "Invalid credentials");
                                   ("code", VStr "INTERNAL_ERROR");
                                   ("timestamp", VStr (toISOString (now c)))])]),
     r).
Proof.
  intros Hok Hrej. unfold authenticate. rewrite Hok. simpl.
  erewrite executeOperation_throw by (now apply localStrategy_rejected).
  now rewrite handleError_plain.
Qed.



(** C7: every public operation of the authentication engine
    (authenticate, register, refresh) returns a success/failure result
    and never throws past its boundary; a failure result carries an
    error object whose properties are exactly message, code and
    timestamp. *)
Theorem engine_operations_return_results (c : Ctx) (r : Repo) :
  (forall email password, exists v r',
      authenticate c email password r = (Return v, r')
      /\ (is_success v \/ is_failure v))
  /\ (forall userData, exists v r',
         register c userData r = (Return v, r')
         /\ (is_success v \/ is_failure v))
  /\ (forall token, exists v r',
         refreshToken c token r = (Return v, r')
         /\ (is_success v \/ is_failure v)).
Proof.
  repeat split; intros; apply executeOperation_total.
Qed.



End EngineFacts.

(* ===================================================================== *)
(** * Configuration failures and what a response shows *)
(* ===================================================================== *)

Section ResultFacts.
Context `{Js.Casing} `{Joi} `{Bcrypt} `{Runtime} `{JsonWebToken}.

Import AuthenticationService.

Lemma create_run user r :
  Repository.create user r =
  if negb (Entity.validate user) then
    (Throw (new_Error "Invalid user data"), r)
  else
    match Repository.lookupByEmail (_email user) r with
    | Some _ => (Throw (new_Error "User with this email already exists"), r)
    | None =>
        (Return user,
         Repository.index (Js.toLowerCase (_email user)) (_id user)
           (Repository.store user r))
    end.
Proof.
  unfold Repository.create, bind, throw, Repository.findByEmail.
  destruct (negb (Entity.validate user)); [reflexivity|].
  now destruct (Repository.lookupByEmail (_email user) r) as [[k u]|].
Qed.

(** The run of [register], case by case. *)
Lemma register_run c userData r :
  register c userData r =
  match validRegistration userData with
  | None =>
      (Return (VObj [("success", VBool false);
                     ("error", BaseService.handleError (now c)
                                 (new_Error "Invalid input data"))]), r)
  | Some data =>
      match Repository.create
              (registrant c data (hashPassword c (r_password data))) r with
      | (Throw e, r1) =>
          (Return (VObj [("success", VBool false);
                         ("error", BaseService.handleError (now c) e)]), r1)
      | (Return savedUser, r1) =>
          match generateToken c savedUser with
          | Throw e =>
              (Return (VObj [("success", VBool false);
                             ("error", BaseService.handleError (now c) e)]),
               r1)
          | Return token =>
              (Return
                 (VObj [("success", VBool true);
                        ("data",
                         VObj [("user", Entity.toPublicJSON savedUser);
                               ("token", token);
                               ("expiresIn",
                                VStr (Js.or_else (JWT_EXPIRES_IN c) "24h"))])]),
               r1)
          end
      end
  end.
Proof.
  unfold register, BaseService.executeOperation, try_catch, bind, ret, lift,
    throw.
  destruct (validRegistration userData) as [data|]; [|reflexivity].
  cbv zeta.
  destruct (Repository.create _ r) as [[savedUser|e] r1]; [|reflexivity].
  destruct (generateToken c savedUser); reflexivity.
Qed.

Lemma refreshToken_no_secret c token r :
  secret_of c = None ->
  refreshToken c token r
  = (Return (VObj [("success", VBool false);
                   ("error", VObj [("message", VStr secret_required);
                                   ("code", VStr "INTERNAL_ERROR");
                                   ("timestamp", VStr (toISOString (now c)))])]),
     r).
Proof.
  intros Hs. unfold refreshToken.
  erewrite executeOperation_throw.
  - now rewrite handleError_plain.
  - unfold bind, lift. now rewrite verifyToken_no_secret.
Qed.

Lemma localStrategy_accepted c email password r key u :
  Repository.lookupByEmail email r = Some (key, u) ->
  _isActive u = true ->
  bcrypt_compare password (_password u) = true ->
  localStrategy c email password r
  = let user := Entity.updateLastLogin (now c) u in
    let r1 := Repository.mutate key user r in
    match generateToken c user with
    | Throw e => (Throw e, r1)
    | Return token =>
        (Return
           (VObj [("user", Entity.toPublicJSON user);
                  ("token", token);
                  ("expiresIn", VStr (Js.or_else (JWT_EXPIRES_IN c) "24h"))]),
         r1)
    end.
Proof.
  intros Hfound Hactive Hcmp. unfold localStrategy, comparePassword.
  now rewrite Hfound, Hactive, Hcmp.
Qed.

(** Every way through the credential check is one of the three
    rejections or an acceptance. *)
Lemma Rejected_or_accepted r email password :
  Rejected r email password
  \/ exists key u, Repository.lookupByEmail email r = Some (key, u)
                   /\ _isActive u = true
                   /\ bcrypt_compare password (_password u) = true.
Proof.
  destruct (Repository.lookupByEmail email r) as [[key u]|] eqn:Hfound.
  - destruct (_isActive u) eqn:Hactive.
    + destruct (bcrypt_compare password (_password u)) eqn:Hcmp.
      * right. now exists key, u.
      * left. now apply (WrongPassword r email password key u).
    + left. now apply (InactiveAccount r email password key u).
  - left. now apply UnknownEmail.
Qed.

(** C2, as the code has it: with no signing secret configured, the
    configuration error raised by token signing or verification is
    caught at the engine boundary like any other error.  Refresh returns
    the failure result carrying the message "JWT_SECRET environment
    variable is required" and the code INTERNAL_ERROR; authenticate and
    register return a failure result on every input, and that very one
    once the credentials have been accepted, respectively the new user
    has been stored.  Nothing propagates. *)
Theorem missing_secret_yields_failure_result (c : Ctx)
    (Hsecret : secret_of c = None) :
  (forall token r, exists v,
      refreshToken c token r = (Return v, r)
      /\ failure_with secret_required "INTERNAL_ERROR" v)
  /\ (forall email password r, exists v r',
         authenticate c email password r = (Return v, r')
         /\ is_failure v
         /\ (forall key u,
                validLogin email password = true ->
                Repository.lookupByEmail email r = Some (key, u) ->
                _isActive u = true ->
                bcrypt_compare password (_password u) = true ->
                failure_with secret_required "INTERNAL_ERROR" v))
  /\ (forall userData r, exists v r',
         register c userData r = (Return v, r')
         /\ is_failure v
         /\ (forall data savedUser r1,
                validRegistration userData = Some data ->
                Repository.create
                  (registrant c data (hashPassword c (r_password data))) r
                = (Return savedUser, r1) ->
                r' = r1 /\ failure_with secret_required "INTERNAL_ERROR" v)).
Proof.
  split; [|split].
  - intros token r. eexists; split; [now apply refreshToken_no_secret|].
    now eexists.
  - intros email password r.
    destruct (validLogin email password) eqn:Hvalid.
    + destruct (Rejected_or_accepted r email password)
        as [Hrej | (key & u & Hfound & Hactive & Hcmp)].
      * do 2 eexists. split; [now apply authenticate_rejected|].
        split; [eexists; split; reflexivity|].
        intros key u _ Hfound Hactive Hcmp.
        destruct Hrej as [Hnone | k' u' Hsome Hin | k' u' Hsome Hwrong];
          congruence.
      * do 2 eexists. split.
        { unfold authenticate. rewrite Hvalid. simpl.
          eapply executeOperation_throw.
          rewrite (localStrategy_accepted c email password r key u)
            by assumption.
          cbv zeta. rewrite generateToken_no_secret by assumption.
          reflexivity. }
        rewrite handleError_plain by discriminate.
        split; [eexists; split; reflexivity|]. intros. now eexists.
    + do 2 eexists. split; [now apply authenticate_invalid|].
      split; [eexists; split; reflexivity|]. intros; discriminate.
  - intros userData r. rewrite register_run.
    destruct (validRegistration userData) as [data|].
    + destruct (Repository.create _ r) as [[savedUser|e] r1] eqn:Hcreate.
      * rewrite generateToken_no_secret by assumption.
        rewrite handleError_plain by discriminate.
        do 2 eexists. split; [reflexivity|].
        split; [eexists; split; reflexivity|].
        intros d' u' r1' Hd' Hc'. simplify_eq. rewrite Hcreate in Hc'.
        simplify_eq. split; [reflexivity|]. now eexists.
      * destruct (handleError_keys (now c) e) as (props & -> & Hkeys).
        do 2 eexists. split; [reflexivity|].
        split; [now exists props|].
        intros d' u' r1' Hd' Hc'. simplify_eq. rewrite Hcreate in Hc'.
        discriminate.
    + rewrite handleError_plain by discriminate.
      do 2 eexists. split; [reflexivity|].
      split; [eexists; split; reflexivity|]. intros; discriminate.
Qed.

(** Where the package signs, a valid registration under a free email
    succeeds with the identity projection, the token and the span. *)
Lemma register_succeeds c userData data r token :
  validRegistration userData = Some data ->
  let user := registrant c data (hashPassword c (r_password data)) in
  Entity.validate user = true ->
  Repository.lookupByEmail (_email user) r = None ->
  generateToken c user = Return token ->
  register c userData r
  = (Return
       (VObj [("success", VBool true);
              ("data",
               VObj [("user", Entity.toPublicJSON user);
                     ("token", token);
                     ("expiresIn",
                      VStr (Js.or_else (JWT_EXPIRES_IN c) "24h"))])]),
     Repository.index (Js.toLowerCase (_email user)) (_id user)
       (Repository.store user r)).
Proof.
  intros Hdata user Hvalid Hfree Htoken. rewrite register_run, Hdata.
  rewrite create_run. fold user. rewrite Hvalid, Hfree. cbn [negb].
  now rewrite Htoken.
Qed.

(** C6: whatever registration is attempted -- in particular every valid
    one -- the response names no password property: not in the envelope,
    not in its data or error, not in the identity projection, which
    consists of the public properties only. *)
Theorem registration_response_hides_password (c : Ctx)
    (userData : Registration) (r : Repo) :
  exists v r',
    register c userData r = (Return v, r')
    /\ ("password" ∉ response_keys v)
    /\ ("_password" ∉ response_keys v)
    /\ ("passwordHash" ∉ response_keys v)
    /\ (is_failure v
        \/ exists savedUser token,
             Js.prop "data" v
             = VObj [("user", Entity.toPublicJSON savedUser);
                     ("token", token);
                     ("expiresIn",
                      VStr (Js.or_else (JWT_EXPIRES_IN c) "24h"))]
             /\ r' = Repository.index
                       (Js.toLowerCase (_email savedUser)) (_id savedUser)
                       (Repository.store savedUser r)).
Proof.
  assert (Hfail : forall e, exists v,
             v = VObj [("success", VBool false);
                       ("error", BaseService.handleError (now c) e)]
             /\ ("password" ∉ response_keys v)
             /\ ("_password" ∉ response_keys v)
             /\ ("passwordHash" ∉ response_keys v)
             /\ is_failure v).
  { intros e. eexists; split; [reflexivity|].
    repeat split;
      try (rewrite list_elem_of_In; cbn; intuition discriminate).
    eexists; split; reflexivity. }
  rewrite register_run.
  destruct (validRegistration userData) as [data|].
  - destruct (Repository.create _ r) as [[savedUser|e] r1] eqn:Hcreate.
    + destruct (generateToken c savedUser) as [token|e].
      * do 2 eexists. split; [reflexivity|].
        repeat split;
          try (rewrite list_elem_of_In; cbn; intuition discriminate).
        right. exists savedUser, token. split; [reflexivity|].
        rewrite create_run in Hcreate.
        destruct (negb (Entity.validate _)); [discriminate|].
        destruct (Repository.lookupByEmail _ r) as [[k u]|];
          now simplify_eq.
      * destruct (Hfail e) as (v & -> & ? & ? & ? & ?).
        do 2 eexists. split; [reflexivity|]. auto.
    + destruct (Hfail e) as (v & -> & ? & ? & ? & ?).
      do 2 eexists. split; [reflexivity|]. auto.
  - destruct (Hfail (new_Error "Invalid input data")) as (v & -> & ? & ? & ? & ?).
    do 2 eexists. split; [reflexivity|]. auto.
Qed.

End ResultFacts.

(* ===================================================================== *)
(** * Token issue and verification *)
(* ===================================================================== *)

Section PackageFacts.
Variable ms : string -> option Z.

Import AuthenticationService.

#[local] Existing Instance Jsonwebtoken.package.

Lemma claims_of_exp c user :
  Js.get "exp" (claims_of c user) = VNum (now c / 1000 + 60 * 60 * 24).
Proof. reflexivity. Qed.

(** The package refuses an expiry given twice. *)
Lemma sign_double_expiry c user secret span :
  secret <> "" ->
  Jsonwebtoken.sign ms (claims_of c user) secret
    {| expiresIn := Some span; algorithm := "HS256" |} (now c)
  = Throw bad_expiresIn.
Proof.
  intros Hsecret. unfold Jsonwebtoken.sign.
  destruct (String.eqb_spec secret "") as [->|_]; [contradiction|].
  reflexivity.
Qed.

Lemma secret_of_nonempty c secret : secret_of c = Some secret -> secret <> "".
Proof.
  unfold secret_of. destruct (JWT_SECRET c) as [s|]; [|discriminate].
  destruct (String.eqb_spec s ""); [discriminate|]. congruence.
Qed.

(** C1, on the code: [generateToken] puts [exp] in the payload and also
    passes [expiresIn] to the package, which refuses the pair; so for
    every identity, with or without a configured secret, issuing a token
    throws and there is no token to verify. *)
Theorem generateToken_never_issues (c : Ctx) (user : User) :
  @generateToken (Jsonwebtoken.package ms) c user
  = match secret_of c with
    | Some _ => Throw bad_expiresIn
    | None => Throw (new_Error secret_required)
    end.
Proof.
  unfold generateToken. destruct (secret_of c) as [secret|] eqn:Hs.
  - apply (sign_double_expiry c user secret). now apply (secret_of_nonempty c).
  - reflexivity.
Qed.

(** With the expiry given once, through the option, the round trip is
    the expected one: the claims come back until the span has elapsed,
    and the token is refused from then on. *)
Lemma single_expiry_round_trip (c : Ctx) (user : User)
    (secret span : string) (d later : Z) :
  secret <> "" -> span <> "" -> ms span = Some d ->
  exists token,
    Jsonwebtoken.sign ms
      [ ("userId", VStr (_id user)); ("email", VStr (_email user));
        ("role", VStr (_role user)); ("iat", VNum (now c / 1000)) ]
      secret {| expiresIn := Some span; algorithm := "HS256" |} (now c)
    = Return token
    /\ (later / 1000 < now c / 1000 + d / 1000 ->
        exists claims,
          Jsonwebtoken.verify token secret ["HS256"] later = Return claims
          /\ Js.prop "userId" claims = VStr (_id user)
          /\ Js.prop "email" claims = VStr (_email user)
          /\ Js.prop "role" claims = VStr (_role user))
    /\ (now c / 1000 + d / 1000 <= later / 1000 ->
        Jsonwebtoken.verify token secret ["HS256"] later
        = Throw (new_Error "jwt expired")).
Proof.
  intros Hsecret Hspan Hms. unfold Jsonwebtoken.sign.
  destruct (String.eqb_spec secret "") as [->|_]; [contradiction|].
  cbn. destruct (String.eqb_spec span "") as [->|_]; [contradiction|].
  rewrite Hms.
  assert (Hiat : (if now c / 1000 =? 0 then now c / 1000 else now c / 1000)
                 = now c / 1000) by now destruct (now c / 1000 =? 0).
  rewrite Hiat. eexists; split; [reflexivity|].
  unfold Jsonwebtoken.verify. cbn.
  destruct (String.eqb_spec secret "") as [->|_]; [contradiction|].
  rewrite String.eqb_refl. cbn. split.
  - intros Hfresh. destruct (Z.leb_spec (now c / 1000 + d / 1000) (later / 1000));
      [lia|]. eexists; repeat split; reflexivity.
  - intros Hstale. destruct (Z.leb_spec (now c / 1000 + d / 1000) (later / 1000));
      [reflexivity|lia].
Qed.

End PackageFacts.

(* ===================================================================== *)
(** * The authorization gate *)
(* ===================================================================== *)

Import AuthenticationMiddleware.

(** C5, as the code has it: the role check lets an authenticated request
    through exactly when its role is a member of the declared role set
    -- plain membership, with no implicit hierarchy; the moderator-level
    gate declares the set moderator, admin, which is how an admin passes
    it.  A role outside the set is answered 403 INSUFFICIENT_PERMISSIONS
    with the declared set and the actual role; a request with no
    identity is answered 401 AUTHENTICATION_REQUIRED. *)
Theorem role_check_is_membership (roles : list string) (u : User) :
  (requireRoles roles (Some u) = Next <-> _role u ∈ roles)
  /\ (_role u ∉ roles ->
      requireRoles roles (Some u)
      = Respond 403
          (denied [ ("message", VStr "Insufficient permissions");
                    ("code", VStr "INSUFFICIENT_PERMISSIONS");
                    ("requiredRoles", VArr (map VStr roles));
                    ("userRole", VStr (_role u)) ]))
  /\ (requireModerator (Some u) = Next
      <-> _role u = "moderator" \/ _role u = "admin")
  /\ (requireAdmin (Some u) = Next <-> _role u = "admin")
  /\ requireRoles roles None
     = Respond 401
         (denied [ ("message", VStr "Authentication required");
                   ("code", VStr "AUTHENTICATION_REQUIRED") ]).
Proof.
  assert (Hmem : forall rs, requireRoles rs (Some u) = Next <-> _role u ∈ rs).
  { intros rs. unfold requireRoles. case_bool_decide; cbn; split;
      intros; try discriminate; try contradiction; auto. }
  split; [apply Hmem|]. split.
  { intros Hout. unfold requireRoles. now rewrite bool_decide_eq_false_2. }
  split.
  { unfold requireModerator. rewrite Hmem.
    rewrite !elem_of_cons, elem_of_nil. tauto. }
  split.
  { unfold requireAdmin. rewrite Hmem.
    rewrite !elem_of_cons, elem_of_nil. tauto. }
  reflexivity.
Qed.

(* ===================================================================== *)
(** * The authentication rate limiter *)
(* ===================================================================== *)

Lemma recorded_other windowMs max key key' t attempts :
  key' <> key ->
  recorded key (snd (authRateLimit windowMs max key' t attempts))
  = recorded key attempts.
Proof.
  intros Hne. unfold authRateLimit, recorded.
  destruct (max <=? _); cbn; now rewrite lookup_insert_ne.
Qed.

(** What one call leaves on record for its source: the stamps still in
    the window, and the call's own instant when it was let through. *)
Lemma recorded_same windowMs max key t attempts :
  let kept := List.filter (fun s => t - windowMs <? s) (recorded key attempts) in
  authRateLimit windowMs max key t attempts
  = if max <=? Z.of_nat (length kept)
    then (rate_limited windowMs, <[key := kept]> attempts)
    else (Next, <[key := kept ++ [t]]> attempts).
Proof.
  unfold authRateLimit, recorded.
  destruct (attempts !! key) as [stamps|]; reflexivity.
Qed.

Lemma filter_all_kept (f : Z -> bool) (l : list Z) :
  Forall (fun s => f s = true) l -> List.filter f l = l.
Proof.
  induction 1 as [|s l Hs _ IH]; [reflexivity|].
  cbn. now rewrite Hs, IH.
Qed.

Lemma filter_none_kept (f : Z -> bool) (l : list Z) :
  Forall (fun s => f s = false) l -> List.filter f l = [].
Proof.
  induction 1 as [|s l Hs _ IH]; [reflexivity|].
  cbn. now rewrite Hs, IH.
Qed.

(** While a source stays under the limit and inside the window, each of
    its requests is put on record. *)
Lemma serve_records windowMs max key t requests :
  forall attempts,
    Forall (fun s => t - windowMs < s <= t)
           (recorded key attempts ++ stamps_of key requests) ->
    Z.of_nat (length (recorded key attempts ++ stamps_of key requests)) <= max ->
    recorded key (serve windowMs max requests attempts)
    = recorded key attempts ++ stamps_of key requests.
Proof.
  induction requests as [|[key' t'] rest IH]; intros attempts Hin Hcount.
  - cbn. unfold stamps_of; cbn. now rewrite app_nil_r.
  - cbn [serve]. unfold stamps_of in *. cbn [List.filter fst] in *.
    destruct (String.eqb_spec key' key) as [->|Hne].
    + cbn [map snd] in *.
      apply Forall_app in Hin as Hin'. destruct Hin' as [Hold Hnew].
      apply Forall_cons in Hnew as [Ht' Hrest].
      pose proof (recorded_same windowMs max key t' attempts) as Hstep.
      cbv zeta in Hstep.
      rewrite (filter_all_kept _ (recorded key attempts)) in Hstep.
      2:{ eapply Forall_impl; [exact Hold|].
          intros s Hs. cbn in Hs. apply Z.ltb_lt. lia. }
      rewrite length_app in Hcount. cbn [length] in Hcount.
      destruct (Z.leb_spec max (Z.of_nat (length (recorded key attempts))));
        [lia|].
      rewrite Hstep. cbn [snd].
      rewrite IH.
      * unfold recorded at 1. rewrite lookup_insert_eq. cbn.
        now rewrite <- app_assoc.
      * unfold recorded at 1. rewrite lookup_insert_eq. cbn.
        now rewrite <- app_assoc.
      * unfold recorded at 1. rewrite lookup_insert_eq. cbn.
        rewrite <- app_assoc. cbn. rewrite length_app. cbn [length]. lia.
    + rewrite IH; rewrite recorded_other by assumption; auto.
Qed.

Lemma stamps_of_app key l1 l2 :
  stamps_of key (l1 ++ l2) = stamps_of key l1 ++ stamps_of key l2.
Proof. unfold stamps_of. now rewrite List.filter_app, map_app. Qed.

(** A stamp outside a window is outside every later one. *)
Lemma filter_later_window windowMs t t' (l : list Z) :
  t <= t' ->
  List.filter (inside_window windowMs t')
    (List.filter (inside_window windowMs t) l)
  = List.filter (inside_window windowMs t') l.
Proof.
  intros Hle. induction l as [|s l IH]; [reflexivity|]. cbn.
  destruct (inside_window windowMs t s) eqn:Hin; cbn.
  - now rewrite IH.
  - rewrite IH. unfold inside_window in *.
    apply Z.ltb_ge in Hin.
    destruct (Z.ltb_spec (t' - windowMs) s); [lia|reflexivity].
Qed.

(** One call, in the words of the window: only the recorded stamps
    inside the window that ends now are counted and kept. *)
Lemma authRateLimit_window windowMs max key t attempts :
  authRateLimit windowMs max key t attempts
  = if Z.of_nat (length (List.filter (inside_window windowMs t)
                           (recorded key attempts))) <? max
    then (Next,
          <[key := List.filter (inside_window windowMs t)
                     (recorded key attempts) ++ [t]]> attempts)
    else (rate_limited windowMs,
          <[key := List.filter (inside_window windowMs t)
                     (recorded key attempts)]> attempts).
Proof.
  rewrite recorded_same. cbv zeta. unfold inside_window.
  rewrite Z.leb_antisym. now destruct (_ <? max).
Qed.

(** The limiter's record and the never-pruned list of admitted attempts
    hold the same stamps inside every window that ends at [tlast] or
    later; so, while the clock runs forward, the two give the same
    answers. *)
Lemma verdicts_sliding_window windowMs max run :
  forall tlast attempts admitted,
    clock_runs_forward tlast (map snd run) ->
    (forall key t,
        tlast <= t ->
        List.filter (inside_window windowMs t) (recorded key attempts)
        = List.filter (inside_window windowMs t) (stamps_of key admitted)) ->
    verdicts windowMs max run attempts
    = sliding_window windowMs max run admitted.
Proof.
  induction run as [|[key t] rest IH]; intros tlast attempts admitted Hclock Hsame;
    [reflexivity|].
  destruct Hclock as [Hle Hclock]. cbn [snd] in Hle, Hclock.
  cbn [verdicts sliding_window].
  rewrite authRateLimit_window. unfold sliding_window_admits.
  rewrite <- (Hsame key t Hle).
  destruct (Z.of_nat (length (List.filter (inside_window windowMs t)
                                (recorded key attempts))) <? max);
    cbn [fst snd]; f_equal; apply (IH t); try assumption;
    intros key' t' Hle'.
  - destruct (String.eqb_spec key key') as [<-|Hne].
    + unfold recorded at 1. rewrite lookup_insert_eq. cbn [from_option id].
      rewrite stamps_of_app, !List.filter_app.
      rewrite filter_later_window by assumption.
      rewrite (Hsame key t') by lia. f_equal.
      unfold stamps_of. cbn. now rewrite String.eqb_refl.
    + unfold recorded at 1. rewrite lookup_insert_ne by assumption.
      rewrite stamps_of_app.
      assert (Hnone : stamps_of key' [(key, t)] = []).
      { unfold stamps_of. cbn.
        now destruct (String.eqb_spec key key'). }
      rewrite Hnone, app_nil_r. apply Hsame. lia.
  - destruct (String.eqb_spec key key') as [<-|Hne].
    + unfold recorded at 1. rewrite lookup_insert_eq. cbn [from_option id].
      rewrite filter_later_window by assumption. apply Hsame. lia.
    + unfold recorded at 1. rewrite lookup_insert_ne by assumption.
      apply Hsame. lia.
Qed.

(** C8: the limiter keeps, per source address, the instants of the
    attempts it let through, and counts those inside the window that
    ends at the present attempt.  A source with nothing on record that
    makes [max] attempts inside one window, interleaved at will with
    other sources, has every one of them let through; one more, while
    all of them are still inside the window, is answered 429
    RATE_LIMIT_EXCEEDED with the retry-after value (the window in
    seconds, rounded up) -- with the default maximum of 5 this is the
    6th attempt.  At every call, whatever is on record, the stamps
    older than the window are discarded and only the others count, the
    fresh ones beside them being kept; and over any run of requests
    with a clock that does not go backwards, the answers are those of
    the sliding window over all the attempts ever let through. *)
Theorem attempt_beyond_max_is_rejected
    (windowMs max : Z) (key : string) (t : Z)
    (requests : list (string * Z)) (attempts : gmap string (list Z))
    (Hfresh : attempts !! key = None)
    (Hcount : Z.of_nat (length (stamps_of key requests)) = max)
    (Hwindow : Forall (fun s => t - windowMs < s <= t)
                      (stamps_of key requests)) :
  (forall before s after,
      requests = before ++ (key, s) :: after ->
      fst (authRateLimit windowMs max key s
             (serve windowMs max before attempts))
      = Next)
  /\ fst (authRateLimit windowMs max key t
            (serve windowMs max requests attempts))
     = rate_limited windowMs
  /\ (forall record t',
         authRateLimit windowMs max key t' record
         = if Z.of_nat (length (List.filter (inside_window windowMs t')
                                  (recorded key record))) <? max
           then (Next,
                 <[key := List.filter (inside_window windowMs t')
                            (recorded key record) ++ [t']]> record)
           else (rate_limited windowMs,
                 <[key := List.filter (inside_window windowMs t')
                            (recorded key record)]> record))
  /\ (forall t0 run,
         clock_runs_forward t0 (map snd run) ->
         verdicts windowMs max run ∅ = sliding_window windowMs max run []).
Proof.
  assert (Hnone : recorded key attempts = []).
  { unfold recorded. now rewrite Hfresh. }
  assert (Hkept : forall t' l,
             t' <= t ->
             Forall (fun s => t - windowMs < s <= t) l ->
             List.filter (fun s => t' - windowMs <? s) l = l).
  { intros t' l Hle Hin. apply filter_all_kept.
    eapply Forall_impl; [exact Hin|].
    intros s Hs. cbn in Hs. apply Z.ltb_lt. lia. }
  split; [|split; [|split]].
  - intros before s after ->.
    rewrite stamps_of_app in Hcount, Hwindow.
    change (stamps_of key ((key, s) :: after))
      with (map snd (List.filter (fun q => String.eqb (fst q) key)
                       ((key, s) :: after))) in Hcount, Hwindow.
    cbn [List.filter fst] in Hcount, Hwindow.
    rewrite String.eqb_refl in Hcount, Hwindow.
    cbn [map snd] in Hcount, Hwindow.
    apply Forall_app in Hwindow as [Hbefore Hrest].
    apply Forall_cons in Hrest as [Hs _].
    rewrite length_app in Hcount. cbn [length] in Hcount.
    assert (Hrec : recorded key (serve windowMs max before attempts)
                   = stamps_of key before).
    { rewrite (serve_records windowMs max key t); rewrite Hnone; cbn;
        [reflexivity|assumption|lia]. }
    rewrite recorded_same. cbv zeta. rewrite Hrec.
    rewrite Hkept by (lia || assumption).
    destruct (Z.leb_spec max (Z.of_nat (length (stamps_of key before))));
      [lia|reflexivity].
  - assert (Hrec : recorded key (serve windowMs max requests attempts)
                   = stamps_of key requests).
    { rewrite (serve_records windowMs max key t); rewrite Hnone; cbn;
        [reflexivity|assumption|lia]. }
    rewrite recorded_same. cbv zeta. rewrite Hrec.
    rewrite Hkept by (lia || assumption).
    destruct (Z.leb_spec max (Z.of_nat (length (stamps_of key requests))));
      [reflexivity|lia].
  - intros record t'. apply authRateLimit_window.
  - intros t0 run Hclock.
    apply (verdicts_sliding_window windowMs max run t0); [assumption|].
    intros key' t' _. unfold recorded. now rewrite lookup_empty.
Qed.

(* ===================================================================== *)
(** * The credential store *)
(* ===================================================================== *)

Lemma assign_email t k u u' :
  leaves_email_field k = true ->
  Repository.assign t k u = Return u' ->
  _email u' = match k with
              | UpdEmail x => x
              | _ => _email u
              end.
Proof.
  destruct k; cbn; intros Hfield Hk; simplify_eq; reflexivity.
Qed.

Lemma assign_all_index t key updates :
  forall r, _emailIndex (snd (Repository.assign_all t key updates r))
            = _emailIndex r.
Proof.
  induction updates as [|k rest IH]; intros r; cbn; [reflexivity|].
  destruct (_users r !! key) as [u|]; [|reflexivity].
  destruct (Repository.assign t k u); [|reflexivity].
  now rewrite IH.
Qed.

(** After the assignments, the stored object carries the email the
    updates name, if they name one (and do not write the field past the
    property). *)
Lemma assign_all_email t key updates :
  forall r r' u,
    forallb leaves_email_field updates = true ->
    _users r !! key = Some u ->
    Repository.assign_all t key updates r = (Return tt, r') ->
    exists u', _users r' !! key = Some u'
               /\ _email u'
                  = from_option id (_email u) (Repository.updates_email updates).
Proof.
  induction updates as [|k rest IH]; intros r r' u Hfields Hu Hrun;
    cbn in *.
  - unfold ret in Hrun. simplify_eq. exists u. now split.
  - apply andb_true_iff in Hfields as [Hfield Hfields].
    rewrite Hu in Hrun.
    destruct (Repository.assign t k u) as [u1|e] eqn:Hk; [|discriminate].
    apply IH with (u := u1) in Hrun as (u' & Hu' & Hemail);
      [|assumption|cbn; apply lookup_insert_eq].
    exists u'. split; [assumption|]. rewrite Hemail.
    apply assign_email in Hk; [|assumption].
    destruct k; cbn; rewrite Hk;
      now destruct (Repository.updates_email rest).
Qed.

(** [update] compares [updates.email] with the email it has just
    assigned, so the branch that maintains the index is not taken. *)
Lemma update_keeps_email_index `{Js.Casing} t key updates r :
  forallb leaves_email_field updates = true ->
  _emailIndex (snd (Repository.update t key updates r)) = _emailIndex r.
Proof.
  intros Hfields.
  unfold Repository.update, bind, ret, Repository.findById; cbn.
  destruct (_users r !! key) as [u|] eqn:Hu; [|reflexivity].
  destruct (Repository.assign_all t key updates r) as [[[]|e] r1] eqn:Hrun.
  - pose proof (assign_all_index t key updates r) as Hidx.
    rewrite Hrun in Hidx. cbn in Hidx.
    destruct (assign_all_email t key updates r r1 u Hfields Hu Hrun)
      as (u' & Hu' & Hemail).
    rewrite Hu'.
    destruct (Repository.updates_email updates) as [e|] eqn:He; cbn in *.
    + rewrite Hemail, String.eqb_refl, andb_false_r. cbn. exact Hidx.
    + exact Hidx.
  - pose proof (assign_all_index t key updates r) as Hidx.
    now rewrite Hrun in Hidx.
Qed.

Lemma lookupByEmail_consistent `{Js.Casing} r key u email :
  index_consistent r ->
  _users r !! key = Some u ->
  Js.toLowerCase email = Js.toLowerCase (_email u) ->
  Repository.lookupByEmail email r = Some (key, u).
Proof.
  intros Hindex Hu Hsame. destruct (Hindex key u Hu) as [Hkey Hidx].
  unfold Repository.lookupByEmail. rewrite Hsame, Hidx.
  destruct (String.eqb_spec key "") as [->|_]; [contradiction|].
  now rewrite Hu.
Qed.

Lemma updates_email_In updates e :
  Repository.updates_email updates = Some e -> In (UpdEmail e) updates.
Proof.
  induction updates as [|k rest IH]; cbn; [discriminate|].
  destruct k; auto.
  destruct (Repository.updates_email rest) as [y|]; intros He; simplify_eq;
    auto.
Qed.

(** Creating and deleting keep the index in agreement with the stored
    users; updating an email does not (see C9 below). *)
Lemma create_preserves_index `{Js.Casing} `{Joi} user r saved r' :
  index_consistent r ->
  _id user <> "" ->
  Repository.create user r = (Return saved, r') ->
  index_consistent r'.
Proof.
  intros Hindex Hid Hcreate. rewrite create_run in Hcreate.
  destruct (negb (Entity.validate user)); [discriminate|].
  destruct (Repository.lookupByEmail (_email user) r) as [[k0 u0]|] eqn:Hfree;
    [discriminate|].
  injection Hcreate as Hsaved Hr'. subst saved r'.
  intros key u Hu. cbn in Hu |- *.
  apply lookup_insert_Some in Hu as [[<- <-]|[Hne Hu]].
  - split; [assumption|]. apply lookup_insert_eq.
  - destruct (Hindex key u Hu) as [Hkey Hidx]. split; [assumption|].
    rewrite lookup_insert_ne; [assumption|].
    intros Hsame.
    rewrite (lookupByEmail_consistent r key u (_email user)) in Hfree;
      auto; discriminate.
Qed.

Lemma delete_preserves_index `{Js.Casing} key r :
  index_consistent r ->
  index_consistent (snd (Repository.delete key r)).
Proof.
  intros Hindex. unfold Repository.delete, bind, Repository.findById, ret.
  destruct (_users r !! key) as [user|] eqn:Huser; [|exact Hindex].
  intros k u Hu. cbn in Hu |- *.
  apply lookup_delete_Some in Hu as [Hne Hu].
  destruct (Hindex k u Hu) as [Hk Hidx]. split; [assumption|].
  rewrite lookup_delete_ne; [assumption|].
  intros Hsame. destruct (Hindex key user Huser) as [_ Hidx'].
  rewrite Hsame in Hidx'. congruence.
Qed.

Section UniquenessFacts.
Context `{Js.Casing} `{Joi} `{Bcrypt} `{Runtime} `{JsonWebToken}.

Import AuthenticationService UserService.

Lemma validRegistration_email userData data :
  validRegistration userData = Some data -> r_email data = r_email userData.
Proof.
  unfold validRegistration. destruct (_ && _); intros Hd; now simplify_eq.
Qed.

Lemma registrant_email c data hashed :
  _email (registrant c data hashed) = r_email data.
Proof.
  cbn. now destruct (String.eqb_spec (r_email data) "") as [->|_].
Qed.

(** An email that lower-cases as a stored user's own does is resolved
    to that user, once the user's own email is. *)
Lemma lookupByEmail_same_folding r key u email :
  Repository.lookupByEmail (_email u) r = Some (key, u) ->
  Js.toLowerCase email = Js.toLowerCase (_email u) ->
  Repository.lookupByEmail email r = Some (key, u).
Proof.
  unfold Repository.lookupByEmail. intros Hfound Hsame. now rewrite Hsame.
Qed.

(** C4, as the code has it: uniqueness of the normalized email is
    checked by the repository's create (hence by register) and, for
    updates, by the user service's updateUser -- the repository's own
    update performs no such check.  In every store state that holds an
    identity which the index resolves under its normalized email e,
    registering any email whose lower-casing is e fails and leaves the
    store unchanged, with the message "User with this email already
    exists" when the registration is otherwise valid; and updating an
    identity through updateUser to such an email, other than the very
    email it has, fails with "Email is already taken" and leaves the
    store unchanged.  The lower-casing is the runtime's, whatever
    letters it folds. *)
Theorem duplicate_email_is_refused (c : Ctx) (r : Repo) (key : string)
    (u : User)
    (Hindexed : Repository.lookupByEmail (_email u) r = Some (key, u)) :
  (forall userData,
      Js.toLowerCase (r_email userData) = Js.toLowerCase (_email u) ->
      exists v,
        register c userData r = (Return v, r)
        /\ is_failure v
        /\ (forall data,
               validRegistration userData = Some data ->
               Entity.validate
                 (registrant c data (hashPassword c (r_password data))) = true ->
               failure_with "User with this email already exists"
                 "INTERNAL_ERROR" v))
  /\ (forall other_key other updates e,
         _users r !! other_key = Some other ->
         forallb validUpdate updates = true ->
         Repository.updates_email updates = Some e ->
         Js.toLowerCase e = Js.toLowerCase (_email u) ->
         e <> _email other ->
         exists v,
           updateUser c other_key updates r = (Return v, r)
           /\ failure_with "Email is already taken" "INTERNAL_ERROR" v).
Proof.
  split.
  - intros userData Hsame. rewrite register_run.
    destruct (validRegistration userData) as [data|] eqn:Hdata.
    + rewrite create_run.
      destruct (Entity.validate _) eqn:Hvalid; cbn [negb].
      * rewrite (lookupByEmail_same_folding r key u).
        2: assumption.
        2:{ rewrite registrant_email.
            now rewrite (validRegistration_email _ _ Hdata). }
        rewrite handleError_plain by discriminate.
        eexists; split; [reflexivity|].
        split; [eexists; split; reflexivity|]. intros. now eexists.
      * rewrite handleError_plain by discriminate.
        eexists; split; [reflexivity|].
        split; [eexists; split; reflexivity|].
        intros d' Hd' Hv'. simplify_eq. congruence.
    + rewrite handleError_plain by discriminate.
      eexists; split; [reflexivity|].
      split; [eexists; split; reflexivity|]. intros; discriminate.
  - intros other_key other updates e Hother Hvalid He Hsame Hdiffers.
    assert (Hjoi : Entity.joi_email e = true).
    { apply updates_email_In in He.
      rewrite forallb_forall in Hvalid. exact (Hvalid _ He). }
    assert (Hnonempty : String.eqb e "" = false).
    { unfold Entity.joi_email in Hjoi. apply andb_true_iff in Hjoi as [Hn _].
      now apply negb_true_iff in Hn. }
    apply String.eqb_neq in Hdiffers.
    apply executeOperation_throw_plain; [|discriminate].
    rewrite Hvalid. cbn [negb].
    unfold bind, Repository.findById, Repository.findByEmail, throw.
    rewrite Hother, He, Hnonempty, Hdiffers. cbn [negb andb].
    now rewrite (lookupByEmail_same_folding r key u).
Qed.

End UniquenessFacts.

(* ===================================================================== *)
(** * Worked examples *)
(* ===================================================================== *)

Import Fixture AuthenticationService UserService.

Lemma seeded_users :
  _users seeded = <["id-user" := regular]> (<["id-admin" := admin]> ∅).
Proof. reflexivity. Qed.

Lemma seeded_consistent : index_consistent seeded.
Proof.
  intros key u Hk. rewrite seeded_users in Hk.
  apply lookup_insert_Some in Hk as [[<- <-]|[_ Hk]].
  - split; [discriminate|reflexivity].
  - apply lookup_insert_Some in Hk as [[<- <-]|[_ Hk]].
    + split; [discriminate|reflexivity].
    + rewrite lookup_empty in Hk. discriminate.
Qed.

(** With a secret configured, a login with accepted credentials and a
    valid registration both end in the package's refusal; the registered
    user has been stored all the same. *)
Example register_fails_after_storing :
  failure_with (message bad_expiresIn) "INTERNAL_ERROR"
    (returned (register configured newcomer seeded))
  /\ (_email <$> _users (snd (register configured newcomer seeded)) !! "id-new")
     = Some "new@example.com".
Proof. split; [now eexists|reflexivity]. Qed.

(** C2, a counterexample to the statement that the configuration error
    propagates: with no secret configured, refresh returns an ordinary
    failure result. *)
Lemma missing_secret_is_caught :
  refreshToken unconfigured (VStr "a.b.c") seeded
  = (Return (VObj [("success", VBool false);
                   ("error", VObj [("message", VStr secret_required);
                                   ("code", VStr "INTERNAL_ERROR");
                                   ("timestamp", VStr "5000")])]),
     seeded)
  /\ ~ propagates (refreshToken unconfigured (VStr "a.b.c") seeded).
Proof.
  split; [reflexivity|]. intros [e He]. vm_compute in He. discriminate.
Qed.

Lemma missing_secret_witness :
  secret_of unconfigured = None
  /\ exists v, refreshToken unconfigured (VStr "a.b.c") seeded
               = (Return v, seeded)
               /\ failure_with secret_required "INTERNAL_ERROR" v.
Proof.
  split; [reflexivity|].
  exact (proj1 (missing_secret_yields_failure_result unconfigured eq_refl)
           (VStr "a.b.c") seeded).
Defined.




(** The schema counts as the runtime does: a password of seven
    characters, one of them outside ASCII, is eight bytes long and is
    turned away. *)
Example accented_password_is_short :
  String.length "pässwor" = 8%nat
  /\ Js.length "pässwor" = 7%nat
  /\ validLogin "member@example.com" "pässwor" = false.
Proof. repeat split. Qed.

(** C4, a counterexample to uniqueness at update: the repository's own
    update gives the regular user the admin's address, in capitals, and
    the store changes. *)
Lemma repository_update_admits_duplicate :
  Js.toLowerCase "ADMIN@example.com" = Js.toLowerCase (_email admin)
  /\ (exists u', fst clashed = Return (Some u')
                 /\ _email u' = "ADMIN@example.com")
  /\ (_email <$> _users (snd clashed) !! "id-user") = Some "ADMIN@example.com"
  /\ (_email <$> _users (snd clashed) !! "id-admin") = Some "admin@example.com"
  /\ snd clashed <> seeded.
Proof.
  split; [reflexivity|]. split; [eexists; split; reflexivity|].
  split; [reflexivity|]. split; [reflexivity|].
  intros Heq.
  apply (f_equal (fun r => _email <$> _users r !! "id-user")) in Heq.
  vm_compute in Heq. discriminate.
Qed.

Lemma duplicate_email_witness :
  Repository.lookupByEmail (_email admin) seeded = Some ("id-admin", admin)
  /\ (exists v,
        register configured
          {| r_email := "Admin@Example.COM"; r_password := "password123";
             r_firstName := "John"; r_lastName := "Doe"; r_role := None |}
          seeded
        = (Return v, seeded)
        /\ failure_with "User with this email already exists"
             "INTERNAL_ERROR" v)
  /\ (exists v,
        updateUser configured "id-user" [UpdEmail "ADMIN@example.com"] seeded
        = (Return v, seeded)
        /\ failure_with "Email is already taken" "INTERNAL_ERROR" v).
Proof.
  assert (Hadmin : Repository.lookupByEmail (_email admin) seeded
                   = Some ("id-admin", admin)) by reflexivity.
  split; [exact Hadmin|].
  destruct (duplicate_email_is_refused configured seeded "id-admin" admin
              Hadmin) as [Hregister Hupdate].
  split.
  - destruct (Hregister
                {| r_email := "Admin@Example.COM"; r_password := "password123";
                   r_firstName := "John"; r_lastName := "Doe";
                   r_role := None |} eq_refl)
      as (v & Hrun & _ & Hmsg).
    exists v. split; [exact Hrun|]. now apply (Hmsg _ eq_refl).
  - apply (Hupdate "id-user" regular [UpdEmail "ADMIN@example.com"]
             "ADMIN@example.com"); try reflexivity. discriminate.
Defined.

(** Outside ASCII as well: with a pupil stored under the address
    ÉCOLE@example.com, the index resolves école@example.com to the
    pupil, and a registration under that address is refused. *)
Example accented_duplicate_is_refused :
  Repository.lookupByEmail "école@example.com" academy
  = Some ("id-pupil", pupil)
  /\ failure_with "User with this email already exists" "INTERNAL_ERROR"
       (returned
          (register configured
             {| r_email := "école@example.com"; r_password := "password123";
                r_firstName := "John"; r_lastName := "Doe"; r_role := None |}
             academy))
  /\ snd (register configured
            {| r_email := "école@example.com"; r_password := "password123";
               r_firstName := "John"; r_lastName := "Doe"; r_role := None |}
            academy)
     = academy.
Proof. split; [reflexivity|]. split; [now eexists|reflexivity]. Qed.

(** C5, a counterexample to the implicit hierarchy: on a route declared
    for moderators only, an admin -- authorized by the specification's
    rule -- is answered 403. *)
Lemma admin_denied_on_moderator_only_route :
  spec_authorized ["moderator"] (_role admin)
  /\ requireRoles ["moderator"] (Some admin)
     = Respond 403
         (denied [ ("message", VStr "Insufficient permissions");
                   ("code", VStr "INSUFFICIENT_PERMISSIONS");
                   ("requiredRoles", VArr [VStr "moderator"]);
                   ("userRole", VStr "admin") ])
  /\ requireRoles ["moderator"] (Some admin) <> Next.
Proof.
  split; [|split; [reflexivity|discriminate]].
  right. split; [reflexivity|]. apply list_elem_of_here.
Qed.

(** The scenario of the specification: an admin-only route, a moderator. *)
Example moderator_on_admin_route :
  requireAdmin (Some moderator)
  = Respond 403
      (denied [ ("message", VStr "Insufficient permissions");
                ("code", VStr "INSUFFICIENT_PERMISSIONS");
                ("requiredRoles", VArr [VStr "admin"]);
                ("userRole", VStr "moderator") ]).
Proof. reflexivity. Qed.

(** C8 with the defaults: the five attempts of the burst are let
    through, the fifth among them, and the sixth is turned away; over
    the burst and the sixth attempt the answers are the sliding
    window's. *)
Lemma sixth_attempt_witness :
  (∅ : gmap string (list Z)) !! "10.0.0.1" = None
  /\ Z.of_nat (length (stamps_of "10.0.0.1" burst)) = default_max
  /\ Forall (fun s => 6000 - default_windowMs < s <= 6000)
            (stamps_of "10.0.0.1" burst)
  /\ fst (authRateLimit default_windowMs default_max "10.0.0.1" 5000
            (serve default_windowMs default_max
               [ ("10.0.0.1", 1000); ("10.0.0.2", 1500); ("10.0.0.1", 2000);
                 ("10.0.0.1", 3000); ("10.0.0.2", 3500); ("10.0.0.1", 4000) ]
               ∅))
     = Next
  /\ fst (authRateLimit default_windowMs default_max "10.0.0.1" 6000
            (serve default_windowMs default_max burst ∅))
     = Respond 429
         (denied [ ("message", VStr "Too many authentication attempts");
                   ("code", VStr "RATE_LIMIT_EXCEEDED");
                   ("retryAfter", VNum 900) ])
  /\ verdicts default_windowMs default_max (burst ++ [("10.0.0.1", 6000)]) ∅
     = sliding_window default_windowMs default_max
         (burst ++ [("10.0.0.1", 6000)]) [].
Proof.
  assert (Hwindow : Forall (fun s => 6000 - default_windowMs < s <= 6000)
                           (stamps_of "10.0.0.1" burst)).
  { change (stamps_of "10.0.0.1" burst) with [1000; 2000; 3000; 4000; 5000].
    unfold default_windowMs. repeat (apply Forall_cons_2; [lia|]).
    apply Forall_nil_2. }
  assert (Hfresh : (∅ : gmap string (list Z)) !! "10.0.0.1" = None)
    by reflexivity.
  assert (Hcount : Z.of_nat (length (stamps_of "10.0.0.1" burst))
                   = default_max) by reflexivity.
  split; [exact Hfresh|]. split; [exact Hcount|]. split; [exact Hwindow|].
  destruct (attempt_beyond_max_is_rejected default_windowMs default_max
              "10.0.0.1" 6000 burst ∅ Hfresh Hcount Hwindow)
    as (Hadmitted & Hrefused & _ & Hsliding).
  split; [|split; [exact Hrefused|]].
  - apply (Hadmitted _ 5000 []). reflexivity.
  - apply (Hsliding 0). cbn. lia.
Defined.

(** C9, at the sample store: the admin's address is changed through the
    user service; the update succeeds and the stored user carries the
    new address, yet the index still leads from the old address to that
    user and knows nothing of the new one -- which a second user may
    then take. *)
Theorem email_change_leaves_index_stale :
  (exists data, fst renamed
                = Return (VObj [("success", VBool true); ("data", data)]))
  /\ (_email <$> _users (snd renamed) !! "id-admin") = Some "root@example.com"
  /\ fst (Repository.findByEmail "root@example.com" (snd renamed))
     = Return None
  /\ (exists u,
        fst (Repository.findByEmail "admin@example.com" (snd renamed))
        = Return (Some u)
        /\ _email u = "root@example.com")
  /\ (exists v,
        fst (updateUser configured "id-user" [UpdEmail "root@example.com"]
               (snd renamed))
        = Return (VObj [("success", VBool true); ("data", v)])).
Proof.
  split; [eexists; reflexivity|]. split; [reflexivity|].
  split; [reflexivity|]. split; [eexists; split; reflexivity|].
  eexists; reflexivity.
Qed.

(* ===================================================================== *)
(** * The sanitizer and the controller's responses *)
(* ===================================================================== *)

Lemma get_remove_same k props : Js.get k (Js.remove k props) = VUndefined.
Proof.
  induction props as [|[k' v] rest IH]; cbn; [reflexivity|].
  destruct (String.eqb_spec k k') as [->|Hne]; [exact IH|].
  cbn. destruct (String.eqb_spec k k'); [contradiction|exact IH].
Qed.

Lemma get_remove_other k k' props :
  k <> k' -> Js.get k (Js.remove k' props) = Js.get k props.
Proof.
  intros Hne. induction props as [|[k0 v] rest IH]; cbn; [reflexivity|].
  destruct (String.eqb_spec k' k0) as [->|Hne'].
  - destruct (String.eqb_spec k k0); [contradiction|exact IH].
  - cbn. destruct (String.eqb_spec k k0); [reflexivity|exact IH].
Qed.

Lemma strip_same field props :
  Js.truthy (Js.get field (strip field props)) = false.
Proof.
  unfold strip. destruct (Js.truthy (Js.get field props)) eqn:Ht.
  - now rewrite get_remove_same.
  - exact Ht.
Qed.

Lemma strip_other k field props :
  k <> field -> Js.get k (strip field props) = Js.get k props.
Proof.
  intros Hne. unfold strip.
  destruct (Js.truthy (Js.get field props)); [|reflexivity].
  now apply get_remove_other.
Qed.

Lemma strip_keeps_falsy k field props :
  Js.truthy (Js.get k props) = false ->
  Js.truthy (Js.get k (strip field props)) = false.
Proof.
  intros Hk. destruct (String.eqb_spec k field) as [->|Hne].
  - apply strip_same.
  - now rewrite strip_other.
Qed.

Lemma sanitize_object props :
  BaseService.sanitizeOutput (VObj props)
  = VObj (strip "key" (strip "secret" (strip "token" (strip "password" props)))).
Proof. reflexivity. Qed.

(** X1: on an object, the sanitizer returns a copy in which each of
    password, token, secret and key is absent or falsy, and every other
    property reads as before (nested objects included, untouched). *)
Theorem sanitizeOutput_strips_sensitive (props : list (string * value)) :
  exists out,
    BaseService.sanitizeOutput (VObj props) = VObj out
    /\ (forall field, field ∈ BaseService.sensitiveFields ->
                      Js.truthy (Js.get field out) = false)
    /\ (forall k, k ∉ BaseService.sensitiveFields ->
                  Js.get k out = Js.get k props).
Proof.
  eexists. split; [apply sanitize_object|]. split.
  - intros field Hin. unfold BaseService.sensitiveFields in Hin.
    rewrite !elem_of_cons, elem_of_nil in Hin.
    destruct Hin as [->|[->|[->|[->|[]]]]];
      repeat first [apply strip_same | apply strip_keeps_falsy].
  - intros k Hout. unfold BaseService.sensitiveFields in Hout.
    rewrite !elem_of_cons, elem_of_nil in Hout.
    rewrite !strip_other; [reflexivity|..]; intros ->; tauto.
Qed.

Lemma controller_sanitizer :
  BaseController.sanitizeOutput = BaseService.sanitizeOutput.
Proof. reflexivity. Qed.

Lemma sanitized_token_falsy data :
  Js.truthy (Js.prop "token" (BaseController.sanitizeOutput data)) = false.
Proof.
  rewrite controller_sanitizer. unfold BaseService.sanitizeOutput.
  destruct (Js.truthy data && Js.is_object data) eqn:Hobj.
  - cbn [Js.prop fold_left BaseService.sensitiveFields].
    change (Js.truthy
              (Js.get "token"
                 (strip "key" (strip "secret" (strip "token"
                    (strip "password" (BaseService.spread data)))))) = false).
    repeat first [apply strip_same | apply strip_keeps_falsy].
  - destruct data; try reflexivity. discriminate.
Qed.

Section ControllerFacts.
Context `{Js.Casing} `{Joi} `{Bcrypt} `{Runtime} `{JsonWebToken}.
Variable login_messages : string -> string -> string.
Variable register_messages : Registration -> string.

Lemma sendSuccess_no_token t data status msg :
  carries_no_token (BaseController.sendSuccess t data status msg).
Proof.
  do 2 eexists. split; [reflexivity|]. cbn [Js.prop Js.get String.eqb].
  cbn. apply sanitized_token_falsy.
Qed.

Lemma sendError_no_token t e status cd :
  carries_no_token (BaseController.sendError t e status cd).
Proof. do 2 eexists. split; reflexivity. Qed.

(** A handler whose body answers only through [sendSuccess] answers
    without a token, whichever way it ends. *)
Lemma asyncHandler_no_token {S : Type} t (body : Comp S Verdict) s :
  (forall v s', body s = (Return v, s') -> carries_no_token v) ->
  exists v s', BaseController.asyncHandler t body s = (Return v, s')
               /\ carries_no_token v.
Proof.
  intros Hbody. unfold BaseController.asyncHandler, try_catch, ret.
  destruct (body s) as [[v|e] s'] eqn:Hrun.
  - exists v, s'. split; [reflexivity|]. now apply (Hbody v s').
  - eexists _, s'. split; [reflexivity|]. apply sendError_no_token.
Qed.

(** X2: whatever the login, registration and refresh endpoints answer,
    the response carries no token: the success envelope passes the
    service's data through the controller's sanitizer, which removes
    the token property along with the other sensitive names. *)
Theorem auth_responses_carry_no_token (c : Ctx) (r : Repo) :
  (forall email password, exists v r',
      AuthController.login login_messages c email password r = (Return v, r')
      /\ carries_no_token v)
  /\ (forall body, exists v r',
         AuthController.register register_messages c body r = (Return v, r')
         /\ carries_no_token v)
  /\ (forall token, exists v r',
         AuthController.refreshToken c token r = (Return v, r')
         /\ carries_no_token v).
Proof.
  split; [|split].
  - intros email password. apply asyncHandler_no_token.
    intros v s'. destruct (negb (AuthenticationService.validLogin _ _));
      [discriminate|].
    unfold bind, throw, ret.
    destruct (AuthenticationService.authenticate c email password r)
      as [[result|e] r1]; [|discriminate].
    destruct (negb (Js.truthy (Js.prop "success" result))); [discriminate|].
    intros Hv. simplify_eq. apply sendSuccess_no_token.
  - intros body. apply asyncHandler_no_token.
    intros v s'. destruct (AuthenticationService.validRegistration body)
      as [userData|]; [|discriminate].
    unfold bind, throw, ret.
    destruct (AuthenticationService.register c userData r)
      as [[result|e] r1]; [|discriminate].
    destruct (negb (Js.truthy (Js.prop "success" result))); [discriminate|].
    intros Hv. simplify_eq. apply sendSuccess_no_token.
  - intros token. apply asyncHandler_no_token.
    intros v s'. destruct (negb (Js.truthy token)); [discriminate|].
    unfold bind, throw, ret.
    destruct (AuthenticationService.refreshToken c token r)
      as [[result|e] r1]; [|discriminate].
    destruct (negb (Js.truthy (Js.prop "success" result))); [discriminate|].
    intros Hv. simplify_eq. apply sendSuccess_no_token.
Qed.


End ControllerFacts.

(* ===================================================================== *)
(** * The credential store: creating, deleting, updating *)
(* ===================================================================== *)

(** X4: a user that [create] has stored is found again: by its id, by
    [exists], and by every email that lower-cases as its own does. *)
Theorem create_then_find `{Js.Casing} `{Joi} (user saved : User)
    (r r' : Repo)
    (Hcreate : Repository.create user r = (Return saved, r'))
    (Hid : _id user <> "") :
  saved = user
  /\ Repository.findById (_id user) r' = (Return (Some user), r')
  /\ Repository.exists_ (_id user) r' = (Return true, r')
  /\ (forall email,
         Js.toLowerCase email = Js.toLowerCase (_email user) ->
         Repository.findByEmail email r' = (Return (Some user), r')).
Proof.
  rewrite create_run in Hcreate.
  destruct (negb (Entity.validate user)); [discriminate|].
  destruct (Repository.lookupByEmail (_email user) r) as [[k0 u0]|];
    [discriminate|].
  injection Hcreate as Hsaved Hr'. subst saved r'.
  assert (Hstored : _users (Repository.index (Js.toLowerCase (_email user))
                              (_id user) (Repository.store user r))
                    !! _id user = Some user).
  { cbn. apply lookup_insert_eq. }
  split; [reflexivity|]. split.
  { unfold Repository.findById. now rewrite Hstored. }
  split.
  { unfold Repository.exists_. rewrite Hstored.
    now rewrite bool_decide_eq_true_2 by eauto. }
  intros email Hsame. unfold Repository.findByEmail, Repository.lookupByEmail.
  rewrite Hsame. cbn [_emailIndex Repository.index].
  rewrite lookup_insert_eq.
  destruct (String.eqb_spec (_id user) "") as [Hempty|_]; [contradiction|].
  now rewrite Hstored.
Qed.

Lemma create_throw_cases `{Js.Casing} `{Joi} (user : User) (e : Error)
    (r r' : Repo) :
  Repository.create user r = (Throw e, r') ->
  r' = r
  /\ ((Entity.validate user = false /\ e = new_Error "Invalid user data")
      \/ (Entity.validate user = true
          /\ is_Some (Repository.lookupByEmail (_email user) r)
          /\ e = new_Error "User with this email already exists")).
Proof.
  intros Hcreate. rewrite create_run in Hcreate.
  destruct (Entity.validate user); cbn [negb] in Hcreate.
  - destruct (Repository.lookupByEmail (_email user) r) as [[k0 u0]|];
      [|discriminate].
    injection Hcreate as <- <-. split; [reflexivity|]. right. eauto.
  - injection Hcreate as <- <-. split; [reflexivity|]. now left.
Qed.

(** X6: [delete] of an id that is not stored returns false and changes
    nothing; of a stored user it returns true, after which the id is
    gone ([findById], [exists]), the user's email no longer resolves,
    and every other stored user is as before. *)
Theorem delete_removes_user `{Js.Casing} (id : string) (r : Repo) :
  (_users r !! id = None -> Repository.delete id r = (Return false, r))
  /\ (forall u, _users r !! id = Some u ->
        exists r',
          Repository.delete id r = (Return true, r')
          /\ Repository.findById id r' = (Return None, r')
          /\ Repository.exists_ id r' = (Return false, r')
          /\ Repository.findByEmail (_email u) r' = (Return None, r')
          /\ (forall k, k <> id -> _users r' !! k = _users r !! k)).
Proof.
  unfold Repository.delete, bind, ret, Repository.findById. split.
  - intros Hnone. now rewrite Hnone.
  - intros u Hu. rewrite Hu. eexists. split; [reflexivity|].
    split; [|split; [|split]].
    + cbn. now rewrite lookup_delete_eq.
    + unfold Repository.exists_. cbn. rewrite lookup_delete_eq.
      rewrite bool_decide_eq_false_2; [reflexivity|].
      intros [x Hx]. discriminate.
    + unfold Repository.findByEmail, Repository.lookupByEmail. cbn.
      now rewrite lookup_delete_eq.
    + intros k Hne. cbn. now apply lookup_delete_ne.
Qed.

(** X7: the agreement between the email index and the stored users is
    kept by every sequence of creations (of users with an id) and
    deletions, whether or not the individual operations succeed. *)
Theorem index_kept_by_create_and_delete `{Js.Casing} `{Joi}
    (ops : list StoreOp)
    (r : Repo)
    (Hindex : index_consistent r)
    (Hnamed : Forall creates_named ops) :
  index_consistent (apply_ops ops r).
Proof.
  revert r Hindex.
  induction Hnamed as [|op rest Hop _ IH]; intros r Hindex; [exact Hindex|].
  destruct op as [user|id]; cbn [apply_ops]; apply IH.
  - destruct (Repository.create user r) as [[saved|e] r'] eqn:Hcreate.
    + now apply (create_preserves_index user r saved r').
    + now destruct (create_throw_cases user e r r' Hcreate) as [-> _].
  - now apply delete_preserves_index.
Qed.




(** The loop of [update], on a stored object: it ends as the first
    throwing key has it, or normally when none throws, and leaves the
    object as the assignments made up to there have it; nothing else
    is changed. *)
Lemma assign_all_run t id updates :
  forall r u,
    _users r !! id = Some u ->
    exists r',
      Repository.assign_all t id updates r
      = (match first_throw t updates u with
         | Some e => Throw e
         | None => Return tt
         end, r')
      /\ _users r' = <[id := assigned t updates u]> (_users r)
      /\ _emailIndex r' = _emailIndex r.
Proof.
  induction updates as [|k rest IH]; intros r u Hu; cbn.
  - exists r. split; [reflexivity|]. split; [|reflexivity].
    symmetry. now apply insert_id.
  - rewrite Hu. destruct (Repository.assign t k u) as [u1|e] eqn:Hk.
    + destruct (IH (Repository.mutate id u1 r) u1) as (r' & Hrun & Husers & Hidx);
        [cbn; apply lookup_insert_eq|].
      exists r'. split; [exact Hrun|]. split; [|exact Hidx].
      rewrite Husers. cbn. apply insert_insert_eq.
    + exists r. split; [reflexivity|]. split; [|reflexivity].
      symmetry. now apply insert_id.
Qed.

(** A getter-only property among the updates makes the loop throw. *)
Lemma first_throw_named t updates flag :
  In (UpdIsEmailVerified flag) updates ->
  forall u, is_Some (first_throw t updates u).
Proof.
  induction updates as [|k rest IH]; intros Hin u; [destruct Hin|].
  cbn. destruct (Repository.assign t k u) as [u1|e] eqn:Hk; [|eauto].
  destruct Hin as [->|Hin]; [discriminate|]. now apply IH.
Qed.

(** When the keys before [isEmailVerified] can all be assigned, the
    loop throws at that key, every one of them having been assigned. *)
Lemma assigned_prefix t flag before rest :
  forall u,
    first_throw t before u = None ->
    first_throw t (before ++ UpdIsEmailVerified flag :: rest) u
    = Some (Repository.getter_only "isEmailVerified")
    /\ assigned t (before ++ UpdIsEmailVerified flag :: rest) u
       = fold_left
           (fun entity k =>
              match Repository.assign t k entity with
              | Return entity' => entity'
              | Throw _ => entity
              end) before u.
Proof.
  induction before as [|k before IH]; intros u Hnone; cbn in Hnone |- *.
  - split; reflexivity.
  - destruct (Repository.assign t k u) as [u1|e]; [|discriminate].
    now apply IH.
Qed.

(** [update] on a stored object, in the two ways it ends. *)
Lemma update_run `{Js.Casing} t id updates r u :
  _users r !! id = Some u ->
  exists out r',
    Repository.update t id updates r = (out, r')
    /\ match first_throw t updates u with
       | Some e =>
           out = Throw e
           /\ _users r' = <[id := assigned t updates u]> (_users r)
           /\ _emailIndex r' = _emailIndex r
       | None =>
           out = Return (Some (Entity.touch t (assigned t updates u)))
           /\ _users r'
              = <[id := Entity.touch t (assigned t updates u)]> (_users r)
       end.
Proof.
  intros Hu. unfold Repository.update, bind, ret, Repository.findById. cbn.
  rewrite Hu.
  destruct (assign_all_run t id updates r u Hu) as (r1 & Hrun & Husers & Hidx).
  rewrite Hrun. destruct (first_throw t updates u) as [e|].
  - exists (Throw e), r1. auto.
  - rewrite Husers, lookup_insert_eq.
    assert (Hfinal : forall r2,
               _users r2 = _users r1 ->
               _users (Repository.mutate id
                         (Entity.touch t (assigned t updates u)) r2)
               = <[id := Entity.touch t (assigned t updates u)]> (_users r)).
    { intros r2 Hr2. cbn. rewrite Hr2, Husers. apply insert_insert_eq. }
    destruct (Repository.updates_email updates) as [e|]; cbn.
    + destruct (negb (e =? "")%string
                && negb (e =? _email (assigned t updates u))%string); cbn;
        do 2 eexists; (split; [reflexivity|]); (split; [reflexivity|]);
        now apply Hfinal.
    + do 2 eexists. split; [reflexivity|]. split; [reflexivity|].
      now apply Hfinal.
Qed.


Section UpdateFacts.
Context `{Js.Casing} `{Joi} `{Runtime}.

(** X9: [isEmailVerified] has a getter only, so assigning it inside
    [update] throws; an update through the user service that names it
    therefore never succeeds, whatever else it names.  The repository's
    [update] throws at the first key it cannot assign, and leaves the
    stored user as the keys listed before that one have it: when the
    keys before [isEmailVerified] can all be assigned, every one of
    them has been; the index is as it was. *)
Theorem update_of_isEmailVerified_fails (c : Ctx) (id : string)
    (updates : list Update) (flag : bool) (r : Repo)
    (Hnamed : In (UpdIsEmailVerified flag) updates) :
  (exists v r', UserService.updateUser c id updates r = (Return v, r')
                /\ is_failure v)
  /\ (forall u,
         _users r !! id = Some u ->
         exists e r',
           Repository.update (now c) id updates r = (Throw e, r')
           /\ first_throw (now c) updates u = Some e
           /\ _users r' = <[id := assigned (now c) updates u]> (_users r)
           /\ _emailIndex r' = _emailIndex r)
  /\ (forall u before rest,
         updates = before ++ UpdIsEmailVerified flag :: rest ->
         first_throw (now c) before u = None ->
         first_throw (now c) updates u
         = Some (Repository.getter_only "isEmailVerified")
         /\ assigned (now c) updates u
            = fold_left
                (fun entity k =>
                   match Repository.assign (now c) k entity with
                   | Return entity' => entity'
                   | Throw _ => entity
                   end) before u).
Proof.
  assert (Hthrows : forall u,
             _users r !! id = Some u ->
             exists e r',
               Repository.update (now c) id updates r = (Throw e, r')
               /\ first_throw (now c) updates u = Some e
               /\ _users r' = <[id := assigned (now c) updates u]> (_users r)
               /\ _emailIndex r' = _emailIndex r).
  { intros u Hu.
    destruct (update_run (now c) id updates r u Hu)
      as (out & r' & Hrun & Hcases).
    destruct (first_throw_named (now c) updates flag Hnamed u) as [e He].
    rewrite He in Hcases. destruct Hcases as (-> & Husers & Hidx).
    exists e, r'. auto. }
  split; [|split; [exact Hthrows|]].
  - unfold UserService.updateUser.
    match goal with
    | |- context [BaseService.executeOperation _ ?op r] =>
        destruct (op r) as [[v|e] r1] eqn:Hbody
    end.
    + exfalso.
      unfold bind, ret, throw, Repository.findById, Repository.findByEmail
        in Hbody.
      destruct (negb (forallb UserService.validUpdate updates));
        [discriminate|].
      destruct (_users r !! id) as [u|] eqn:Hu; [|discriminate].
      destruct (Hthrows u eq_refl) as (e & r2 & Hupdate & _).
      destruct (Repository.updates_email updates) as [e0|].
      * destruct (negb (e0 =? "")%string && negb (e0 =? _email u)%string).
        -- destruct (snd <$> Repository.lookupByEmail e0 r); [discriminate|].
           rewrite Hupdate in Hbody. discriminate.
        -- rewrite Hupdate in Hbody. discriminate.
      * rewrite Hupdate in Hbody. discriminate.
    + do 2 eexists. split; [eapply executeOperation_throw; exact Hbody|].
      destruct (handleError_keys (now c) e) as (props & -> & Hkeys).
      now exists props.
  - intros u before rest -> Hnone. now apply assigned_prefix.
Qed.

End UpdateFacts.

(* ===================================================================== *)
(** * The user service *)
(* ===================================================================== *)

Lemma filter_split_length {A : Type} (f : A -> bool) (l : list A) :
  (length (List.filter f l) + length (List.filter (fun x => negb (f x)) l)
   = length l)%nat.
Proof.
  induction l as [|x l IH]; [reflexivity|].
  cbn. destruct (f x); cbn; lia.
Qed.

Lemma filter_length_le {A : Type} (f : A -> bool) (l : list A) :
  (length (List.filter f l) <= length l)%nat.
Proof.
  pose proof (filter_split_length f l). lia.
Qed.

Section ServiceFacts.
Context `{Js.Casing} `{Joi} `{Bcrypt} `{Runtime} `{JsonWebToken}.

Import AuthenticationService.

Lemma success_shape v data :
  v = VObj [("success", VBool true); ("data", data)] -> is_success v.
Proof. intros ->. now exists data. Qed.

Lemma failure_shape (t : Z) msg v :
  msg <> "" ->
  v = VObj [("success", VBool false);
            ("error", BaseService.handleError t (new_Error msg))] ->
  failure_with msg "INTERNAL_ERROR" v.
Proof. intros Hmsg ->. rewrite handleError_plain by assumption. now eexists. Qed.

(** The run of [createUser], case by case. *)
Lemma createUser_run c userData r :
  UserService.createUser c userData r =
  match validRegistration userData with
  | None =>
      (Return (VObj [("success", VBool false);
                     ("error", BaseService.handleError (now c)
                                 (new_Error "Invalid input data"))]), r)
  | Some data =>
      match Repository.lookupByEmail (r_email data) r with
      | Some _ =>
          (Return (VObj [("success", VBool false);
                         ("error",
                          BaseService.handleError (now c)
                            (new_Error "User with this email already exists"))]),
           r)
      | None =>
          if Entity.validate (registrant c data (r_password data)) then
            (Return (VObj [("success", VBool true);
                           ("data",
                            Entity.toPublicJSON
                              (registrant c data (r_password data)))]),
             Repository.index (Js.toLowerCase (r_email data)) (uuid c)
               (Repository.store (registrant c data (r_password data)) r))
          else
            (Return (VObj [("success", VBool false);
                           ("error", BaseService.handleError (now c)
                                       (new_Error "Invalid user data"))]), r)
      end
  end.
Proof.
  unfold UserService.createUser, BaseService.executeOperation, try_catch,
    bind, ret, throw, Repository.findByEmail.
  destruct (validRegistration userData) as [data|]; [|reflexivity].
  destruct (Repository.lookupByEmail (r_email data) r) as [[k u]|] eqn:Hfree;
    [reflexivity|]. cbn [fmap option_fmap option_map].
  destruct (Entity.validate (registrant c data (r_password data))) eqn:Hv;
    cbn [negb]; [|reflexivity].
  rewrite create_run, Hv. cbn [negb].
  rewrite registrant_email, Hfree. reflexivity.
Qed.

(** X10: a user the user service creates is stored with the password
    exactly as it was given -- [createUser] builds the entity from the
    validated data and, unlike [register], hashes nothing. *)
Theorem createUser_stores_password_as_given (c : Ctx)
    (userData : Registration) (r r' : Repo) (v : value)
    (Hrun : UserService.createUser c userData r = (Return v, r'))
    (Hok : is_success v) :
  exists user,
    _users r' !! uuid c = Some user
    /\ _password user = r_password userData
    /\ _email user = r_email userData
    /\ v = VObj [("success", VBool true);
                 ("data", Entity.toPublicJSON user)].
Proof.
  rewrite createUser_run in Hrun.
  destruct (validRegistration userData) as [data|] eqn:Hdata.
  2:{ simplify_eq. destruct Hok as [d Hd].
      destruct (handleError_keys (now c) (new_Error "Invalid input data"))
        as (props & Hp & _). rewrite Hp in Hd. discriminate. }
  assert (Hsame : r_password data = r_password userData
                  /\ r_email data = r_email userData).
  { unfold validRegistration in Hdata. destruct (_ && _); now simplify_eq. }
  destruct Hsame as [Hpw Hmail].
  destruct (Repository.lookupByEmail (r_email data) r) as [[k u]|].
  { simplify_eq. destruct Hok as [d Hd].
    destruct (handleError_keys (now c)
                (new_Error "User with this email already exists"))
      as (props & Hp & _). rewrite Hp in Hd. discriminate. }
  destruct (Entity.validate _).
  - simplify_eq. eexists. split; [cbn; apply lookup_insert_eq|].
    split; [|split; [|reflexivity]].
    + cbn. rewrite <- Hpw.
      now destruct (String.eqb_spec (r_password data) "") as [->|_].
    + now rewrite registrant_email.
  - simplify_eq. destruct Hok as [d Hd].
    destruct (handleError_keys (now c) (new_Error "Invalid user data"))
      as (props & Hp & _). rewrite Hp in Hd. discriminate.
Qed.

(** A registration whose email already resolves fails and changes
    nothing. *)
Lemma register_taken c again r found :
  Repository.lookupByEmail (r_email again) r = Some found ->
  exists v, register c again r = (Return v, r) /\ is_failure v.
Proof.
  intros Hfound. rewrite register_run.
  destruct (validRegistration again) as [d2|] eqn:Hd2.
  - rewrite create_run.
    destruct (Entity.validate _); cbn [negb].
    + rewrite registrant_email, (validRegistration_email _ _ Hd2), Hfound.
      eexists. split; [reflexivity|].
      eapply failure_with_is_failure, failure_shape; [|reflexivity].
      discriminate.
    + eexists. split; [reflexivity|].
      eapply failure_with_is_failure, failure_shape; [|reflexivity].
      discriminate.
  - eexists. split; [reflexivity|].
    eapply failure_with_is_failure, failure_shape; [|reflexivity].
    discriminate.
Qed.

(** X11: [register] stores the new user, with the digest in place of
    the password, before it asks for a token; whatever the signing then
    does -- so also when the registration is reported as failed -- the
    user stays stored, and a later registration under the same email in
    any letter case fails and changes nothing. *)
Theorem registration_is_stored_before_signing (c : Ctx)
    (userData data : Registration) (r : Repo)
    (Hdata : validRegistration userData = Some data)
    (Hvalid : Entity.validate
                (registrant c data (hashPassword c (r_password data))) = true)
    (Hfree : Repository.lookupByEmail (r_email userData) r = None)
    (Hid : uuid c <> "") :
  exists user,
    _users (snd (register c userData r)) !! uuid c = Some user
    /\ _password user = hashPassword c (r_password userData)
    /\ _email user = r_email userData
    /\ _isActive user = true
    /\ _isEmailVerified user = false
    /\ (forall c2 again,
           Js.toLowerCase (r_email again) = Js.toLowerCase (r_email userData) ->
           exists v,
             register c2 again (snd (register c userData r))
             = (Return v, snd (register c userData r))
             /\ is_failure v).
Proof.
  assert (Hmail : r_email data = r_email userData)
    by exact (validRegistration_email _ _ Hdata).
  assert (Hpw : r_password data = r_password userData).
  { unfold validRegistration in Hdata. destruct (_ && _); now simplify_eq. }
  set (user := registrant c data (hashPassword c (r_password data))) in *.
  assert (Hstore : snd (register c userData r)
                   = Repository.index (Js.toLowerCase (_email user)) (_id user)
                       (Repository.store user r)).
  { rewrite register_run, Hdata, create_run. fold user.
    rewrite Hvalid. cbn [negb]. unfold user at 1.
    rewrite registrant_email, Hmail, Hfree. fold user.
    now destruct (generateToken c user). }
  assert (Hkey : _id user = uuid c) by reflexivity.
  assert (Huser : _users (snd (register c userData r)) !! uuid c = Some user).
  { rewrite Hstore. cbn [_users Repository.index Repository.store].
    rewrite Hkey. apply lookup_insert_eq. }
  exists user. split; [exact Huser|].
  split.
  { unfold user. cbn. rewrite Hpw.
    now destruct (String.eqb_spec (hashPassword c (r_password userData)) "")
      as [->|_]. }
  split; [unfold user; now rewrite registrant_email|].
  split; [reflexivity|]. split; [reflexivity|].
  intros c2 again Hsame.
  apply (register_taken c2 again _ (uuid c, user)).
  assert (Hemail : _email user = r_email userData).
  { unfold user. now rewrite registrant_email. }
  rewrite Hstore. unfold Repository.lookupByEmail.
  cbn [_emailIndex _users Repository.index Repository.store].
  rewrite Hsame, Hemail, lookup_insert_eq, Hkey.
  destruct (String.eqb_spec (uuid c) "") as [?|_]; [contradiction|].
  now rewrite lookup_insert_eq.
Qed.

(** The run of [deleteUser], case by case. *)
Lemma deleteUser_run c id r :
  UserService.deleteUser c id r =
  match _users r !! id with
  | None =>
      (Return (VObj [("success", VBool false);
                     ("error", BaseService.handleError (now c)
                                 (new_Error "User not found"))]), r)
  | Some u =>
      if Entity.isAdmin u then
        (Return (VObj [("success", VBool false);
                       ("error", BaseService.handleError (now c)
                                   (new_Error "Cannot delete admin users"))]),
         r)
      else
        (Return (VObj [("success", VBool true); ("data", VBool true)]),
         snd (Repository.delete id r))
  end.
Proof.
  unfold UserService.deleteUser, BaseService.executeOperation, try_catch,
    bind, ret, throw, Repository.delete, Repository.findById.
  destruct (_users r !! id) as [u|] eqn:Hu; [|reflexivity].
  destruct (Entity.isAdmin u); [reflexivity|].
  unfold bind, ret, Repository.findById. now rewrite Hu.
Qed.

(** X12: the user service deletes a stored user unless it is an admin:
    an admin is refused with "Cannot delete admin users" and an unknown
    id with "User not found", both leaving the store as it was; any
    other stored user is removed, after which neither its id nor its
    email resolves. *)
Theorem deleteUser_spares_admins (c : Ctx) (id : string) (r : Repo) :
  (_users r !! id = None ->
   exists v, UserService.deleteUser c id r = (Return v, r)
             /\ failure_with "User not found" "INTERNAL_ERROR" v)
  /\ (forall u, _users r !! id = Some u -> _role u = "admin" ->
        exists v, UserService.deleteUser c id r = (Return v, r)
                  /\ failure_with "Cannot delete admin users"
                       "INTERNAL_ERROR" v)
  /\ (forall u, _users r !! id = Some u -> _role u <> "admin" ->
        exists r',
          UserService.deleteUser c id r
          = (Return (VObj [("success", VBool true); ("data", VBool true)]),
             r')
          /\ _users r' !! id = None
          /\ Repository.findByEmail (_email u) r' = (Return None, r')).
Proof.
  split; [|split].
  - intros Hnone. rewrite deleteUser_run, Hnone.
    eexists. split; [reflexivity|].
    eapply failure_shape; [|reflexivity]. discriminate.
  - intros u Hu Hrole. rewrite deleteUser_run, Hu.
    unfold Entity.isAdmin. rewrite Hrole. cbn.
    eexists. split; [reflexivity|].
    eapply failure_shape; [|reflexivity]. discriminate.
  - intros u Hu Hrole. rewrite deleteUser_run, Hu.
    unfold Entity.isAdmin.
    destruct (String.eqb_spec (_role u) "admin") as [?|_]; [contradiction|].
    eexists. split; [reflexivity|].
    unfold Repository.delete, bind, ret, Repository.findById. rewrite Hu.
    cbn. split; [apply lookup_delete_eq|].
    unfold Repository.findByEmail, Repository.lookupByEmail. cbn.
    now rewrite lookup_delete_eq.
Qed.

(** X13: deactivating a stored user that is not an admin clears its
    active flag and nothing else but the update time; from then on a
    well-formed login under an email that resolves to that user is
    turned away with "Invalid credentials", whatever the password; and
    [restoreUser] sets the flag again.  An admin cannot be
    deactivated. *)
Theorem deactivated_user_cannot_log_in (c : Ctx) (id : string) (r : Repo)
    (u : User)
    (Hstored : _users r !! id = Some u) :
  (_role u = "admin" ->
   exists v, UserService.softDeleteUser c id r = (Return v, r)
             /\ failure_with "Cannot deactivate admin users"
                  "INTERNAL_ERROR" v)
  /\ (_role u <> "admin" ->
      UserService.softDeleteUser c id r
      = (Return (VObj [("success", VBool true);
                       ("data",
                        Entity.toPublicJSON (Entity.softDelete (now c) u))]),
         Repository.mutate id (Entity.softDelete (now c) u) r)
      /\ (forall c' email password,
             validLogin email password = true ->
             Repository.lookupByEmail email r = Some (id, u) ->
             exists v,
               authenticate c' email password
                 (Repository.mutate id (Entity.softDelete (now c) u) r)
               = (Return v,
                  Repository.mutate id (Entity.softDelete (now c) u) r)
               /\ failure_with "Invalid credentials" "INTERNAL_ERROR" v)
      /\ (forall c',
             _users (snd (UserService.restoreUser c' id
                            (Repository.mutate id
                               (Entity.softDelete (now c) u) r))) !! id
             = Some (Entity.restore (now c')
                       (Entity.softDelete (now c) u)))).
Proof.
  split.
  - intros Hrole.
    unfold UserService.softDeleteUser.
    eapply executeOperation_throw_plain; [|discriminate].
    unfold bind, Repository.findById, throw. rewrite Hstored.
    unfold Entity.isAdmin. now rewrite Hrole.
  - intros Hrole. split; [|split].
    + unfold UserService.softDeleteUser.
      erewrite executeOperation_return; [reflexivity|].
      unfold bind, Repository.findById. rewrite Hstored.
      unfold Entity.isAdmin.
      now destruct (String.eqb_spec (_role u) "admin") as [?|_].
    + intros c' email password Hvalid Hfound.
      eexists. split; [|now eexists].
      apply authenticate_rejected; [assumption|].
      apply (InactiveAccount _ _ _ id (Entity.softDelete (now c) u));
        [|reflexivity].
      unfold Repository.lookupByEmail in *. cbn.
      destruct (_emailIndex r !! Js.toLowerCase email) as [userId|];
        [|discriminate].
      destruct (String.eqb userId ""); [discriminate|].
      destruct (_users r !! userId) eqn:Hu'; [|discriminate].
      simplify_eq. now rewrite lookup_insert_eq.
    + intros c'. unfold UserService.restoreUser.
      erewrite executeOperation_return.
      2:{ unfold bind, Repository.findById. cbn.
          rewrite lookup_insert_eq. reflexivity. }
      cbn. apply lookup_insert_eq.
Qed.

End ServiceFacts.

Section QueryFacts.
Context `{Js.Casing} `{Joi} `{Bcrypt} `{Runtime} `{JsonWebToken}.

Import AuthenticationService.

Lemma count_run f r :
  Repository.count f r
  = (Return (Z.of_nat (length (List.filter (Repository.matches f)
                                 (Repository.values r)))), r).
Proof. reflexivity. Qed.

Lemma values_length r : length (Repository.values r) = size (_users r).
Proof.
  unfold Repository.values. rewrite length_map. apply length_map_to_list.
Qed.

(** X14: the statistics are those of the store, which is left as it
    was: [total] is the number of stored users, [active], [verified]
    and [admins] count the users so flagged, and the two derived
    figures agree with a direct count -- [inactive] is the number of
    deactivated users and [unverified] the number of unverified ones. *)
Theorem statistics_are_consistent (c : Ctx) (r : Repo) :
  exists total active verified admins : nat,
    UserService.getUserStatistics c r
    = (Return
         (VObj [("success", VBool true);
                ("data",
                 VObj [ ("total", VNum (Z.of_nat total));
                        ("active", VNum (Z.of_nat active));
                        ("verified", VNum (Z.of_nat verified));
                        ("admins", VNum (Z.of_nat admins));
                        ("inactive",
                         VNum (Z.of_nat total - Z.of_nat active));
                        ("unverified",
                         VNum (Z.of_nat total - Z.of_nat verified)) ])]),
       r)
    /\ total = size (_users r)
    /\ active = length (List.filter _isActive (Repository.values r))
    /\ verified = length (List.filter _isEmailVerified (Repository.values r))
    /\ admins = length (List.filter Entity.isAdmin (Repository.values r))
    /\ Z.of_nat total - Z.of_nat active
       = Z.of_nat (length (List.filter (fun u => negb (_isActive u))
                             (Repository.values r)))
    /\ Z.of_nat total - Z.of_nat verified
       = Z.of_nat (length (List.filter (fun u => negb (_isEmailVerified u))
                             (Repository.values r)))
    /\ (admins <= total)%nat.
Proof.
  exists (length (Repository.values r)),
    (length (List.filter _isActive (Repository.values r))),
    (length (List.filter _isEmailVerified (Repository.values r))),
    (length (List.filter Entity.isAdmin (Repository.values r))).
  split.
  { unfold UserService.getUserStatistics.
    erewrite executeOperation_return; [reflexivity|].
    unfold bind, ret. rewrite !count_run.
    rewrite (List.filter_ext
               (Repository.matches (mkFilters None None None None))
               (fun _ => true)) by reflexivity.
    rewrite (List.filter_ext
               (Repository.matches (mkFilters None None (Some true) None))
               _isActive).
    2:{ intros u. unfold Repository.matches. cbn.
        now destruct (_isActive u). }
    rewrite (List.filter_ext
               (Repository.matches (mkFilters None (Some true) None None))
               _isEmailVerified).
    2:{ intros u. unfold Repository.matches. cbn.
        now destruct (_isEmailVerified u). }
    rewrite (List.filter_ext
               (Repository.matches (mkFilters (Some "admin") None None None))
               Entity.isAdmin).
    2:{ intros u. unfold Repository.matches, Entity.isAdmin. cbn.
        now destruct (String.eqb (_role u) "admin"). }
    assert (Hall : forall l : list User, List.filter (fun _ => true) l = l).
    { induction l as [|x l IH]; [reflexivity|]. cbn. now rewrite IH. }
    now rewrite Hall. }
  split; [apply values_length|].
  split; [reflexivity|]. split; [reflexivity|]. split; [reflexivity|].
  pose proof (filter_split_length _isActive (Repository.values r)).
  pose proof (filter_split_length _isEmailVerified (Repository.values r)).
  pose proof (filter_length_le Entity.isAdmin (Repository.values r)).
  repeat split; lia.
Qed.

(** X15: the token strategy leaves the store as it was and has two
    outcomes only: the identity projection and the very token, when the
    token verifies and names a stored, active user; the error "Invalid
    token" in every other case, whatever the package or the lookup
    threw. *)
Theorem jwtStrategy_collapses_errors (c : Ctx) (token : value) (r : Repo) :
  snd (jwtStrategy c token r) = r
  /\ (fst (jwtStrategy c token r) = Throw (new_Error "Invalid token")
      \/ exists decoded id u,
           verifyToken c token = Return decoded
           /\ userId_of decoded = Return (Some id)
           /\ _users r !! id = Some u
           /\ _isActive u = true
           /\ fst (jwtStrategy c token r)
              = Return (VObj [("user", Entity.toPublicJSON u);
                              ("token", token)])).
Proof.
  unfold jwtStrategy, try_catch, bind, lift, throw, ret, Repository.findById.
  destruct (verifyToken c token) as [decoded|e] eqn:Hverify; [|auto].
  destruct (userId_of decoded) as [[id|]|e] eqn:Hid; [| auto | auto].
  destruct (_users r !! id) as [u|] eqn:Hu; [|auto].
  destruct (_isActive u) eqn:Hactive; [|auto].
  split; [reflexivity|]. right. exists decoded, id, u. auto.
Qed.

(** X16: [authenticate] changes the store in one case only: when the
    input is well-formed and the credentials are accepted, the stored
    user gets its last login (and update time) set to the present --
    also when signing the token then fails and the login is reported as
    failed.  In every other case the store is as before. *)
Theorem authenticate_records_last_login (c : Ctx) (email password : string)
    (r : Repo) :
  (validLogin email password = false \/ Rejected r email password ->
   snd (authenticate c email password r) = r)
  /\ (forall key u,
         validLogin email password = true ->
         Repository.lookupByEmail email r = Some (key, u) ->
         _isActive u = true ->
         bcrypt_compare password (_password u) = true ->
         snd (authenticate c email password r)
         = Repository.mutate key (Entity.updateLastLogin (now c) u) r
         /\ _lastLoginAt (Entity.updateLastLogin (now c) u) = Some (now c)
         /\ _emailIndex (snd (authenticate c email password r))
            = _emailIndex r).
Proof.
  split.
  - intros [Hbad|Hrej].
    + now rewrite authenticate_invalid.
    + destruct (validLogin email password) eqn:Hvalid.
      * now rewrite authenticate_rejected.
      * now rewrite authenticate_invalid.
  - intros key u Hvalid Hfound Hactive Hcmp.
    assert (Hstore : snd (authenticate c email password r)
                     = Repository.mutate key
                         (Entity.updateLastLogin (now c) u) r).
    { unfold authenticate, BaseService.executeOperation, try_catch, bind, ret.
      rewrite Hvalid. cbn [negb].
      rewrite (localStrategy_accepted c email password r key u)
        by assumption.
      cbv zeta. now destruct (generateToken c _). }
    split; [exact Hstore|]. split; [reflexivity|]. now rewrite Hstore.
Qed.

(** X17: the user service's [verifyUserEmail] sets the verification
    flag of a stored user, after which that user passes the
    email-verification gate; its id, email, password, role and active
    flag are as before. *)
Theorem verified_user_passes_gate (c : Ctx) (id : string) (r : Repo)
    (u : User)
    (Hstored : _users r !! id = Some u) :
  exists u',
    UserService.verifyUserEmail c id r
    = (Return (VObj [("success", VBool true);
                     ("data", Entity.toPublicJSON u')]),
       Repository.mutate id u' r)
    /\ AuthenticationMiddleware.requireEmailVerification (Some u') = Next
    /\ _id u' = _id u /\ _email u' = _email u
    /\ _password u' = _password u /\ _role u' = _role u
    /\ _isActive u' = _isActive u.
Proof.
  exists (Entity.verifyEmail (now c) u). split.
  - unfold UserService.verifyUserEmail.
    erewrite executeOperation_return; [reflexivity|].
    unfold bind, Repository.findById. now rewrite Hstored.
  - repeat split; reflexivity.
Qed.

(** X18: looking a user up through the user service, by id or by email,
    never changes the store, and answers either "User not found" or the
    identity projection of the stored user, which has no password
    property. *)
Theorem lookups_are_read_only (c : Ctx) (r : Repo) :
  (forall id, exists v,
      UserService.getUserById c id r = (Return v, r)
      /\ ("password" ∉ response_keys v)
      /\ match _users r !! id with
         | Some u => v = VObj [("success", VBool true);
                               ("data", Entity.toPublicJSON u)]
         | None => failure_with "User not found" "INTERNAL_ERROR" v
         end)
  /\ (forall email, exists v,
         UserService.getUserByEmail c email r = (Return v, r)
         /\ ("password" ∉ response_keys v)
         /\ match Repository.lookupByEmail email r with
            | Some (_, u) => v = VObj [("success", VBool true);
                                       ("data", Entity.toPublicJSON u)]
            | None => failure_with "User not found" "INTERNAL_ERROR" v
            end).
Proof.
  assert (Hfound : forall u,
             "password" ∉ response_keys
                            (VObj [("success", VBool true);
                                   ("data", Entity.toPublicJSON u)])).
  { intros u. rewrite list_elem_of_In. cbn. intuition discriminate. }
  assert (Hmissing :
            "password" ∉ response_keys
                           (VObj [("success", VBool false);
                                  ("error",
                                   BaseService.handleError (now c)
                                     (new_Error "User not found"))])).
  { rewrite list_elem_of_In. cbn. intuition discriminate. }
  split.
  - intros id. unfold UserService.getUserById.
    destruct (_users r !! id) as [u|] eqn:Hu.
    + eexists. split; [|split; [apply Hfound|reflexivity]].
      erewrite executeOperation_return; [reflexivity|].
      unfold bind, Repository.findById. now rewrite Hu.
    + eexists. split; [|split; [apply Hmissing|]].
      * erewrite executeOperation_throw; [reflexivity|].
        unfold bind, Repository.findById, throw. now rewrite Hu.
      * eapply failure_shape; [|reflexivity]. discriminate.
  - intros email. unfold UserService.getUserByEmail.
    destruct (Repository.lookupByEmail email r) as [[k u]|] eqn:Hu.
    + eexists. split; [|split; [apply Hfound|reflexivity]].
      erewrite executeOperation_return; [reflexivity|].
      unfold bind, Repository.findByEmail. now rewrite Hu.
    + eexists. split; [|split; [apply Hmissing|]].
      * erewrite executeOperation_throw; [reflexivity|].
        unfold bind, Repository.findByEmail, throw. now rewrite Hu.
      * eapply failure_shape; [|reflexivity]. discriminate.
Qed.

End QueryFacts.

(* ===================================================================== *)
(** * The gate: token authentication *)
(* ===================================================================== *)

Section GateFacts.
Context `{JsonWebToken}.

Lemma authenticateToken_cases who c token r :
  (exists u,
      authenticateToken who c token r = (Next, Some (u, token))
      /\ Js.truthy token = true
      /\ resolve who c token r = Return (Some u)
      /\ _isActive u = true)
  \/ (authenticateToken who c token r = (missing_token, None)
      /\ Js.truthy token = false)
  \/ (authenticateToken who c token r = (invalid_token, None)
      /\ Js.truthy token = true
      /\ forall u, resolve who c token r = Return (Some u) ->
                   _isActive u = false).
Proof.
  unfold authenticateToken.
  destruct (Js.truthy token) eqn:Htoken; cbn [negb]; [|auto].
  destruct (resolve who c token r) as [[u|]|e] eqn:Hresolve.
  - destruct (_isActive u) eqn:Hactive; cbn [negb].
    + left. exists u. auto.
    + right. right. repeat split; auto. intros u' Hu'. now simplify_eq.
  - right. right. repeat split; auto. discriminate.
  - right. right. repeat split; auto. discriminate.
Qed.

(** X19: a route guarded by [authenticateToken] and then [requireRoles]
    lets a request through exactly when its token is present, verifies,
    names a stored user that is active, and that user's role is among
    the declared ones; every other request is answered 401 or 403. *)
Theorem guarded_route_admits (roles : list string) (c : Ctx) (token : value)
    (r : Repo) :
  (guarded WithAuthenticationService roles c token r = Next
   <-> exists decoded id u,
         Js.truthy token = true
         /\ AuthenticationService.verifyToken c token = Return decoded
         /\ AuthenticationService.userId_of decoded = Return (Some id)
         /\ _users r !! id = Some u
         /\ _isActive u = true
         /\ _role u ∈ roles)
  /\ (guarded WithAuthenticationService roles c token r = Next
      \/ (exists body,
             guarded WithAuthenticationService roles c token r
             = Respond 401 body)
      \/ (exists body,
             guarded WithAuthenticationService roles c token r
             = Respond 403 body)).
Proof.
  assert (Hroles : forall u,
             (requireRoles roles (Some u) = Next <-> _role u ∈ roles)
             /\ (requireRoles roles (Some u) = Next
                 \/ exists body, requireRoles roles (Some u)
                                 = Respond 403 body)).
  { intros u. unfold requireRoles. case_bool_decide; cbn; split;
      try (split; intros; try discriminate; try contradiction; auto);
      eauto. }
  unfold guarded.
  destruct (authenticateToken_cases WithAuthenticationService c token r)
    as [(u & -> & Htoken & Hresolve & Hactive)
       |[(-> & Htoken)|(-> & Htoken & Hnone)]].
  - cbn [fmap option_fmap option_map fst].
    destruct (Hroles u) as [Hiff Hor]. split.
    + rewrite Hiff. unfold resolve in Hresolve.
      destruct (AuthenticationService.verifyToken c token) as [decoded|e]
        eqn:Hverify; [|discriminate].
      destruct (AuthenticationService.userId_of decoded) as [[id|]|e]
        eqn:Hid; try discriminate.
      split.
      * intros Hrole. exists decoded, id, u. simplify_eq.
        repeat split; assumption.
      * intros (d & i & u' & _ & Hd & Hi & Hu' & _ & Hrole).
        injection Hd as <-. rewrite Hid in Hi. injection Hi as <-.
        injection Hresolve as Hu. rewrite Hu in Hu'. now injection Hu' as <-.
    + destruct Hor as [->|[body ->]]; eauto.
  - split; [|right; left; eexists; reflexivity].
    split; [discriminate|].
    intros (d & i & u' & Ht & _). congruence.
  - split; [|right; left; eexists; reflexivity].
    split; [discriminate|].
    intros (d & i & u' & _ & Hd & Hi & Hu' & Hactive & _).
    assert (Hresolve : resolve WithAuthenticationService c token r
                       = Return (Some u')).
    { unfold resolve. rewrite Hd, Hi. now rewrite Hu'. }
    apply Hnone in Hresolve. congruence.
Qed.

(** X20: optional authentication never answers a request; it attaches
    a user and token in exactly the cases in which [authenticateToken]
    would let the request through, and the same ones. *)
Theorem optionalAuth_agrees_with_authenticateToken (who : Collaborator)
    (c : Ctx) (token : value) (r : Repo) :
  fst (optionalAuth who c token r) = Next
  /\ snd (optionalAuth who c token r) = snd (authenticateToken who c token r)
  /\ (is_Some (snd (optionalAuth who c token r))
      <-> fst (authenticateToken who c token r) = Next).
Proof.
  unfold optionalAuth, authenticateToken.
  destruct (Js.truthy token); cbn [negb].
  2:{ repeat split; try discriminate. intros [x Hx]. discriminate. }
  destruct (resolve who c token r) as [[u|]|e].
  - destruct (_isActive u); cbn [negb]; repeat split; eauto;
      try discriminate; intros [x Hx]; discriminate.
  - repeat split; try discriminate. intros [x Hx]. discriminate.
  - repeat split; try discriminate. intros [x Hx]. discriminate.
Qed.

(** X21: the user-management router hands its middleware the user
    repository where the authentication service is expected; the
    repository has no [verifyToken], the call throws inside the
    middleware's [try], and so every request to a user-management route
    is answered 401: MISSING_TOKEN without a token, INVALID_TOKEN with
    any token whatever.  No role check is ever reached. *)
Theorem user_routes_reject_every_request (roles : list string) (c : Ctx)
    (token : value) (r : Repo) :
  authenticateToken WithUserRepository c token r
  = (if Js.truthy token then invalid_token else missing_token, None)
  /\ guarded WithUserRepository roles c token r
     = (if Js.truthy token then invalid_token else missing_token)
  /\ guarded WithUserRepository roles c token r <> Next.
Proof.
  unfold guarded, authenticateToken, resolve.
  destruct (Js.truthy token); cbn [negb]; repeat split; discriminate.
Qed.

End GateFacts.

(** X22: the role gates agree with the entity's own role tests: the
    moderator gate lets an authenticated user through exactly when
    [isModerator] holds of it, the admin gate exactly when [isAdmin]
    does; so whoever passes the admin gate passes the moderator gate. *)
Theorem gates_agree_with_entity (u : User) :
  (requireModerator (Some u) = Next <-> Entity.isModerator u = true)
  /\ (requireAdmin (Some u) = Next <-> Entity.isAdmin u = true)
  /\ (requireAdmin (Some u) = Next -> requireModerator (Some u) = Next).
Proof.
  assert (Hmem : forall rs, requireRoles rs (Some u) = Next <-> _role u ∈ rs).
  { intros rs. unfold requireRoles. case_bool_decide; cbn; split;
      intros; try discriminate; try contradiction; auto. }
  unfold requireModerator, requireAdmin, Entity.isModerator, Entity.isAdmin.
  rewrite !Hmem, !elem_of_cons, !elem_of_nil, orb_true_iff, !String.eqb_eq.
  tauto.
Qed.

(* ===================================================================== *)
(** * Pages and the limiter's record *)
(* ===================================================================== *)

(** X23: with a positive limit, the page [findAll] slices out is the
    stretch of at most [limit] users from [offset] on; the stretch
    before it, the page and the stretch after it make up the list
    again; and the [hasMore] flag the user service computes from the
    same numbers is set exactly when users remain after the page.
    With no limit and no offset the list is returned whole. *)
Theorem page_is_a_stretch_of_the_list {A : Type} (limit offset : nat)
    (users : list A)
    (Hlimit : (0 < limit)%nat) :
  take offset users ++ Repository.paginate (Some limit) (Some offset) users
    ++ drop (offset + limit) users = users
  /\ length (Repository.paginate (Some limit) (Some offset) users)
     = Nat.min limit (length users - offset)
  /\ (UserService.hasMore (length users) (Some limit) (Some offset) = true
      <-> drop (offset + limit) users <> [])
  /\ Repository.paginate None None users = users
  /\ Repository.paginate None (Some offset) users = drop offset users.
Proof.
  assert (Hpage : Repository.paginate (Some limit) (Some offset) users
                  = take limit (drop offset users)).
  { unfold Repository.paginate. cbn.
    destruct limit; [lia|reflexivity]. }
  rewrite Hpage. split; [|split; [|split; [|split]]].
  - rewrite <- (take_drop offset users) at 4. f_equal.
    rewrite <- (take_drop limit (drop offset users)) at 2. f_equal.
    now rewrite drop_drop.
  - now rewrite length_take, length_drop.
  - assert (Hmore : UserService.hasMore (length users) (Some limit)
                      (Some offset)
                    = (offset + limit <? length users)%nat).
    { unfold UserService.hasMore. destruct limit; [lia|reflexivity]. }
    rewrite Hmore, Nat.ltb_lt. split.
    + intros Hlt Hnil. apply (f_equal length) in Hnil.
      rewrite length_drop in Hnil. cbn in Hnil. lia.
    + intros Hrest. destruct (Nat.lt_ge_cases (offset + limit)
                                (length users)) as [?|Hge]; [assumption|].
      exfalso. apply Hrest. now apply drop_ge.
  - reflexivity.
  - unfold Repository.paginate. cbn. destruct offset; [reflexivity|].
    cbn [Nat.eqb]. apply take_ge. rewrite length_drop. lia.
Qed.

Lemma filter_drops_one {A : Type} (f : A -> bool) (l : list A) (x : A) :
  In x l -> f x = false ->
  (length (List.filter f l) < length l)%nat.
Proof.
  induction l as [|y l IH]; intros Hin Hx; [destruct Hin|].
  cbn. destruct Hin as [->|Hin].
  - rewrite Hx. pose proof (filter_length_le f l). lia.
  - specialize (IH Hin Hx). destruct (f y); cbn; lia.
Qed.

Lemma authRateLimit_bounded windowMs max key t attempts :
  (forall k, Z.of_nat (length (recorded k attempts)) <= Z.max 0 max) ->
  forall k,
    Z.of_nat (length (recorded k
                        (snd (authRateLimit windowMs max key t attempts))))
    <= Z.max 0 max.
Proof.
  intros Hbound k. destruct (String.eqb_spec key k) as [->|Hne].
  - rewrite recorded_same. cbv zeta.
    pose proof (filter_length_le (fun s => t - windowMs <? s)
                  (recorded k attempts)) as Hkept.
    specialize (Hbound k).
    destruct (Z.leb_spec max
                (Z.of_nat (length (List.filter (fun s => t - windowMs <? s)
                                     (recorded k attempts)))));
      cbn [snd]; unfold recorded at 1; rewrite lookup_insert_eq; cbn.
    + lia.
    + rewrite length_app. cbn [length]. lia.
  - rewrite recorded_other by auto. apply Hbound.
Qed.

Lemma authRateLimit_keeps_keys windowMs max key t attempts k :
  is_Some (attempts !! k) ->
  is_Some (snd (authRateLimit windowMs max key t attempts) !! k).
Proof.
  intros Hk. unfold authRateLimit.
  destruct (max <=? _); cbn [snd];
    (destruct (String.eqb_spec key k) as [->|Hne];
     [rewrite lookup_insert_eq; eauto|now rewrite lookup_insert_ne]).
Qed.

(** X24: the limiter's record of a source never holds more than [max]
    stamps (none when [max] is negative), whatever requests arrive; a
    source once on record is never removed from the map; and a source
    is let through again as soon as one of its recorded stamps has left
    the window, because refused attempts are not recorded. *)
Theorem limiter_record_is_bounded (windowMs max : Z)
    (requests : list (string * Z)) (key : string) :
  Z.of_nat (length (recorded key (serve windowMs max requests ∅)))
  <= Z.max 0 max
  /\ (forall attempts,
         is_Some (attempts !! key) ->
         is_Some (serve windowMs max requests attempts !! key))
  /\ (forall attempts t s,
         Z.of_nat (length (recorded key attempts)) <= max ->
         In s (recorded key attempts) ->
         s <= t - windowMs ->
         fst (authRateLimit windowMs max key t attempts) = Next).
Proof.
  split; [|split].
  - assert (Hgen : forall attempts,
               (forall k, Z.of_nat (length (recorded k attempts))
                          <= Z.max 0 max) ->
               forall k, Z.of_nat (length (recorded k
                                             (serve windowMs max requests
                                                attempts)))
                         <= Z.max 0 max).
    { induction requests as [|[k0 t0] rest IH]; intros attempts Hb k;
        [apply Hb|].
      cbn [serve]. apply IH. now apply authRateLimit_bounded. }
    apply Hgen. intros k. unfold recorded. rewrite lookup_empty. cbn. lia.
  - induction requests as [|[k0 t0] rest IH]; intros attempts Hk;
      [exact Hk|].
    cbn [serve]. apply IH. now apply authRateLimit_keeps_keys.
  - intros attempts t s Hlen Hin Hold. rewrite recorded_same. cbv zeta.
    pose proof (filter_drops_one (fun x => t - windowMs <? x)
                  (recorded key attempts) s Hin) as Hdrop.
    destruct (Z.leb_spec max
                (Z.of_nat (length (List.filter (fun x => t - windowMs <? x)
                                     (recorded key attempts)))));
      [|reflexivity].
    assert (Hs : (t - windowMs <? s) = false) by (apply Z.ltb_ge; lia).
    specialize (Hdrop Hs). lia.
Qed.

(* ===================================================================== *)
(** * Changing and resetting a password *)
(* ===================================================================== *)

Lemma update_password_run `{Js.Casing} t u hashed r :
  _users r !! _id u = Some u ->
  Repository.update t (_id u) [UpdPassword hashed] r
  = (Return (Some (Entity.touch t (Entity.set_password t hashed u))),
     Repository.mutate (_id u)
       (Entity.touch t (Entity.set_password t hashed u))
       (Repository.mutate (_id u) (Entity.set_password t hashed u) r)).
Proof.
  intros Hu.
  unfold Repository.update, bind, ret, Repository.findById. cbn.
  rewrite Hu. cbn. rewrite Hu. cbn. rewrite lookup_insert_eq. reflexivity.
Qed.

Section PasswordFacts.
Context `{Js.Casing} `{Bcrypt} `{Runtime}.
Variable ms : string -> option Z.
Variable password_messages : string -> string -> string.
Variable reset_messages : value -> string -> string.

(** X25: the reset endpoint asks the token for nothing but a valid
    signature and a [userId] that is stored: any token the service
    verifies will do, whatever it was issued for, and the account need
    not be active.  The named user's password becomes the digest of the
    new one, every other user and the email index are left alone, and
    the answer is 200 with no data. *)
Theorem reset_accepts_any_verified_token (c : Ctx) (token : value)
    (newPassword : string) (decoded : value) (user : User) (r : Repo)
    (Hpassword : Entity.joi_min 8 newPassword = true)
    (Hverify : @AuthenticationService.verifyToken (Jsonwebtoken.package ms)
                 c token = Return decoded)
    (Hnames : Js.prop "userId" decoded = VStr (_id user))
    (Hstored : _users r !! _id user = Some user) :
  exists r',
    @AuthController.resetPassword _ _ _ (Jsonwebtoken.package ms)
      reset_messages c token newPassword r
    = (Return (BaseController.sendSuccess (now c) VNull 200
                 "Password reset successfully"), r')
    /\ (exists user',
           _users r' !! _id user = Some user'
           /\ _password user'
              = AuthenticationService.hashPassword c newPassword
           /\ _isActive user' = _isActive user)
    /\ (forall k, k <> _id user -> _users r' !! k = _users r !! k)
    /\ _emailIndex r' = _emailIndex r.
Proof.
  assert (Htoken : exists alg payload key, token = VJws alg payload key).
  { unfold AuthenticationService.verifyToken in Hverify.
    destruct (AuthenticationService.secret_of c); [|discriminate].
    cbn in Hverify. unfold Jsonwebtoken.verify in Hverify.
    destruct (negb (Js.truthy token)); [discriminate|].
    destruct token; try discriminate; eauto.
    destruct (negb _); discriminate. }
  destruct Htoken as (alg & payload & key & ->).
  assert (Hid : AuthenticationService.userId_of decoded
                = Return (Some (_id user))).
  { unfold AuthenticationService.userId_of. rewrite Hnames.
    destruct decoded; try reflexivity; discriminate. }
  eexists. split; [|split; [|split]].
  - unfold AuthController.resetPassword, BaseController.asyncHandler,
      try_catch, bind, ret, throw, AuthenticationService.lift.
    rewrite Hpassword. cbn [andb negb]. rewrite Hverify, Hid.
    unfold Repository.findById. cbn [fst snd]. rewrite Hstored.
    rewrite (update_password_run (now c) user _ r Hstored). reflexivity.
  - eexists. split; [cbn; apply lookup_insert_eq|]. split; reflexivity.
  - intros k Hne. cbn. now rewrite !lookup_insert_ne by auto.
  - reflexivity.
Qed.


(** X27: a handler wrapped by [asyncHandler] always answers: what its
    body returns, or, when the body throws, an error envelope whose
    status and code come as one of six pairs.  No error escapes, and
    the state is the one the body left. *)
Theorem asyncHandler_always_answers {S : Type} (t : Z)
    (body : Comp S Verdict) (s : S) :
  (forall v s', body s = (Return v, s') ->
     BaseController.asyncHandler t body s = (Return v, s'))
  /\ (forall e s', body s = (Throw e, s') ->
        exists status cd,
          BaseController.asyncHandler t body s
          = (Return (error_response t status (message e) cd), s')
          /\ In (status, cd)
               [ (404, "NOT_FOUND"); (409, "CONFLICT");
                 (400, "VALIDATION_ERROR"); (401, "UNAUTHORIZED");
                 (403, "FORBIDDEN"); (500, "INTERNAL_ERROR") ]).
Proof.
  split.
  - intros v s' Hrun.
    unfold BaseController.asyncHandler, try_catch. now rewrite Hrun.
  - intros e s' Hrun.
    exists (fst (BaseController.classify (message e))),
           (snd (BaseController.classify (message e))).
    split.
    + unfold BaseController.asyncHandler, try_catch. now rewrite Hrun.
    + unfold BaseController.classify.
      repeat match goal with
             | |- context [if ?b then _ else _] => destruct b
             end; cbn; tauto.
Qed.

(** X28: with the package in place, [verifyToken] returns claims only
    for a token signed with HS256 under the configured, non-empty
    secret; the claims are then the token's payload, a numeric [exp]
    in them lies after the clock's second and a numeric [nbf] not
    after it.  So a string that is no token, a token under another key
    or another algorithm, an expired token, and any token when no
    secret is configured are all refused. *)
Theorem verifyToken_accepts_only_own_tokens (c : Ctx) (token claims : value)
    (Hverify : @AuthenticationService.verifyToken (Jsonwebtoken.package ms)
                 c token = Return claims) :
  exists secret,
    AuthenticationService.secret_of c = Some secret
    /\ secret <> ""
    /\ token = VJws "HS256" claims secret
    /\ (forall e, Js.prop "exp" claims = VNum e -> now c / 1000 < e)
    /\ (forall n, Js.prop "nbf" claims = VNum n -> n <= now c / 1000).
Proof.
  unfold AuthenticationService.verifyToken in Hverify.
  destruct (AuthenticationService.secret_of c) as [secret|] eqn:Hs;
    [|discriminate].
  cbn in Hverify. exists secret. split; [reflexivity|].
  unfold Jsonwebtoken.verify in Hverify.
  destruct (negb (Js.truthy token)); [discriminate|].
  destruct token as [| | | | | |alg payload key| |]; try discriminate.
  { destruct (negb _); discriminate. }
  destruct (String.eqb_spec secret "") as [|Hsecret]; [discriminate|].
  split; [exact Hsecret|].
  case_bool_decide as Halg; [|discriminate]. cbn [negb] in Hverify.
  destruct (String.eqb_spec key secret) as [->|]; [|discriminate].
  apply list_elem_of_In in Halg. destruct Halg as [<-|[]].
  cbn [negb] in Hverify.
  destruct (Js.prop "nbf" payload) eqn:Hn;
    destruct (Js.prop "exp" payload) eqn:He;
    try discriminate;
    repeat match type of Hverify with
           | (if ?b then _ else _) = _ => destruct b eqn:?
           end;
    try discriminate;
    injection Hverify as <-;
    rewrite ?Z.leb_gt, ?Z.ltb_ge in *;
    (split; [reflexivity|]);
    (split; intros ? Heq; rewrite ?Hn, ?He in Heq; try discriminate;
     injection Heq as <-; lia).
Qed.

End PasswordFacts.

(** X29: deactivating a stored, active user that is not an admin and
    then restoring it gives the user back as it was, but for the time
    of the last change; every other user and the email index are
    untouched by the round trip. *)
Theorem restore_undoes_softDelete `{Runtime} (c c' : Ctx) (id : string)
    (user : User) (r : Repo)
    (Hstored : _users r !! id = Some user)
    (Hplain : Entity.isAdmin user = false)
    (Hactive : _isActive user = true) :
  let r1 := snd (UserService.softDeleteUser c id r) in
  let r2 := snd (UserService.restoreUser c' id r1) in
  _users r1 !! id = Some (Entity.softDelete (now c) user)
  /\ _users r2 !! id = Some (Entity.touch (now c') user)
  /\ (forall k, k <> id -> _users r2 !! k = _users r !! k)
  /\ _emailIndex r2 = _emailIndex r.
Proof.
  assert (Hr1 : snd (UserService.softDeleteUser c id r)
                = Repository.mutate id (Entity.softDelete (now c) user) r).
  { unfold UserService.softDeleteUser, BaseService.executeOperation,
      try_catch, bind, Repository.findById, throw, ret.
    cbn. rewrite Hstored, Hplain. reflexivity. }
  cbv zeta. rewrite Hr1.
  assert (Hr2 : snd (UserService.restoreUser c' id
                       (Repository.mutate id
                          (Entity.softDelete (now c) user) r))
                = Repository.mutate id
                    (Entity.restore (now c')
                       (Entity.softDelete (now c) user))
                    (Repository.mutate id
                       (Entity.softDelete (now c) user) r)).
  { unfold UserService.restoreUser, BaseService.executeOperation,
      try_catch, bind, Repository.findById, throw, ret.
    cbn. rewrite lookup_insert_eq. reflexivity. }
  rewrite Hr2. split; [|split; [|split]].
  - cbn. apply lookup_insert_eq.
  - cbn. rewrite lookup_insert_eq. f_equal.
    destruct user; cbn in *. now subst.
  - intros k Hne. cbn. now rewrite !lookup_insert_ne by auto.
  - reflexivity.
Qed.

(* ===================================================================== *)
(** * The properties above at the sample store *)
(* ===================================================================== *)


(** The pupil, stored under ÉCOLE@example.com and found again under
    école@example.com. *)
Lemma create_then_find_witness :
  Repository.create pupil seeded = (Return pupil, academy)
  /\ _id pupil <> ""
  /\ Js.toLowerCase "école@example.com" = Js.toLowerCase (_email pupil)
  /\ Repository.findByEmail "école@example.com" academy
     = (Return (Some pupil), academy).
Proof.
  assert (Hcreate : Repository.create pupil seeded = (Return pupil, academy))
    by reflexivity.
  assert (Hid : _id pupil <> "") by discriminate.
  assert (Hsame : Js.toLowerCase "école@example.com"
                  = Js.toLowerCase (_email pupil)) by reflexivity.
  split; [exact Hcreate|]. split; [exact Hid|]. split; [exact Hsame|].
  destruct (create_then_find pupil pupil seeded academy Hcreate Hid)
    as (_ & _ & _ & Hemail).
  exact (Hemail "école@example.com" Hsame).
Defined.

(** The guest arrives and the regular user leaves. *)
Lemma index_kept_witness :
  index_consistent seeded
  /\ Forall creates_named [DoCreate guest; DoDelete "id-user"]
  /\ index_consistent (apply_ops [DoCreate guest; DoDelete "id-user"] seeded).
Proof.
  assert (Hnamed : Forall creates_named [DoCreate guest; DoDelete "id-user"]).
  { apply Forall_cons_2; [discriminate|].
    apply Forall_cons_2; [exact I|]. apply Forall_nil_2. }
  split; [exact seeded_consistent|]. split; [exact Hnamed|].
  exact (index_kept_by_create_and_delete
           [DoCreate guest; DoDelete "id-user"] seeded
           seeded_consistent Hnamed).
Defined.

(** The admin's first name is changed before the assignment of
    [isEmailVerified] throws. *)
Lemma update_of_isEmailVerified_witness :
  In (UpdIsEmailVerified true) [UpdFirstName "Root"; UpdIsEmailVerified true]
  /\ (exists v r',
         updateUser configured "id-admin"
           [UpdFirstName "Root"; UpdIsEmailVerified true] seeded
         = (Return v, r')
         /\ is_failure v)
  /\ (exists e r',
         Repository.update 5000 "id-admin"
           [UpdFirstName "Root"; UpdIsEmailVerified true] seeded
         = (Throw e, r')
         /\ (_firstName <$> _users r' !! "id-admin") = Some "Root").
Proof.
  assert (Hnamed : In (UpdIsEmailVerified true)
                     [UpdFirstName "Root"; UpdIsEmailVerified true])
    by (right; left; reflexivity).
  split; [exact Hnamed|].
  destruct (update_of_isEmailVerified_fails configured "id-admin"
              [UpdFirstName "Root"; UpdIsEmailVerified true] true seeded
              Hnamed) as (Hservice & Hstore & _).
  split; [exact Hservice|].
  destruct (Hstore admin eq_refl) as (e & r' & Hrun & _ & Husers & _).
  exists e, r'. split; [exact Hrun|].
  rewrite Husers, lookup_insert_eq. reflexivity.
Defined.

(** The newcomer, created through the user service. *)
Lemma createUser_witness :
  exists v r',
    createUser configured newcomer seeded = (Return v, r')
    /\ is_success v
    /\ exists user,
         _users r' !! "id-new" = Some user
         /\ _password user = "password123".
Proof.
  pose (out := createUser configured newcomer seeded).
  assert (Hrun : createUser configured newcomer seeded
                 = (Return (match fst out with
                            | Return v => v
                            | Throw _ => VNull
                            end), snd out)) by reflexivity.
  assert (Hok : is_success (match fst out with
                            | Return v => v
                            | Throw _ => VNull
                            end)) by (eexists; reflexivity).
  eexists _, _. split; [exact Hrun|]. split; [exact Hok|].
  destruct (createUser_stores_password_as_given configured newcomer seeded
              _ _ Hrun Hok) as (user & Hstored & Hpassword & _).
  exists user. split; [exact Hstored|exact Hpassword].
Defined.

(** The newcomer registers; the store holds the account although no
    token can be issued for it. *)
Lemma registration_is_stored_witness :
  validRegistration newcomer = Some newcomer
  /\ Entity.validate
       (registrant configured newcomer
          (hashPassword configured (r_password newcomer))) = true
  /\ Repository.lookupByEmail (r_email newcomer) seeded = None
  /\ uuid configured <> ""
  /\ exists user,
       _users (snd (register configured newcomer seeded)) !! "id-new"
       = Some user
       /\ _password user = "salt|password123"
       /\ exists v,
            register configured
              {| r_email := "NEW@Example.com"; r_password := "password456";
                 r_firstName := "Jane"; r_lastName := "Doe";
                 r_role := None |}
              (snd (register configured newcomer seeded))
            = (Return v, snd (register configured newcomer seeded))
            /\ is_failure v.
Proof.
  assert (Hdata : validRegistration newcomer = Some newcomer)
    by reflexivity.
  assert (Hvalid : Entity.validate
                     (registrant configured newcomer
                        (hashPassword configured (r_password newcomer)))
                   = true) by reflexivity.
  assert (Hfree : Repository.lookupByEmail (r_email newcomer) seeded = None)
    by reflexivity.
  assert (Hid : uuid configured <> "") by discriminate.
  split; [exact Hdata|]. split; [exact Hvalid|]. split; [exact Hfree|].
  split; [exact Hid|].
  destruct (registration_is_stored_before_signing configured newcomer
              newcomer seeded Hdata Hvalid Hfree Hid)
    as (user & Hstored & Hpassword & _ & _ & _ & Hlater).
  exists user. split; [exact Hstored|]. split; [exact Hpassword|].
  apply (Hlater configured). reflexivity.
Defined.

(** The regular sample user, deactivated. *)
Lemma deactivated_user_witness :
  _users seeded !! "id-user" = Some regular
  /\ UserService.softDeleteUser configured "id-user" seeded
     = (Return (VObj [("success", VBool true);
                      ("data",
                       Entity.toPublicJSON
                         (Entity.softDelete 5000 regular))]),
        Repository.mutate "id-user" (Entity.softDelete 5000 regular) seeded).
Proof.
  assert (Hstored : _users seeded !! "id-user" = Some regular)
    by reflexivity.
  split; [exact Hstored|].
  destruct (deactivated_user_cannot_log_in configured "id-user" seeded
              regular Hstored) as [_ Hplain].
  destruct Hplain as (Hrun & _); [discriminate|exact Hrun].
Defined.

(** The regular sample user, verified. *)
Lemma verified_user_witness :
  _users seeded !! "id-user" = Some regular
  /\ exists u',
       UserService.verifyUserEmail configured "id-user" seeded
       = (Return (VObj [("success", VBool true);
                        ("data", Entity.toPublicJSON u')]),
          Repository.mutate "id-user" u' seeded)
       /\ AuthenticationMiddleware.requireEmailVerification (Some u') = Next.
Proof.
  assert (Hstored : _users seeded !! "id-user" = Some regular)
    by reflexivity.
  split; [exact Hstored|].
  destruct (verified_user_passes_gate configured "id-user" seeded regular
              Hstored) as (u' & Hrun & Hgate & _).
  exists u'. split; [exact Hrun|exact Hgate].
Defined.

(** The second page of two, of five. *)
Lemma page_witness :
  (0 < 2)%nat
  /\ Repository.paginate (Some 2%nat) (Some 2%nat) ["a"; "b"; "c"; "d"; "e"]
     = ["c"; "d"]
  /\ UserService.hasMore 5 (Some 2%nat) (Some 2%nat) = true.
Proof.
  assert (Hlimit : (0 < 2)%nat) by lia.
  split; [exact Hlimit|].
  destruct (page_is_a_stretch_of_the_list 2 2 ["a"; "b"; "c"; "d"; "e"]
              Hlimit) as (_ & _ & Hmore & _).
  split; [reflexivity|]. apply Hmore. discriminate.
Defined.

(** A token naming the regular sample user, signed with the configured
    secret and carrying nothing else, resets that user's password. *)
Lemma reset_witness :
  Entity.joi_min 8 "new-password" = true
  /\ @AuthenticationService.verifyToken
       (Jsonwebtoken.package Jsonwebtoken.ms_hours) configured
       (VJws "HS256" (VObj [("userId", VStr "id-user")]) "secret")
     = Return (VObj [("userId", VStr "id-user")])
  /\ _users seeded !! _id regular = Some regular
  /\ exists r',
       AuthController.resetPassword (fun _ _ => "") configured
         (VJws "HS256" (VObj [("userId", VStr "id-user")]) "secret")
         "new-password" seeded
       = (Return (BaseController.sendSuccess 5000 VNull 200
                    "Password reset successfully"), r')
       /\ exists user',
            _users r' !! "id-user" = Some user'
            /\ _password user' = "salt|new-password".
Proof.
  assert (Hpassword : Entity.joi_min 8 "new-password" = true)
    by reflexivity.
  assert (Hverify : @AuthenticationService.verifyToken
                      (Jsonwebtoken.package Jsonwebtoken.ms_hours) configured
                      (VJws "HS256" (VObj [("userId", VStr "id-user")])
                         "secret")
                    = Return (VObj [("userId", VStr "id-user")]))
    by reflexivity.
  assert (Hnames : Js.prop "userId" (VObj [("userId", VStr "id-user")])
                   = VStr (_id regular)) by reflexivity.
  assert (Hstored : _users seeded !! _id regular = Some regular)
    by reflexivity.
  split; [exact Hpassword|]. split; [exact Hverify|].
  split; [exact Hstored|].
  destruct (reset_accepts_any_verified_token Jsonwebtoken.ms_hours
              (fun _ _ => "") configured
              (VJws "HS256" (VObj [("userId", VStr "id-user")]) "secret")
              "new-password" (VObj [("userId", VStr "id-user")]) regular
              seeded Hpassword Hverify Hnames Hstored)
    as (r' & Hrun & (user' & Hu' & Hpw & _) & _).
  exists r'. split; [exact Hrun|]. exists user'.
  split; [exact Hu'|exact Hpw].
Defined.


(** A token under the configured secret, good for a hundred seconds of
    the epoch, verified in its sixth. *)
Lemma verifyToken_witness :
  @AuthenticationService.verifyToken
    (Jsonwebtoken.package Jsonwebtoken.ms_hours) configured
    (VJws "HS256" (VObj [("userId", VStr "id-user"); ("exp", VNum 100)])
       "secret")
  = Return (VObj [("userId", VStr "id-user"); ("exp", VNum 100)])
  /\ exists secret,
       AuthenticationService.secret_of configured = Some secret
       /\ secret <> ""
       /\ now configured / 1000 < 100.
Proof.
  assert (Hverify : @AuthenticationService.verifyToken
                      (Jsonwebtoken.package Jsonwebtoken.ms_hours) configured
                      (VJws "HS256"
                         (VObj [("userId", VStr "id-user");
                                ("exp", VNum 100)]) "secret")
                    = Return (VObj [("userId", VStr "id-user");
                                    ("exp", VNum 100)])) by reflexivity.
  split; [exact Hverify|].
  destruct (verifyToken_accepts_only_own_tokens Jsonwebtoken.ms_hours
              configured _ _ Hverify)
    as (secret & Hsecret & Hnonempty & _ & Hexp & _).
  exists secret. split; [exact Hsecret|]. split; [exact Hnonempty|].
  apply Hexp. reflexivity.
Defined.

(** The regular sample user, deactivated and restored. *)
Lemma restore_witness :
  _users seeded !! "id-user" = Some regular
  /\ Entity.isAdmin regular = false
  /\ _isActive regular = true
  /\ _users (snd (UserService.restoreUser configured "id-user"
                    (snd (UserService.softDeleteUser configured "id-user"
                            seeded)))) !! "id-user"
     = Some (Entity.touch 5000 regular).
Proof.
  assert (Hstored : _users seeded !! "id-user" = Some regular)
    by reflexivity.
  assert (Hplain : Entity.isAdmin regular = false) by reflexivity.
  assert (Hactive : _isActive regular = true) by reflexivity.
  split; [exact Hstored|]. split; [exact Hplain|]. split; [exact Hactive|].
  pose proof (restore_undoes_softDelete configured configured "id-user"
                regular seeded Hstored Hplain Hactive) as Hround.
  cbv zeta in Hround. destruct Hround as (_ & Hback & _). exact Hback.
Defined.
